(** * Multimodal RAG: ingestion pipeline and query jobs

    A shallow embedding of the Python sources

      - [populate_database.py]  (extraction, splitting, ids, de-duplicated write)
      - [rag_app/query_rag.py]  (retrieval, context assembly, generation)
      - [query_model.py]        (the job record and its DynamoDB table)
      - [app_api_handler.py]    (submit / fetch endpoints, worker dispatch)
      - [app_work_handler.py]   (the worker)

    Python [str] is modelled by [string] (one character per code point below
    256), [int] by [Z], [dict] by [gmap], exceptions by an explicit result
    type. *)

From Stdlib Require Import ZArith Ascii List Lia.
From stdpp Require Import base numbers option list gmap strings pretty sorting.

Local Open Scope Z_scope.

(** ** Python strings *)

Module PyStr.

Definition code (c : ascii) : N := N_of_ascii c.

(** [str.isspace] on the code points below 256. *)
Definition is_space (c : ascii) : bool :=
  let n := code c in
  ((9 <=? n) && (n <=? 13) || (28 <=? n) && (n <=? 32)
   || (n =? 133) || (n =? 160))%N.

Fixpoint lstrip (s : string) : string :=
  match s with
  | String c s' => if is_space c then lstrip s' else s
  | EmptyString => EmptyString
  end.

Definition rstrip (s : string) : string := String.rev (lstrip (String.rev s)).

Definition strip (s : string) : string := rstrip (lstrip s).

(** Truth value of a string: only the empty string is false. *)
Definition truthy (s : string) : bool :=
  match s with EmptyString => false | String _ _ => true end.

(** [str.lower] on the code points below 256. *)
Definition lower_char (c : ascii) : ascii :=
  let n := code c in
  if ((65 <=? n) && (n <=? 90)
      || (192 <=? n) && (n <=? 222) && negb (n =? 215))%N
  then ascii_of_N (n + 32) else c.

Fixpoint lower (s : string) : string :=
  match s with
  | String c s' => String (lower_char c) (lower s')
  | EmptyString => EmptyString
  end.

Fixpoint startswith (s p : string) : bool :=
  match p, s with
  | EmptyString, _ => true
  | String a p', String b s' => if decide (a = b) then startswith s' p' else false
  | String _ _, EmptyString => false
  end.

Definition endswith (s suffix : string) : bool :=
  startswith (String.rev s) (String.rev suffix).

(** [sep.join(parts)]. *)
Fixpoint join (sep : string) (parts : list string) : string :=
  match parts with
  | [] => ""
  | [p] => p
  | p :: rest => p +:+ sep +:+ join sep rest
  end.

Definition newline : string := String (ascii_of_N 10) "".
Definition tab : string := String (ascii_of_N 9) "".

(** [str(n)] for an [int]. *)
Definition of_int (z : Z) : string := pretty z.

End PyStr.

(** ** Exceptions

    Every exception the sources deal with is a subclass of [Exception];
    the handlers tell [botocore]'s [ClientError] from the rest. *)

Inductive Exn : Type :=
| ClientError (message : string)
| OtherException (message : string).

(** [str(e)]. *)
Definition exn_str (e : Exn) : string :=
  match e with ClientError m => m | OtherException m => m end.

Inductive Result (A : Type) : Type :=
| Ok (a : A)
| Raise (e : Exn).
Arguments Ok {A} a.
Arguments Raise {A} e.

Definition bind_result {A B} (r : Result A) (k : A → Result B) : Result B :=
  match r with Ok a => k a | Raise e => Raise e end.

(** ** Documents *)

(** A metadata value: the sources only store strings and integers. *)
Inductive MetaVal : Type :=
| MStr (s : string)
| MInt (z : Z).

Global Instance MetaVal_eq_dec : EqDecision MetaVal.
Proof. solve_decision. Defined.

(** The text an f-string prints for [d.get(k)]: absent keys give [None]. *)
Definition fmt (v : option MetaVal) : string :=
  match v with
  | None => "None"
  | Some (MStr s) => s
  | Some (MInt z) => PyStr.of_int z
  end.

(** langchain's [Document]. *)
Record Document : Type := mkDocument {
  page_content : string;
  metadata : gmap string MetaVal;
}.

Global Instance Document_eq_dec : EqDecision Document.
Proof. solve_decision. Defined.

(** [doc.metadata.get("type", "text")]. *)
Definition doc_type_of (doc : Document) : MetaVal :=
  default (MStr "text") (metadata doc !! "type").

(** ** [base64.b64encode] *)

Module Base64.

Definition alphabet : string :=
  "ABCDEFGHIJKLMNOPQRSTUVWXYZabcdefghijklmnopqrstuvwxyz0123456789+/".

Definition digit (n : N) : ascii :=
  default "="%char (String.get (N.to_nat n) alphabet).

Definition quad (a b c d : ascii) (rest : string) : string :=
  String a (String b (String c (String d rest))).

Fixpoint b64encode (bs : list Byte.byte) : string :=
  match bs with
  | [] => ""
  | [a] =>
      let x := Byte.to_N a in
      quad (digit (N.shiftr x 2)) (digit (N.shiftl (N.land x 3) 4))
           "="%char "="%char ""
  | [a; b] =>
      let x := Byte.to_N a in
      let y := Byte.to_N b in
      quad (digit (N.shiftr x 2))
           (digit (N.lor (N.shiftl (N.land x 3) 4) (N.shiftr y 4)))
           (digit (N.shiftl (N.land y 15) 2)) "="%char ""
  | a :: b :: c :: rest =>
      let x := Byte.to_N a in
      let y := Byte.to_N b in
      let z := Byte.to_N c in
      quad (digit (N.shiftr x 2))
           (digit (N.lor (N.shiftl (N.land x 3) 4) (N.shiftr y 4)))
           (digit (N.lor (N.shiftl (N.land y 15) 2) (N.shiftr z 6)))
           (digit (N.land z 63))
           (b64encode rest)
  end.

End Base64.

(** ** [populate_database.py] *)

Module PopulateDatabase.

Import PyStr.

Definition CHROMA_PATH : string := "src/data/chroma".
Definition DATA_SOURCE_PATH : string := "src/data/source".

(** *** What PyMuPDF hands back for an opened file *)

Record Span : Type := mkSpan { span_text : string }.
Record Line : Type := mkLine { spans : list Span }.
(** [block.get("lines", [])]: image blocks carry no ["lines"] key. *)
Record Block : Type := mkBlock { lines : option (list Line) }.
(** An entry of [page.get_images(full=True)]; [img[0]] is the xref. *)
Record Img : Type := mkImg { xref : N }.

Record Page : Type := mkPage {
  get_text : string;          (* page.get_text("text") *)
  get_images : list Img;      (* page.get_images(full=True) *)
  blocks : list Block;        (* page.get_text("dict")["blocks"] *)
}.

Record Pdf : Type := mkPdf {
  pages : list Page;
  extract_image : N → list Byte.byte;   (* extract_image(xref)["image"] *)
}.

(** [enumerate]. *)
Definition enumerate {A} (l : list A) : list (nat * A) :=
  imap (λ i x, (i, x)) l.

Definition meta (kvs : list (string * MetaVal)) : gmap string MetaVal :=
  list_to_map kvs.

(** *** [extract_pdf_content] *)

Definition text_units (file_path : string) (page_num : nat) (page : Page)
  : list Document :=
  let text := get_text page in
  if truthy (strip text)
  then [mkDocument text
          (meta [("source", MStr file_path);
                 ("page", MInt (Z.of_nat page_num + 1))])]
  else [].

Definition image_unit (file_path : string) (pdf : Pdf) (page_num : nat)
    (entry : nat * Img) : Document :=
  let '(img_index, img) := entry in
  let image_bytes := extract_image pdf (xref img) in
  let image_base64 := Base64.b64encode image_bytes in
  mkDocument image_base64
    (meta [("source", MStr file_path);
           ("page", MInt (Z.of_nat page_num + 1));
           ("type", MStr "image");
           ("image_index", MInt (Z.of_nat img_index))]).

Definition block_lines (block : Block) : list Line := default [] (lines block).

Definition looks_like_table (lns : list Line) : bool :=
  (1 <? length lns)%nat && forallb (λ line, (0 <? length (spans line))%nat) lns.

Definition table_content (lns : list Line) : string :=
  join newline (map (λ line, join tab (map span_text (spans line))) lns).

Definition table_units (file_path : string) (page_num : nat)
    (entry : nat * Block) : list Document :=
  let '(block_index, block) := entry in
  let lns := block_lines block in
  if looks_like_table lns
  then [mkDocument (table_content lns)
          (meta [("source", MStr file_path);
                 ("page", MInt (Z.of_nat page_num + 1));
                 ("type", MStr "table");
                 ("table_index", MInt (Z.of_nat block_index))])]
  else [].

(** One iteration of the page loop: text, then images, then tables. *)
Definition page_units (file_path : string) (pdf : Pdf)
    (entry : nat * Page) : list Document :=
  let '(page_num, page) := entry in
  text_units file_path page_num page
  ++ map (image_unit file_path pdf page_num) (enumerate (get_images page))
  ++ flat_map (table_units file_path page_num) (enumerate (blocks page)).

Definition extract_pages (file_path : string) (pdf : Pdf) : list Document :=
  flat_map (page_units file_path pdf) (enumerate (pages pdf)).

(** *** [load_documents] *)

Record FileSystem : Type := mkFileSystem {
  listdir : list string;             (* os.listdir(DATA_SOURCE_PATH) *)
  fitz_open : string → Result Pdf;   (* fitz.open(path) *)
}.

Definition extract_pdf_content (fs : FileSystem) (file_path : string)
  : Result (list Document) :=
  bind_result (fitz_open fs file_path) (λ pdf, Ok (extract_pages file_path pdf)).

(** [os.path.join] of two components. *)
Definition path_join (dir name : string) : string :=
  if startswith name "/" then name else dir +:+ "/" +:+ name.

Fixpoint load_loop (fs : FileSystem) (names : list string)
    (documents : list Document) : Result (list Document) :=
  match names with
  | [] => Ok documents
  | file_name :: rest =>
      let file_path := path_join DATA_SOURCE_PATH file_name in
      if endswith (lower file_name) ".pdf"
      then match extract_pdf_content fs file_path with
           | Ok docs => load_loop fs rest (documents ++ docs)
           | Raise e => Raise e
           end
      else load_loop fs rest documents
  end.

Definition load_documents (fs : FileSystem) : Result (list Document) :=
  load_loop fs (listdir fs) [].


(** *** [split_documents]

    langchain's [RecursiveCharacterTextSplitter] is a library outside the
    sources.  It is taken as a parameter: the constructor maps
    [chunk_size] and [chunk_overlap] to the [split_text] function of the
    splitter it builds.  [TextSplitter.split_documents] runs [split_text]
    on the text of every document it is given and wraps each piece in a
    new document carrying a copy of the metadata of its origin. *)

Definition SplitterLib : Type := nat → nat → string → list string.

Definition max_chunk_size : nat := 5000.
Definition chunk_overlap : nat := 200.

Definition create_documents (split_text : string → list string)
    (doc : Document) : list Document :=
  map (λ chunk, mkDocument chunk (metadata doc)) (split_text (page_content doc)).

Definition split_documents (RecursiveCharacterTextSplitter : SplitterLib)
    (documents : list Document) : list Document :=
  let text_splitter := RecursiveCharacterTextSplitter max_chunk_size chunk_overlap in
  flat_map (create_documents text_splitter) documents.

(** The one property of the library the development relies on: with the
    default separators, whose last one is the empty string, no piece is
    longer than [chunk_size]. *)
Definition respects_chunk_size (lib : SplitterLib) : Prop :=
  ∀ size overlap text chunk,
    chunk ∈ lib size overlap text → (String.length chunk ≤ size)%nat.

(** *** [add_to_chroma]

    The Chroma collection is a map from ids to stored documents.  The
    builtin [hash] of the running interpreter is a parameter. *)

Section AddToChroma.

Variable hash : string → Z.

Definition chunk_id (doc : Document) : string :=
  let source := metadata doc !! "source" in
  let page := metadata doc !! "page" in
  let doc_type := doc_type_of doc in
  fmt source +:+ ":" +:+ fmt page +:+ ":" +:+ fmt (Some doc_type)
    +:+ ":" +:+ of_int (hash (page_content doc)).

(** [doc.metadata["id"] = ...] *)
Definition assign_id (doc : Document) : Document :=
  mkDocument (page_content doc)
             (<["id" := MStr (chunk_id doc)]> (metadata doc)).

(** [doc.metadata["id"]] of a document that went through [assign_id]. *)
Definition id_of (doc : Document) : string :=
  fmt (metadata doc !! "id").

(** [set(db.get(include=[])["ids"])] *)
Definition existing_ids (db : gmap string Document) : gset string := dom db.

Definition new_documents (db : gmap string Document)
    (documents : list Document) : list Document :=
  filter (λ doc, id_of doc ∉ existing_ids db) (map assign_id documents).

Definition upsert_step (acc : gmap string Document)
    (entry : string * Document) : gmap string Document :=
  <[entry.1 := entry.2]> acc.

(** [db.add_documents(docs, ids=ids)]: an upsert by id; chromadb rejects a
    request that names one id twice. *)
Definition add_documents (db : gmap string Document)
    (docs : list Document) (ids : list string)
  : Result (gmap string Document) :=
  if decide (NoDup ids)
  then Ok (foldl upsert_step db (zip ids docs))
  else Raise (OtherException "DuplicateIDError").

Definition add_to_chroma (db : gmap string Document)
    (documents : list Document) : Result (gmap string Document) :=
  let new := new_documents db documents in
  match new with
  | [] => Ok db
  | _ :: _ => add_documents db new (map id_of new)
  end.

End AddToChroma.

End PopulateDatabase.

(** ** The world the query side runs in

    DynamoDB, the Lambda service, the vector index and the Bedrock model are
    collaborators outside the sources.  The table and the log of Lambda
    invocations and of prompts sent to the model are state; whether a call
    to a collaborator raises, and what it returns, is decided by the
    environment. *)

(** A value of a field of the job record, of its [dict] and of a table item. *)
Inductive FieldVal : Type :=
| FNone
| FStr (s : string)
| FInt (z : Z)
| FBool (b : bool)
| FList (l : list MetaVal).

Global Instance FieldVal_eq_dec : EqDecision FieldVal.
Proof. solve_decision. Defined.

Record Invocation : Type := mkInvocation {
  FunctionName : option string;
  InvocationType : string;
  Payload : gmap string FieldVal;       (* json.dumps of this dict *)
}.

Record World : Type := mkWorld {
  table : gmap string (gmap string FieldVal);   (* items by "query_id" *)
  invocations : list Invocation;
  prompts : list string;                        (* sent to the model *)
}.

Record Env : Type := mkEnv {
  WORKER_LAMBDA_NAME : option string;           (* os.environ.get(..., None) *)
  uuid4_hex : string;                           (* uuid.uuid4().hex *)
  time_time : Z;                                (* int(time.time()) *)
  ddb_put_fault : gmap string FieldVal → option Exn;
  ddb_get_fault : string → option Exn;
  lambda_fault : Invocation → option Exn;
  similarity_search_with_score : string → nat → Result (list (Document * Z));
  bedrock_invoke : string → Result string;
  lax_int : string → option Z;                  (* pydantic: a str given for an int *)
  lax_bool : string → option bool;              (* pydantic: a str given for a bool *)
}.

(** Computations that may raise and that change the world. *)
Definition Py (A : Type) : Type := World → Result A * World.

Global Instance Py_ret : MRet Py := λ A a w, (Ok a, w).
Global Instance Py_bind : MBind Py := λ A B k m w,
  match m w with
  | (Ok a, w') => k a w'
  | (Raise e, w') => (Raise e, w')
  end.

Definition raise {A} (e : Exn) : Py A := λ w, (Raise e, w).

Definition lift {A} (r : Result A) : Py A := λ w, (r, w).

(** [try: body  except Exception as e: handler(e)] *)
Definition try_except {A} (body : Py A) (handler : Exn → Py A) : Py A := λ w,
  match body w with
  | (Ok a, w') => (Ok a, w')
  | (Raise e, w') => handler e w'
  end.

(** ** [query_model.py] *)

Module QueryModel.

Record t : Type := mk {
  query_id : string;
  create_time : Z;
  query_text : string;
  answer_text : option string;
  sources : list MetaVal;
  is_complete : bool;
}.

Definition opt_str (o : option string) : FieldVal :=
  match o with Some s => FStr s | None => FNone end.

(** [self.dict()] / [self.model_dump()] *)
Definition dict (self : t) : gmap string FieldVal :=
  list_to_map
    [("query_id", FStr (query_id self));
     ("create_time", FInt (create_time self));
     ("query_text", FStr (query_text self));
     ("answer_text", opt_str (answer_text self));
     ("sources", FList (sources self));
     ("is_complete", FBool (is_complete self))].

(** [{k: v for k, v in self.dict().items() if v is not None}] *)
Definition as_ddb_item (self : t) : gmap string FieldVal :=
  filter (λ kv, kv.2 ≠ FNone) (dict self).

Definition ValidationError : Exn := OtherException "ValidationError".

Definition is_str (v : MetaVal) : bool :=
  match v with MStr _ => true | MInt _ => false end.

(** The constructor applied to keyword arguments: absent fields take their
    defaults and unknown keys are ignored.  Validation is pydantic's, in its
    default (lax) mode: a value of the declared type is taken as it is; for
    an [int] field a [bool] counts as 0 or 1 and a [str] is read as a number
    where pydantic can ([lax_int]); for a [bool] field the numbers 0 and 1
    and the words pydantic knows ([lax_bool]) are accepted; nothing is
    converted to [str]. *)
Definition init (env : Env) (kwargs : gmap string FieldVal) : Result t :=
  bind_result (match kwargs !! "query_id" with
               | None => Ok (uuid4_hex env)
               | Some (FStr s) => Ok s
               | Some _ => Raise ValidationError
               end) (λ qid,
  bind_result (match kwargs !! "create_time" with
               | None => Ok (time_time env)
               | Some (FInt z) => Ok z
               | Some (FBool b) => Ok (Z.b2z b)
               | Some (FStr s) =>
                   match lax_int env s with
                   | Some z => Ok z
                   | None => Raise ValidationError
                   end
               | Some _ => Raise ValidationError
               end) (λ ctime,
  bind_result (match kwargs !! "query_text" with
               | Some (FStr s) => Ok s
               | _ => Raise ValidationError
               end) (λ qtext,
  bind_result (match kwargs !! "answer_text" with
               | None | Some FNone => Ok None
               | Some (FStr s) => Ok (Some s)
               | Some _ => Raise ValidationError
               end) (λ atext,
  bind_result (match kwargs !! "sources" with
               | None => Ok []
               | Some (FList l) =>
                   if forallb is_str l then Ok l else Raise ValidationError
               | Some _ => Raise ValidationError
               end) (λ srcs,
  bind_result (match kwargs !! "is_complete" with
               | None => Ok false
               | Some (FBool b) => Ok b
               | Some (FInt z) =>
                   if decide (z = 0) then Ok false
                   else if decide (z = 1) then Ok true
                   else Raise ValidationError
               | Some (FStr s) =>
                   match lax_bool env s with
                   | Some b => Ok b
                   | None => Raise ValidationError
                   end
               | Some _ => Raise ValidationError
               end) (λ done,
  Ok (mk qid ctime qtext atext srcs done))))))).

(** [table.put_item(Item=item)] *)
Definition ddb_put_item (env : Env) (item : gmap string FieldVal) : Py unit :=
  λ w,
    match ddb_put_fault env item with
    | Some e => (Raise e, w)
    | None =>
        match item !! "query_id" with
        | Some (FStr key) =>
            (Ok (), mkWorld (<[key := item]> (table w)) (invocations w) (prompts w))
        | _ => (Raise (ClientError "ValidationException"), w)
        end
    end.

(** [table.get_item(Key={"query_id": query_id})]; the result is the
    ["Item"] entry of the response, when there is one. *)
Definition ddb_get_item (env : Env) (key : string)
  : Py (option (gmap string FieldVal)) :=
  λ w,
    match ddb_get_fault env key with
    | Some e => (Raise e, w)
    | None => (Ok (table w !! key), w)
    end.

Definition put_item (env : Env) (self : t) : Py unit :=
  let item := as_ddb_item self in
  try_except (ddb_put_item env item)
    (λ e, match e with
          | ClientError _ => raise e       (* print; raise e *)
          | OtherException _ => raise e    (* not caught *)
          end).

(** The [try] block returns from the function inside the handler, so the
    rest of the body is the continuation of the protected call. *)
Definition get_item (env : Env) (query_id : string) : Py (option t) :=
  λ w,
    match ddb_get_item env query_id w with
    | (Raise (ClientError _), w') => (Ok None, w')      (* print; return None *)
    | (Raise e, w') => (Raise e, w')
    | (Ok response, w') =>
        match response with
        | Some item =>
            match init env item with
            | Ok q => (Ok (Some q), w')
            | Raise e => (Raise e, w')
            end
        | None => (Ok None, w')
        end
    end.

End QueryModel.

(** ** [rag_app/query_rag.py] *)

Module QueryRag.

Import PyStr.

Definition dquote : string := String (ascii_of_N 34) "".

Definition BEDROCK_MODEL_ID : string := "anthropic.claude-3-haiku-20240307-v1:0".

(** [PROMPT_TEMPLATE], cut at its two placeholders. *)
Definition PROMPT_before_context : string :=
  newline
  +:+ "If the context is not enough for an answer, add contact information to the response and advise to contact "
  +:+ newline +:+ "support 'support@airobotics.com'"
  +:+ newline +:+ "Do not include wording like: " +:+ dquote
  +:+ "The context does not provide enough information" +:+ dquote
  +:+ " into the answer."
  +:+ newline +:+ "Answer the question based only on the following context:"
  +:+ newline +:+ newline +:+ newline.

Definition PROMPT_before_question : string :=
  newline +:+ newline +:+ "---" +:+ newline +:+ newline
  +:+ "Answer the question based on the above context: ".

Definition PROMPT_after_question : string := newline.

(** [ChatPromptTemplate.from_template(PROMPT_TEMPLATE).format(...)]: the
    template is rendered as one human message. *)
Definition format_prompt (context question : string) : string :=
  "Human: " +:+ PROMPT_before_context +:+ context
    +:+ PROMPT_before_question +:+ question +:+ PROMPT_after_question.

Record QueryResponse : Type := mkQueryResponse {
  qr_query_text : string;
  response_text : string;
  qr_sources : list MetaVal;
}.

(** The three lists the grouping loop appends to. *)
Record Groups : Type := mkGroups {
  text_context : list string;
  table_context : list string;
  image_context : list string;
}.

Definition group_step (g : Groups) (result : Document * Z) : Groups :=
  let '(doc, _score) := result in
  let content_type := doc_type_of doc in
  if decide (content_type = MStr "text") then
    mkGroups (text_context g ++ [page_content doc])
             (table_context g) (image_context g)
  else if decide (content_type = MStr "table") then
    mkGroups (text_context g) (table_context g ++ [page_content doc])
             (image_context g)
  else if decide (content_type = MStr "image") then
    mkGroups (text_context g) (table_context g)
             (image_context g ++ ["Image (Base64): " +:+ page_content doc])
  else g.

Definition group_results (results : list (Document * Z)) : Groups :=
  foldl group_step (mkGroups [] [] []) results.

Definition blank_line : string := newline +:+ newline.

Definition render_context (g : Groups) : string :=
  "### Text:" +:+ newline +:+ join blank_line (text_context g)
  +:+ blank_line +:+ "### Tables:" +:+ newline +:+ join blank_line (table_context g)
  +:+ blank_line +:+ "### Images:" +:+ newline +:+ join blank_line (image_context g).

Definition context_text (results : list (Document * Z)) : string :=
  render_context (group_results results).

(** [[doc.metadata.get("id", "unknown") for doc, _score in results]] *)
Definition sources_of (results : list (Document * Z)) : list MetaVal :=
  map (λ result, default (MStr "unknown") (metadata result.1 !! "id")) results.

(** [ChatBedrock(model_id=...).invoke(prompt).content] *)
Definition model_invoke (env : Env) (prompt : string) : Py string := λ w,
  (bedrock_invoke env prompt,
   mkWorld (table w) (invocations w) (prompts w ++ [prompt])).

Definition query_rag (env : Env) (query_text : string) : Py QueryResponse :=
  results ← lift (similarity_search_with_score env query_text 5%nat);
  let prompt := format_prompt (context_text results) query_text in
  response_text ←
    try_except (model_invoke env prompt)
      (λ e, mret ("Error generating response: " +:+ exn_str e));
  let sources := sources_of results in
  mret (mkQueryResponse query_text response_text sources).

End QueryRag.

(** ** [app_work_handler.py] *)

Module AppWorkHandler.

Definition invoke_rag (env : Env) (query_item : QueryModel.t) : Py QueryModel.t :=
  rag_response ← QueryRag.query_rag env (QueryModel.query_text query_item);
  let query_item :=
    QueryModel.mk (QueryModel.query_id query_item)
                  (QueryModel.create_time query_item)
                  (QueryModel.query_text query_item)
                  (Some (QueryRag.response_text rag_response))
                  (QueryRag.qr_sources rag_response)
                  true in
  _ ← QueryModel.put_item env query_item;
  mret query_item.

Definition handler (env : Env) (event : gmap string FieldVal) : Py unit :=
  query_item ← lift (QueryModel.init env event);
  _ ← invoke_rag env query_item;
  mret ().

End AppWorkHandler.

(** ** [app_api_handler.py] *)

Module AppApiHandler.

(** Truth value of [WORKER_LAMBDA_NAME]: unset and empty are both false. *)
Definition worker_configured (env : Env) : bool :=
  match WORKER_LAMBDA_NAME env with
  | Some name => PyStr.truthy name
  | None => false
  end.

Definition invoke_worker (env : Env) (query : QueryModel.t) : Py unit := λ w,
  let payload := QueryModel.dict query in
  let call := mkInvocation (WORKER_LAMBDA_NAME env) "Event" payload in
  match lambda_fault env call with
  | Some e => (Raise e, w)
  | None => (Ok (), mkWorld (table w) (invocations w ++ [call]) (prompts w))
  end.

Definition get_query_endpoint (env : Env) (query_id : string)
  : Py (option QueryModel.t) :=
  QueryModel.get_item env query_id.

Definition submit_query_endpoint (env : Env) (request_query_text : string)
  : Py QueryModel.t :=
  new_query ← lift (QueryModel.init env {[ "query_text" := FStr request_query_text ]});
  if worker_configured env then
    _ ← QueryModel.put_item env new_query;
    _ ← invoke_worker env new_query;
    mret new_query
  else
    query_response ← QueryRag.query_rag env request_query_text;
    let new_query :=
      QueryModel.mk (QueryModel.query_id new_query)
                    (QueryModel.create_time new_query)
                    (QueryModel.query_text new_query)
                    (Some (QueryRag.response_text query_response))
                    (QueryRag.qr_sources query_response)
                    true in
    _ ← QueryModel.put_item env new_query;
    mret new_query.

End AppApiHandler.

(** ** The builtin [hash] on [str]

    CPython hashes a string with SipHash-1-3 over its bytes, keyed by a
    secret that is fixed when the interpreter starts: drawn at random by
    default, derived from [PYTHONHASHSEED] when that is set.  The key is the
    per-process parameter of [hash]. *)

Module PyHash.

Definition u64 (x : Z) : Z := Z.land x (Z.ones 64).
Definition u32 (x : Z) : Z := Z.land x (Z.ones 32).

Definition rotl (x b : Z) : Z :=
  u64 (Z.lor (Z.shiftl x b) (Z.shiftr x (64 - b))).

Record State : Type := mkState { v0 : Z; v1 : Z; v2 : Z; v3 : Z }.

Definition single_round (s : State) : State :=
  let '(mkState a b c d) := s in
  let a := u64 (a + b) in
  let c := u64 (c + d) in
  let b := Z.lxor (rotl b 13) a in
  let d := Z.lxor (rotl d 16) c in
  let a := rotl a 32 in
  let c := u64 (c + b) in
  let a := u64 (a + d) in
  let b := Z.lxor (rotl b 17) c in
  let d := Z.lxor (rotl d 21) a in
  let c := rotl c 32 in
  mkState a b c d.

(** Little-endian word of a run of bytes. *)
Fixpoint le_word (bs : list Z) : Z :=
  match bs with
  | [] => 0
  | b :: rest => Z.lor b (Z.shiftl (le_word rest) 8)
  end.

Definition mix (s : State) (m : Z) : State :=
  let s := single_round (mkState (v0 s) (v1 s) (v2 s) (Z.lxor (v3 s) m)) in
  mkState (Z.lxor (v0 s) m) (v1 s) (v2 s) (v3 s).

(** The loop over whole 8-byte words; returns the bytes left over. *)
Fixpoint absorb (s : State) (data : list Z) : State * list Z :=
  match data with
  | b0 :: b1 :: b2 :: b3 :: b4 :: b5 :: b6 :: b7 :: rest =>
      absorb (mix s (le_word [b0; b1; b2; b3; b4; b5; b6; b7])) rest
  | _ => (s, data)
  end.

Definition siphash13 (k0 k1 : Z) (data : list Z) : Z :=
  let b := u64 (Z.shiftl (Z.of_nat (length data)) 56) in
  let s := mkState (Z.lxor k0 0x736f6d6570736575) (Z.lxor k1 0x646f72616e646f6d)
                   (Z.lxor k0 0x6c7967656e657261) (Z.lxor k1 0x7465646279746573) in
  let '(s, tail) := absorb s data in
  let b := Z.lor b (le_word tail) in
  let s := mix s b in
  let s := mkState (v0 s) (v1 s) (Z.lxor (v2 s) 0xff) (v3 s) in
  let s := single_round (single_round (single_round s)) in
  u64 (Z.lxor (Z.lxor (v0 s) (v1 s)) (Z.lxor (v2 s) (v3 s))).

Fixpoint bytes_of (s : string) : list Z :=
  match s with
  | EmptyString => []
  | String c s' => Z.of_N (N_of_ascii c) :: bytes_of s'
  end.

(** A 64-bit pattern read as [Py_hash_t]. *)
Definition signed (x : Z) : Z := if x <? 2 ^ 63 then x else x - 2 ^ 64.

(** [hash(s)] in an interpreter whose secret is [(k0, k1)]. *)
Definition hash (key : Z * Z) (s : string) : Z :=
  match s with
  | EmptyString => 0
  | _ =>
      let x := signed (siphash13 key.1 key.2 (bytes_of s)) in
      if decide (x = -1) then -2 else x
  end.

(** The secret an interpreter started with [PYTHONHASHSEED=seed] uses. *)
Fixpoint lcg_urandom (x : Z) (n : nat) : list Z :=
  match n with
  | O => []
  | S n' =>
      let x := u32 (x * 214013 + 2531011) in
      Z.land (Z.shiftr x 16) 255 :: lcg_urandom x n'
  end.

Definition key_of_seed (seed : Z) : Z * Z :=
  if decide (seed = 0) then (0, 0)
  else
    let secret := lcg_urandom seed 24 in
    (le_word (take 8 secret), le_word (take 8 (drop 8 secret))).

End PyHash.

(** What every [hash] has in common: its values are 64-bit signed. *)
Definition py_hash_range (hash : string → Z) : Prop :=
  ∀ s, - 2 ^ 63 ≤ hash s < 2 ^ 63.

(** ** Vocabulary of the statements *)

Module Units.

(** The page number a unit is tagged with. *)
Definition unit_page (doc : Document) : Z :=
  match metadata doc !! "page" with
  | Some (MInt z) => z
  | _ => 0
  end.

(** Text units are the ones without a ["type"] entry. *)
Definition is_text_unit (doc : Document) : bool :=
  bool_decide (metadata doc !! "type" = None).

(** Position of a kind inside one page, as the page loop emits them:
    text, image, table. *)
Definition emitted_rank (doc : Document) : nat :=
  let ty := doc_type_of doc in
  if decide (ty = MStr "text") then 0
  else if decide (ty = MStr "image") then 1
  else if decide (ty = MStr "table") then 2
  else 3.

(** The other order: text, table, image. *)
Definition tables_first_rank (doc : Document) : nat :=
  let ty := doc_type_of doc in
  if decide (ty = MStr "text") then 0
  else if decide (ty = MStr "table") then 1
  else if decide (ty = MStr "image") then 2
  else 3.

(** Pages ascending, then the given order of kinds within a page. *)
Definition unit_le (rank : Document → nat) (d1 d2 : Document) : Prop :=
  unit_page d1 < unit_page d2
  ∨ (unit_page d1 = unit_page d2 ∧ (rank d1 ≤ rank d2)%nat).

Global Instance unit_le_dec rank : RelDecision (unit_le rank).
Proof. intros d1 d2. unfold unit_le. apply _. Defined.

Definition blank (text : string) : bool := negb (PyStr.truthy (PyStr.strip text)).

(** The test [load_documents] applies to a directory entry, and the path
    it opens. *)
Definition is_pdf_name (file_name : string) : bool :=
  PyStr.endswith (PyStr.lower file_name) ".pdf".

Definition source_path (file_name : string) : string :=
  PopulateDatabase.path_join PopulateDatabase.DATA_SOURCE_PATH file_name.

(** Kinds of retrieved units, read the way [query_rag] reads them. *)
Definition has_type (ty : string) (result : Document * Z) : Prop :=
  doc_type_of result.1 = MStr ty.

Global Instance has_type_dec ty result : Decision (has_type ty result).
Proof. unfold has_type. apply _. Defined.

Definition known_type (result : Document * Z) : Prop :=
  has_type "text" result ∨ has_type "table" result ∨ has_type "image" result.

Definition payload (result : Document * Z) : string := page_content result.1.

Definition image_entry (result : Document * Z) : string :=
  "Image (Base64): " +:+ page_content result.1.

(** What a result contributes to its section. *)
Definition entry (result : Document * Z) : string :=
  if decide (has_type "image" result) then image_entry result else payload result.

(** The answer text [query_rag] settles on for an outcome of the model
    call. *)
Definition answer_for (outcome : Result string) : string :=
  match outcome with
  | Ok text => text
  | Raise e => "Error generating response: " +:+ exn_str e
  end.

(** A job after the pipeline has run for it. *)
Definition completed (job : QueryModel.t) (answer : string)
    (results : list (Document * Z)) : QueryModel.t :=
  QueryModel.mk (QueryModel.query_id job) (QueryModel.create_time job)
                (QueryModel.query_text job)
                (Some answer) (QueryRag.sources_of results) true.

(** The world after one more prompt went to the model. *)
Definition prompted (w : World) (prompt : string) : World :=
  mkWorld (table w) (invocations w) (prompts w ++ [prompt]).

(** The world after an item was written to the table. *)
Definition stored (w : World) (key : string) (item : gmap string FieldVal) : World :=
  mkWorld (<[key := item]> (table w)) (invocations w) (prompts w).

(** The world after a Lambda invocation was accepted. *)
Definition invoked (w : World) (call : Invocation) : World :=
  mkWorld (table w) (invocations w ++ [call]) (prompts w).

End Units.

(** ** Sample inputs *)

Module Samples.

Import PopulateDatabase.

Definition two_line_block : Block :=
  mkBlock (Some [mkLine [mkSpan "a"; mkSpan "b"]; mkLine [mkSpan "c"]]).

(** One page: some text, one embedded image, one block that passes for a
    table. *)
Definition mixed_page : Page :=
  mkPage "Robots are built at AIR Lab." [mkImg 7] [two_line_block].

(** One page without text that carries an image. *)
Definition scanned_page : Page := mkPage " " [mkImg 7] [].

Definition image_bytes (_ : N) : list Byte.byte := [Byte.x4d; Byte.x61; Byte.x6e].

Definition mixed_pdf : Pdf := mkPdf [mixed_page] image_bytes.
Definition scanned_pdf : Pdf := mkPdf [scanned_page] image_bytes.
Definition two_page_pdf : Pdf := mkPdf [scanned_page; mixed_page] image_bytes.

(** A source directory with a file that cannot be opened, a file that is
    not a PDF, and a good one. *)
Definition source_dir : FileSystem :=
  mkFileSystem ["broken.pdf"; "notes.txt"; "Manual.PDF"]
    (λ path, if decide (path = "src/data/source/Manual.PDF") then Ok mixed_pdf
             else Raise (OtherException "FileDataError")).

Definition good_dir : FileSystem :=
  mkFileSystem ["notes.txt"; "Manual.PDF"]
    (λ path, if decide (path = "src/data/source/Manual.PDF") then Ok mixed_pdf
             else Raise (OtherException "FileDataError")).

(** Character windows: what the recursive splitter comes down to on a
    text without separators and without white space, where it falls back
    to the empty separator.  Windows are [size] long and start every
    [size - overlap] characters. *)
Fixpoint take_chars (n : nat) (s : string) : string :=
  match n, s with
  | S n', String c s' => String c (take_chars n' s')
  | _, _ => ""
  end.

Fixpoint drop_chars (n : nat) (s : string) : string :=
  match n, s with
  | S n', String _ s' => drop_chars n' s'
  | _, _ => s
  end.

Fixpoint windows (fuel size step : nat) (text : string) : list string :=
  match fuel with
  | O => []
  | S fuel' =>
      if (String.length text <=? size)%nat then [text]
      else take_chars size text :: windows fuel' size step (drop_chars step text)
  end.

Definition char_windows : SplitterLib := λ size overlap text,
  match text with
  | "" => []
  | _ => windows (String.length text) size (size - overlap) text
  end.

(** An image of 3751 bytes: its base64 text is 5004 characters long. *)
Definition big_image_bytes (_ : N) : list Byte.byte := repeat Byte.x4d 3751.

Definition big_image_pdf : Pdf := mkPdf [mkPage "" [mkImg 3] []] big_image_bytes.

Definition big_image_unit : Document :=
  image_unit "scan.pdf" big_image_pdf 0 (0%nat, mkImg 3).

(** A chunk as it reaches [add_to_chroma], and the [hash] of two
    interpreter processes, started with [PYTHONHASHSEED] 1 and 2. *)
Definition robots_chunk : Document :=
  mkDocument "Robots are built at AIR Lab."
    (meta [("source", MStr "src/data/source/Manual.PDF"); ("page", MInt 1)]).

Definition hash_seed1 : string → Z := PyHash.hash (PyHash.key_of_seed 1).
Definition hash_seed2 : string → Z := PyHash.hash (PyHash.key_of_seed 2).

(** Retrieval results: a table, a text chunk without id, an image. *)
Definition table_unit : Document :=
  mkDocument "a" (meta [("source", MStr "m.pdf"); ("page", MInt 1);
                        ("type", MStr "table"); ("id", MStr "m.pdf:1:table:7")]).

Definition image_result : Document :=
  mkDocument "TWFu" (meta [("source", MStr "m.pdf"); ("page", MInt 1);
                           ("type", MStr "image"); ("id", MStr "m.pdf:1:image:9")]).

Definition results : list (Document * Z) :=
  [(table_unit, 3); (robots_chunk, 2); (image_result, 1)].

(** A reading of strings as numbers and truth values: decimal digits, and
    the words for true and false in lower case. *)
Fixpoint digits (acc : Z) (s : string) : option Z :=
  match s with
  | EmptyString => Some acc
  | String c s' =>
      let n := PyStr.code c in
      if ((48 <=? n) && (n <=? 57))%N
      then digits (10 * acc + Z.of_N (n - 48)) s'
      else None
  end.

Definition plain_int (s : string) : option Z :=
  match s with
  | EmptyString => None
  | _ => digits 0 s
  end.

Definition word_bool (s : string) : option bool :=
  if decide (s ∈ ["1"; "on"; "t"; "true"; "y"; "yes"]) then Some true
  else if decide (s ∈ ["0"; "off"; "f"; "false"; "n"; "no"]) then Some false
  else None.

(** Environments: everything healthy unless said otherwise. *)
Definition env_with (worker : option string) (bedrock : string → Result string)
    (get_fault : string → option Exn) : Env :=
  mkEnv worker "0f8fad5bd9cb469fa16570867728950e" 1730000000
        (λ _, None) get_fault (λ _, None)
        (λ _ _, Ok results) bedrock plain_int word_bool.

Definition no_fault (_ : string) : option Exn := None.

Definition answering (_ : string) : Result string := Ok "At AIR Lab.".

Definition env_sync : Env := env_with None answering no_fault.
Definition env_worker : Env := env_with (Some "rag-worker") answering no_fault.
Definition env_model_down : Env :=
  env_with None (λ _, Raise (OtherException "AccessDeniedException")) no_fault.
Definition env_table_down : Env :=
  env_with None answering (λ _, Some (ClientError "Requested resource not found")).

Definition empty_world : World := mkWorld ∅ [] [].

Definition pending_job : QueryModel.t :=
  QueryModel.mk "0f8fad5bd9cb469fa16570867728950e" 1730000000
                "Where are robots built?" None [] false.

(** A world whose table holds the pending job. *)
Definition world_with_job : World :=
  mkWorld {[ "0f8fad5bd9cb469fa16570867728950e" := QueryModel.as_ddb_item pending_job ]}
          [] [].

End Samples.

(** ** [populate_database.py]: the script as a whole *)

Module PopulateMain.

Import PopulateDatabase.

(** The directory at [CHROMA_PATH] is absent ([None]) or holds a collection.
    [Chroma(persist_directory=CHROMA_PATH, ...)] opens the collection and
    starts an empty one when the directory is not there. *)
Definition open_chroma (dir : option (gmap string Document)) : gmap string Document :=
  default ∅ dir.

(** [clear_database]: [shutil.rmtree(CHROMA_PATH)] when the path exists. *)
Definition clear_database (dir : option (gmap string Document))
  : option (gmap string Document) :=
  match dir with
  | Some _ => None
  | None => None
  end.

(** [main]; [reset] is [args.reset].  The second component is the directory
    the run leaves behind. *)
Definition main (reset : bool) (fs : FileSystem) (lib : SplitterLib)
    (hash : string → Z) (dir : option (gmap string Document))
  : Result unit * option (gmap string Document) :=
  let dir := if reset then clear_database dir else dir in
  match load_documents fs with
  | Raise e => (Raise e, dir)
  | Ok documents =>
      let chunks := split_documents lib documents in
      let db := open_chroma dir in
      match add_to_chroma hash db chunks with
      | Ok db' => (Ok (), Some db')
      | Raise e => (Raise e, Some db)
      end
  end.

End PopulateMain.

(** ** [rag_app/get_chroma_db.py] *)

Module GetChromaDb.

(** The two environment variables the module reads when it is imported. *)
Record Environ : Type := mkEnviron {
  env_CHROMA_PATH : option string;
  env_IS_USING_IMAGE_RUNTIME : option string;
}.

(** [os.environ.get("CHROMA_PATH", "data/chroma")] *)
Definition CHROMA_PATH (environ : Environ) : string :=
  default "data/chroma" (env_CHROMA_PATH environ).

(** [bool(os.environ.get("IS_USING_IMAGE_RUNTIME", False))] *)
Definition IS_USING_IMAGE_RUNTIME (environ : Environ) : bool :=
  match env_IS_USING_IMAGE_RUNTIME environ with
  | Some value => PyStr.truthy value
  | None => false
  end.

Definition get_runtime_chroma_path (environ : Environ) : string :=
  if IS_USING_IMAGE_RUNTIME environ
  then "/tmp/" +:+ CHROMA_PATH environ
  else CHROMA_PATH environ.

(** The handle [Chroma(persist_directory=..., embedding_function=...)]. *)
Record Chroma : Type := mkChroma { persist_directory : string }.

(** The running process: the module global, the directories it sees (a
    path with the names of its entries; what is inside the entries is not
    looked at), whether [sys.modules["sqlite3"]] has been replaced, and the
    directories [Chroma] has been constructed on so far.  Paths are taken as
    they are written: two different paths are two directories, and the
    parent directories [os.makedirs] creates on the way are not recorded. *)
Record Process : Type := mkProcess {
  CHROMA_DB_INSTANCE : option Chroma;
  dirs : gmap string (list string);
  sqlite3_swapped : bool;
  opened : list string;
}.

Definition FileNotFoundError : Exn := OtherException "FileNotFoundError".

(** [os.path.exists] *)
Definition path_exists (p : Process) (path : string) : bool :=
  bool_decide (is_Some (dirs p !! path)).

Definition with_dirs (p : Process) (d : gmap string (list string)) : Process :=
  mkProcess (CHROMA_DB_INSTANCE p) d (sqlite3_swapped p) (opened p).

(** [shutil.copytree(src, dst, dirs_exist_ok=True)]: the entries of [src]
    appear in [dst]; entries [dst] already has under other names stay. *)
Definition copytree (src dst : string) (p : Process) : Result unit * Process :=
  match dirs p !! src with
  | None => (Raise FileNotFoundError, p)
  | Some entries =>
      let old := default [] (dirs p !! dst) in
      (Ok (), with_dirs p (<[dst := entries ++ filter (λ name, name ∉ entries) old]> (dirs p)))
  end.

Definition copy_chroma_to_tmp (environ : Environ) (p : Process)
  : Result unit * Process :=
  let dst_chroma_path := get_runtime_chroma_path environ in
  (* if not os.path.exists(dst): os.makedirs(dst) *)
  let p := if path_exists p dst_chroma_path then p
           else with_dirs p (<[dst_chroma_path := []]> (dirs p)) in
  (* tmp_contents = os.listdir(dst) *)
  match dirs p !! dst_chroma_path with
  | None => (Raise FileNotFoundError, p)
  | Some tmp_contents =>
      if (length tmp_contents =? 0)%nat
      then (* os.makedirs(dst, exist_ok=True) finds the directory there *)
           copytree (CHROMA_PATH environ) dst_chroma_path p
      else (Ok (), p)
  end.

(** [Chroma(persist_directory=path, embedding_function=...)]: the client
    creates the directory and the store file in it where they are missing;
    what is there already stays. *)
Definition STORE_FILE : string := "chroma.sqlite3".

Definition with_store (entries : list string) : list string :=
  if decide (STORE_FILE ∈ entries) then entries else entries ++ [STORE_FILE].

Definition open_store (path : string) (p : Process) : Chroma * Process :=
  (mkChroma path,
   mkProcess (CHROMA_DB_INSTANCE p)
             (<[path := with_store (default [] (dirs p !! path))]> (dirs p))
             (sqlite3_swapped p) (opened p ++ [path])).

(** The body of [if not CHROMA_DB_INSTANCE:]; the image is taken to ship
    [pysqlite3], so that the import goes through. *)
Definition initialise (environ : Environ) (p : Process) : Result Chroma * Process :=
  let prepared :=
    if IS_USING_IMAGE_RUNTIME environ
    then copy_chroma_to_tmp environ
           (mkProcess (CHROMA_DB_INSTANCE p) (dirs p) true (opened p))
    else (Ok (), p) in
  match prepared with
  | (Raise e, p') => (Raise e, p')
  | (Ok _, p') =>
      let '(instance, p'') := open_store (get_runtime_chroma_path environ) p' in
      (Ok instance,
       mkProcess (Some instance) (dirs p'') (sqlite3_swapped p'') (opened p''))
  end.

(** [truth] is the truth value Python gives a handle in
    [not CHROMA_DB_INSTANCE]; the class of the handle decides it. *)
Definition get_chroma_db (truth : Chroma → bool) (environ : Environ) (p : Process)
  : Result Chroma * Process :=
  match CHROMA_DB_INSTANCE p with
  | Some instance =>
      if truth instance then (Ok instance, p) else initialise environ p
  | None => initialise environ p
  end.

End GetChromaDb.

(** ** More vocabulary *)

Module Vocabulary.

Import PopulateDatabase.

(** What one directory entry contributes to [load_documents] when every
    PDF opens. *)
Definition units_of (fs : FileSystem) (file_name : string) : list Document :=
  if Units.is_pdf_name file_name
  then match fitz_open fs (Units.source_path file_name) with
       | Ok pdf => extract_pages (Units.source_path file_name) pdf
       | Raise _ => []
       end
  else [].

(** Every entry of a collection is filed under the id its metadata names. *)
Definition ids_consistent (db : gmap string Document) : Prop :=
  ∀ key doc, db !! key = Some doc → metadata doc !! "id" = Some (MStr key).

(** The characters of the base64 alphabet, and the padding. *)
Definition is_base64_char (c : ascii) : bool :=
  let n := PyStr.code c in
  ((65 <=? n) && (n <=? 90) || (97 <=? n) && (n <=? 122)
   || (48 <=? n) && (n <=? 57) || (n =? 43) || (n =? 47) || (n =? 61))%N.

Fixpoint all_chars (test : ascii → bool) (s : string) : bool :=
  match s with
  | EmptyString => true
  | String c s' => test c && all_chars test s'
  end.

(** A pending job. *)
Definition pending (env : Env) (query_text : string) : QueryModel.t :=
  QueryModel.mk (uuid4_hex env) (time_time env) query_text None [] false.

End Vocabulary.

(** ** More sample inputs *)

Module MoreSamples.

Definition throttled (_ : gmap string FieldVal) : option Exn :=
  Some (ClientError "ProvisionedThroughputExceededException").

(** The table refuses writes; with and without a worker. *)
Definition env_put_down (worker : option string) : Env :=
  mkEnv worker "0f8fad5bd9cb469fa16570867728950e" 1730000000
        throttled Samples.no_fault (λ _, None)
        (λ _ _, Ok Samples.results) Samples.answering
        Samples.plain_int Samples.word_bool.

(** The Lambda service refuses the invocation. *)
Definition env_lambda_down : Env :=
  mkEnv (Some "rag-worker") "0f8fad5bd9cb469fa16570867728950e" 1730000000
        (λ _, None) Samples.no_fault
        (λ _, Some (ClientError "ResourceNotFoundException"))
        (λ _ _, Ok Samples.results) Samples.answering
        Samples.plain_int Samples.word_bool.

(** The vector index cannot be searched. *)
Definition env_search_down (worker : option string) : Env :=
  mkEnv worker "0f8fad5bd9cb469fa16570867728950e" 1730000000
        (λ _, None) Samples.no_fault (λ _, None)
        (λ _ _, Raise (OtherException "InvalidCollectionException"))
        Samples.answering Samples.plain_int Samples.word_bool.

(** The worker's process: its own clock and id source. *)
Definition env_in_worker : Env :=
  mkEnv None "ffffffffffffffffffffffffffffffff" 1730000060
        (λ _, None) Samples.no_fault (λ _, None)
        (λ _ _, Ok Samples.results) Samples.answering
        Samples.plain_int Samples.word_bool.

(** The directory of [Samples.good_dir] on a machine where the entry that
    is not a PDF could be opened as one. *)
Definition lenient_dir : PopulateDatabase.FileSystem :=
  PopulateDatabase.mkFileSystem ["notes.txt"; "Manual.PDF"]
    (λ path, if decide (path = "src/data/source/Manual.PDF") then Ok Samples.mixed_pdf
             else Ok Samples.scanned_pdf).

(** A Lambda container before its first request: the image ships the
    collection under [data/chroma], [/tmp] is empty. *)
Definition lambda_environ : GetChromaDb.Environ :=
  GetChromaDb.mkEnviron (Some "data/chroma") (Some "True").

Definition cold_process : GetChromaDb.Process :=
  GetChromaDb.mkProcess None {[ "data/chroma" := ["chroma.sqlite3"; "index"] ]} false [].

(** The same container with a collection left in [/tmp] by an earlier
    process. *)
Definition warm_process : GetChromaDb.Process :=
  GetChromaDb.mkProcess None
    {[ "data/chroma" := ["chroma.sqlite3"; "index"];
       "/tmp/data/chroma" := ["chroma.sqlite3"] ]} false [].

(** The container after a copy that was cut short: the runtime directory
    has an entry, the store file is not among them. *)
Definition partial_process : GetChromaDb.Process :=
  GetChromaDb.mkProcess None
    {[ "data/chroma" := ["chroma.sqlite3"; "index"];
       "/tmp/data/chroma" := ["index"] ]} false [].

(** An image whose packaged collection is an empty directory. *)
Definition empty_collection_process : GetChromaDb.Process :=
  GetChromaDb.mkProcess None {[ "data/chroma" := [] ]} false [].

(** An image built without the collection. *)
Definition bare_process : GetChromaDb.Process :=
  GetChromaDb.mkProcess None ∅ false [].

End MoreSamples.

(** * Theorems *)

Import PopulateDatabase.

(** * Identifiers *)

Section ChunkId.

Variable hash : string → Z.

(** Entries other than source, page and type do not reach the id. *)
Lemma chunk_id_other_key (doc : Document) (key : string) (v : MetaVal) :
  key ≠ "source" → key ≠ "page" → key ≠ "type" →
  chunk_id hash (mkDocument (page_content doc) (<[key := v]> (metadata doc)))
  = chunk_id hash doc.
Proof.
  intros Hs Hp Ht. unfold chunk_id, doc_type_of. simpl.
  by rewrite !lookup_insert_ne.
Qed.

Lemma id_of_assign_id (doc : Document) :
  id_of (assign_id hash doc) = chunk_id hash doc.
Proof. unfold id_of, assign_id. simpl. by rewrite lookup_insert_eq. Qed.

End ChunkId.

Lemma u64_range (x : Z) : 0 ≤ PyHash.u64 x < 2 ^ 64.
Proof.
  unfold PyHash.u64. rewrite Z.land_ones by lia. apply Z.mod_pos_bound. lia.
Qed.

Lemma PyHash_hash_range (key : Z * Z) : py_hash_range (PyHash.hash key).
Proof.
  intros s. unfold PyHash.hash. destruct s as [|c s]; [lia|].
  generalize (PyHash.bytes_of (String c s)). intros data.
  assert (0 ≤ PyHash.siphash13 key.1 key.2 data < 2 ^ 64) as Hsip.
  { unfold PyHash.siphash13. destruct (PyHash.absorb _ _). apply u64_range. }
  unfold PyHash.signed. case_decide; [lia|].
  destruct (Z.ltb_spec (PyHash.siphash13 key.1 key.2 data) (2 ^ 63)); lia.
Qed.

(** The id of a unit read off its source, page, type and payload: units
    that agree on the first three, in whatever interpreter process each id
    is computed, get the same id exactly when the hashes of the payloads
    agree. *)
Lemma chunk_id_eq_iff (hash1 hash2 : string → Z) (doc1 doc2 : Document) :
  metadata doc1 !! "source" = metadata doc2 !! "source" →
  metadata doc1 !! "page" = metadata doc2 !! "page" →
  doc_type_of doc1 = doc_type_of doc2 →
  chunk_id hash1 doc1 = chunk_id hash2 doc2
  ↔ hash1 (page_content doc1) = hash2 (page_content doc2).
Proof.
  intros Hsource Hpage Htype. unfold chunk_id. cbv zeta.
  rewrite Hsource, Hpage, Htype. split.
  - intros H. do 6 apply (inj (String.app _)) in H.
    by apply (inj pretty) in H.
  - by intros ->.
Qed.

(** C1.  The id is a function of source, page, type and the hash of the
    payload; other metadata, the index of an image or table included, does
    not enter it.  With one [hash], the same source, page, type and payload
    always give the same id.  The hash is the builtin of the running
    interpreter, though, and not a stable one: for units that agree on
    source, page and type, two ids, each computed in its own process, are
    equal exactly when the two processes hash the payloads alike, so one
    unit gets two ids in two runs whenever their hashes of its payload
    differ. *)
Theorem chunk_id_across_runs (hash1 hash2 : string → Z) (doc1 doc2 : Document) :
  metadata doc1 !! "source" = metadata doc2 !! "source" →
  metadata doc1 !! "page" = metadata doc2 !! "page" →
  doc_type_of doc1 = doc_type_of doc2 →
  (chunk_id hash1 doc1 = chunk_id hash2 doc2
   ↔ hash1 (page_content doc1) = hash2 (page_content doc2))
  ∧ (page_content doc1 = page_content doc2 →
     chunk_id hash1 doc1 = chunk_id hash1 doc2)
  ∧ (hash1 (page_content doc1) ≠ hash2 (page_content doc1) →
     chunk_id hash1 doc1 ≠ chunk_id hash2 doc1).
Proof.
  intros Hsource Hpage Htype. split; [by apply chunk_id_eq_iff|]. split.
  - intros Hpayload. apply chunk_id_eq_iff; [done..|]. by rewrite Hpayload.
  - intros Hhash Hid. by apply chunk_id_eq_iff in Hid.
Qed.

Lemma chunk_id_across_runs_witness :
  chunk_id Samples.hash_seed1 Samples.robots_chunk
  = "src/data/source/Manual.PDF:1:text:-2879967698986603720"
  ∧ chunk_id Samples.hash_seed2 Samples.robots_chunk
    = "src/data/source/Manual.PDF:1:text:-7658204746107897553"
  ∧ chunk_id Samples.hash_seed1 Samples.robots_chunk
    ≠ chunk_id Samples.hash_seed2 Samples.robots_chunk.
Proof.
  split; [by vm_compute|]. split; [by vm_compute|].
  apply (chunk_id_across_runs Samples.hash_seed1 Samples.hash_seed2
           Samples.robots_chunk Samples.robots_chunk eq_refl eq_refl eq_refl).
  vm_compute. intros H. discriminate H.
Defined.

(** * The de-duplicated write *)

Section AddToChroma.

Variable hash : string → Z.

Lemma upsert_dom (entries : list (string * Document)) (db : gmap string Document) :
  dom (foldl upsert_step db entries) = dom db ∪ list_to_set entries.*1.
Proof.
  revert db. induction entries as [|[k d] entries IH]; intros db; simpl.
  { by rewrite (right_id_L ∅ (∪)). }
  rewrite IH. unfold upsert_step. simpl. rewrite dom_insert_L.
  by rewrite (comm_L (∪) {[k]}), (assoc_L (∪)).
Qed.

Lemma upsert_lookup_other (entries : list (string * Document))
    (db : gmap string Document) (k : string) :
  k ∉ entries.*1 → foldl upsert_step db entries !! k = db !! k.
Proof.
  revert db. induction entries as [|[k' d] entries IH]; intros db Hk; simpl.
  { done. }
  apply not_elem_of_cons in Hk as [Hne Hk]. rewrite IH by done.
  unfold upsert_step. simpl. by rewrite lookup_insert_ne.
Qed.

Lemma zip_ids (docs : list Document) :
  (zip (map id_of docs) docs).*1 = map id_of docs.
Proof. apply fst_zip. by rewrite length_map. Qed.

Lemma new_documents_elem (db : gmap string Document)
    (documents : list Document) (doc' : Document) :
  doc' ∈ new_documents hash db documents
  ↔ ∃ doc, doc ∈ documents ∧ doc' = assign_id hash doc
           ∧ chunk_id hash doc ∉ dom db.
Proof.
  unfold new_documents, existing_ids.
  rewrite list_elem_of_filter, list_elem_of_fmap. split.
  - intros (Hnew & doc & -> & Hdoc). exists doc.
    by rewrite id_of_assign_id in Hnew.
  - intros (doc & Hdoc & -> & Hnew). rewrite id_of_assign_id. eauto.
Qed.

(** What a completed call leaves in the collection. *)
Lemma add_to_chroma_result (db db' : gmap string Document)
    (documents : list Document) :
  add_to_chroma hash db documents = Ok db' →
  dom db' = dom db ∪ list_to_set (map (chunk_id hash) documents)
  ∧ ∀ k, k ∈ dom db → db' !! k = db !! k.
Proof.
  unfold add_to_chroma.
  assert (dom db ∪ list_to_set (map id_of (new_documents hash db documents))
          = dom db ∪ list_to_set (map (chunk_id hash) documents)) as Hdom.
  { apply set_eq. intros k. rewrite !elem_of_union, !elem_of_list_to_set.
    rewrite !list_elem_of_fmap. split.
    - intros [?|(d & -> & (doc & Hdoc & -> & _)%new_documents_elem)]; [by left|].
      right. exists doc. by rewrite id_of_assign_id.
    - intros [?|(doc & -> & Hdoc)]; [by left|].
      destruct (decide (chunk_id hash doc ∈ dom db)) as [|Hnew]; [by left|].
      right. exists (assign_id hash doc). rewrite id_of_assign_id.
      split; [done|]. apply new_documents_elem. eauto. }
  destruct (new_documents hash db documents) as [|d new] eqn:Hnew.
  { intros [= <-]. split; [|done]. rewrite <- Hdom. simpl.
    by rewrite (right_id_L ∅ (∪)). }
  intros Hadd.
  change (add_documents db (d :: new) (map id_of (d :: new)) = Ok db') in Hadd.
  remember (d :: new) as l eqn:Hl. clear Hl d new.
  unfold add_documents in Hadd. case_decide; [|done]. injection Hadd as <-.
  split.
  - rewrite upsert_dom, zip_ids. exact Hdom.
  - intros k Hk. apply upsert_lookup_other. rewrite zip_ids.
    intros (d' & -> & Hd')%list_elem_of_fmap.
    rewrite <- Hnew in Hd'.
    apply new_documents_elem in Hd' as (doc & _ & -> & Hfresh).
    by rewrite id_of_assign_id in Hk.
Qed.

(** Chunks whose id is in the collection are skipped; the others are the
    ones handed to the collection. *)
Lemma new_documents_nil (db : gmap string Document) (documents : list Document) :
  (∀ doc, doc ∈ documents → chunk_id hash doc ∈ dom db) →
  new_documents hash db documents = [].
Proof.
  intros Hall. destruct (new_documents hash db documents) as [|d new] eqn:E; [done|].
  assert (d ∈ new_documents hash db documents) as Hd by (rewrite E; by left).
  apply new_documents_elem in Hd as (doc & Hdoc & _ & Hfresh).
  destruct Hfresh. by apply Hall.
Qed.

(** With one and the same [hash], a second call over the same chunks
    finds nothing new and leaves the collection as it is. *)
Lemma add_to_chroma_again_same_hash (db db' : gmap string Document)
    (documents : list Document) :
  add_to_chroma hash db documents = Ok db' →
  new_documents hash db' documents = []
  ∧ add_to_chroma hash db' documents = Ok db'.
Proof.
  intros [Hdom _]%add_to_chroma_result.
  assert (new_documents hash db' documents = []) as Hnil.
  { apply new_documents_nil. intros doc Hdoc. rewrite Hdom.
    apply elem_of_union_r, elem_of_list_to_set, list_elem_of_fmap. eauto. }
  split; [done|]. unfold add_to_chroma. by rewrite Hnil.
Qed.

End AddToChroma.

(** The ids one chunk gets in two interpreter processes. *)
Example robots_chunk_ids :
  chunk_id Samples.hash_seed1 Samples.robots_chunk
  = "src/data/source/Manual.PDF:1:text:-2879967698986603720"
  ∧ chunk_id Samples.hash_seed2 Samples.robots_chunk
    = "src/data/source/Manual.PDF:1:text:-7658204746107897553".
Proof. split; by vm_compute. Qed.

(** C2 fails on a second run of the script.  The ids are built from the
    builtin [hash], which differs from one interpreter process to the next;
    a chunk written by a first process is then not recognised by a second
    one and is written again under a second id. *)
Theorem add_to_chroma_second_process (hash1 hash2 : string → Z) (doc : Document) :
  hash1 (page_content doc) ≠ hash2 (page_content doc) →
  ∃ db1 db2,
    add_to_chroma hash1 ∅ [doc] = Ok db1
    ∧ new_documents hash2 db1 [doc] = [assign_id hash2 doc]
    ∧ add_to_chroma hash2 db1 [doc] = Ok db2
    ∧ size db1 = 1%nat ∧ size db2 = 2%nat.
Proof.
  intros Hhash.
  assert (chunk_id hash1 doc ≠ chunk_id hash2 doc) as Hid.
  { destruct doc as [content m]. unfold chunk_id, doc_type_of. simpl.
    intros H. do 6 apply (inj (String.app _)) in H.
    by apply (inj pretty) in H. }
  exists {[ chunk_id hash1 doc := assign_id hash1 doc ]}.
  exists (<[ chunk_id hash2 doc := assign_id hash2 doc ]>
            {[ chunk_id hash1 doc := assign_id hash1 doc ]}).
  assert (new_documents hash1 ∅ [doc] = [assign_id hash1 doc]) as Hnew1.
  { unfold new_documents, existing_ids. simpl.
    rewrite filter_cons_True; [done|]. rewrite dom_empty_L. set_solver. }
  assert (new_documents hash2 {[ chunk_id hash1 doc := assign_id hash1 doc ]} [doc]
          = [assign_id hash2 doc]) as Hnew2.
  { unfold new_documents, existing_ids. simpl.
    rewrite filter_cons_True; [done|]. rewrite dom_singleton_L, id_of_assign_id.
    by intros ?%elem_of_singleton. }
  split; [|split; [done|split; [|split]]].
  - unfold add_to_chroma. rewrite Hnew1. unfold add_documents.
    rewrite decide_True by apply NoDup_singleton. simpl.
    unfold upsert_step. simpl. by rewrite id_of_assign_id, insert_empty.
  - unfold add_to_chroma. rewrite Hnew2. unfold add_documents.
    rewrite decide_True by apply NoDup_singleton. simpl.
    unfold upsert_step. simpl. by rewrite id_of_assign_id.
  - apply map_size_singleton.
  - rewrite map_size_insert_None, map_size_singleton; [done|].
    by rewrite lookup_singleton_ne.
Qed.

Lemma add_to_chroma_second_process_witness :
  ∃ db1 db2,
    add_to_chroma Samples.hash_seed1 ∅ [Samples.robots_chunk] = Ok db1
    ∧ new_documents Samples.hash_seed2 db1 [Samples.robots_chunk]
      = [assign_id Samples.hash_seed2 Samples.robots_chunk]
    ∧ add_to_chroma Samples.hash_seed2 db1 [Samples.robots_chunk] = Ok db2
    ∧ size db1 = 1%nat ∧ size db2 = 2%nat.
Proof.
  apply (add_to_chroma_second_process Samples.hash_seed1 Samples.hash_seed2
           Samples.robots_chunk).
  vm_compute. intros H. discriminate H.
Defined.

(** * Context assembly and sources *)

Section GroupResults.

Import QueryRag Units.

(** The loop, started from any contents of the three lists. *)
Lemma group_loop (results : list (Document * Z)) (g : Groups) :
  text_context (foldl group_step g results)
  = text_context g ++ map payload (filter (has_type "text") results)
  ∧ table_context (foldl group_step g results)
    = table_context g ++ map payload (filter (has_type "table") results)
  ∧ image_context (foldl group_step g results)
    = image_context g ++ map image_entry (filter (has_type "image") results).
Proof.
  revert g. induction results as [|[doc score] results IH]; intros g.
  { simpl. by rewrite !app_nil_r. }
  cbn [foldl].
  destruct (IH (group_step g (doc, score))) as (IHt & IHb & IHi).
  rewrite IHt, IHb, IHi. clear IH IHt IHb IHi.
  unfold group_step.
  destruct (decide (doc_type_of doc = MStr "text")) as [Ht|Ht].
  { rewrite (filter_cons_True (has_type "text")) by done.
    rewrite !filter_cons_False by (unfold has_type; simpl; by rewrite Ht).
    simpl. by rewrite <- !app_assoc. }
  destruct (decide (doc_type_of doc = MStr "table")) as [Hb|Hb].
  { rewrite (filter_cons_True (has_type "table")) by done.
    rewrite !filter_cons_False by (unfold has_type; simpl; by rewrite Hb).
    simpl. by rewrite <- !app_assoc. }
  destruct (decide (doc_type_of doc = MStr "image")) as [Hi|Hi].
  { rewrite (filter_cons_True (has_type "image")) by done.
    rewrite !filter_cons_False by (unfold has_type; simpl; by rewrite Hi).
    simpl. by rewrite <- !app_assoc. }
  by rewrite !filter_cons_False by done.
Qed.

Lemma group_results_filters (results : list (Document * Z)) :
  text_context (group_results results) = map payload (filter (has_type "text") results)
  ∧ table_context (group_results results) = map payload (filter (has_type "table") results)
  ∧ image_context (group_results results)
    = map image_entry (filter (has_type "image") results).
Proof. apply (group_loop results (mkGroups [] [] [])). Qed.

(** The three sections together hold each result once. *)
Lemma sections_partition (results : list (Document * Z)) :
  Forall known_type results →
  map payload (filter (has_type "text") results)
  ++ map payload (filter (has_type "table") results)
  ++ map image_entry (filter (has_type "image") results)
  ≡ₚ map entry results.
Proof.
  induction 1 as [|r results Hr _ IH]; [done|].
  unfold entry at 1. fold (map entry results). simpl map at 4.
  unfold known_type, has_type in Hr.
  destruct Hr as [Hr|[Hr|Hr]].
  - rewrite (filter_cons_True (has_type "text")) by done.
    rewrite !filter_cons_False by (unfold has_type; by rewrite Hr).
    rewrite decide_False by (unfold has_type; by rewrite Hr).
    simpl. by rewrite IH.
  - rewrite (filter_cons_True (has_type "table")) by done.
    rewrite !filter_cons_False by (unfold has_type; by rewrite Hr).
    rewrite decide_False by (unfold has_type; by rewrite Hr).
    simpl. rewrite <- IH. symmetry. apply Permutation_middle.
  - rewrite (filter_cons_True (has_type "image")) by done.
    rewrite !filter_cons_False by (unfold has_type; by rewrite Hr).
    rewrite decide_True by done.
    simpl. rewrite <- IH, !app_assoc. symmetry. apply Permutation_middle.
Qed.

End GroupResults.

Section QueryRagRun.

Import QueryRag Units.

Variable env : Env.

(** Once retrieval has returned, [query_rag] returns, whatever the model
    call does. *)
Lemma query_rag_run (query_text : string) (results : list (Document * Z)) (w : World) :
  similarity_search_with_score env query_text 5%nat = Ok results →
  let prompt := format_prompt (context_text results) query_text in
  query_rag env query_text w
  = (Ok (mkQueryResponse query_text (answer_for (bedrock_invoke env prompt))
                         (sources_of results)),
     prompted w prompt).
Proof.
  intros Hsearch. unfold query_rag, mbind, Py_bind, lift. rewrite Hsearch.
  unfold try_except, model_invoke. simpl.
  by destruct (bedrock_invoke env _).
Qed.

Lemma query_rag_retrieval_raises (query_text : string) (e : Exn) (w : World) :
  similarity_search_with_score env query_text 5%nat = Raise e →
  query_rag env query_text w = (Raise e, w).
Proof.
  intros Hsearch. unfold query_rag, mbind, Py_bind, lift. by rewrite Hsearch.
Qed.

End QueryRagRun.

(** C5.  Context assembly puts the payload of every retrieved unit, read by
    its kind (text, table or image), into the list of that kind, in
    retrieval order; the three lists together hold every unit exactly once.
    The context is the three labelled sections in the order text, tables,
    images, each the join of its list, so an empty list leaves an empty
    section under its label. *)
Theorem context_assembly (results : list (Document * Z)) :
  Forall Units.known_type results →
  let g := QueryRag.group_results results in
  QueryRag.text_context g
  = map Units.payload (filter (Units.has_type "text") results)
  ∧ QueryRag.table_context g
    = map Units.payload (filter (Units.has_type "table") results)
  ∧ QueryRag.image_context g
    = map Units.image_entry (filter (Units.has_type "image") results)
  ∧ QueryRag.text_context g ++ QueryRag.table_context g ++ QueryRag.image_context g
    ≡ₚ map Units.entry results
  ∧ QueryRag.context_text results
    = "### Text:" +:+ PyStr.newline
      +:+ PyStr.join QueryRag.blank_line (QueryRag.text_context g)
      +:+ QueryRag.blank_line +:+ "### Tables:" +:+ PyStr.newline
      +:+ PyStr.join QueryRag.blank_line (QueryRag.table_context g)
      +:+ QueryRag.blank_line +:+ "### Images:" +:+ PyStr.newline
      +:+ PyStr.join QueryRag.blank_line (QueryRag.image_context g).
Proof.
  intros Hknown g.
  destruct (group_results_filters results) as (Ht & Hb & Hi).
  subst g. split; [exact Ht|]. split; [exact Hb|]. split; [exact Hi|].
  split; [|reflexivity]. rewrite Ht, Hb, Hi. by apply sections_partition.
Qed.

Lemma context_assembly_witness :
  QueryRag.text_context (QueryRag.group_results Samples.results)
  = ["Robots are built at AIR Lab."]
  ∧ QueryRag.table_context (QueryRag.group_results Samples.results) = ["a"]
  ∧ QueryRag.image_context (QueryRag.group_results Samples.results)
    = ["Image (Base64): TWFu"].
Proof.
  assert (Forall Units.known_type Samples.results) as Hknown.
  { apply Forall_cons. split; [right; left; reflexivity|].
    apply Forall_cons. split; [left; reflexivity|].
    apply Forall_cons. split; [right; right; reflexivity|]. by apply Forall_nil. }
  destruct (context_assembly Samples.results Hknown) as (Ht & Hb & Hi & _).
  rewrite Ht, Hb, Hi. repeat split; reflexivity.
Defined.

(** A result whose type is none of the three strings is appended to no
    list.  The ingestion side never writes such a type (see
    [ingested_units_known_type]). *)
Example group_results_other_type :
  QueryRag.group_results
    [(mkDocument "x" (PopulateDatabase.meta [("type", MStr "chart")]), 1)]
  = QueryRag.mkGroups [] [] [].
Proof. reflexivity. Qed.

(** With nothing retrieved all three labels are still there. *)
Example context_text_empty :
  QueryRag.context_text []
  = "### Text:" +:+ PyStr.newline +:+ PyStr.newline +:+ PyStr.newline
    +:+ "### Tables:" +:+ PyStr.newline +:+ PyStr.newline +:+ PyStr.newline
    +:+ "### Images:" +:+ PyStr.newline.
Proof. reflexivity. Qed.

(** C10.  The sources of the response have one entry per retrieved result,
    in retrieval order: the ["id"] metadata of the result, or ["unknown"]
    when it has none.  The model call has no part in it: the statement holds
    for every environment, whether that call returns or raises. *)
Theorem query_rag_sources (env : Env) (query_text : string)
    (results : list (Document * Z)) (w : World) :
  similarity_search_with_score env query_text 5%nat = Ok results →
  ∃ response w',
    QueryRag.query_rag env query_text w = (Ok response, w')
    ∧ length (QueryRag.qr_sources response) = length results
    ∧ ∀ i doc score,
        results !! i = Some (doc, score) →
        QueryRag.qr_sources response !! i
        = Some (default (MStr "unknown") (metadata doc !! "id")).
Proof.
  intros Hsearch. eexists _, _. split; [by apply query_rag_run|].
  simpl. unfold QueryRag.sources_of. split; [by rewrite length_map|].
  intros i doc score Hi. change (map ?f ?l) with (f <$> l).
  by rewrite list_lookup_fmap, Hi.
Qed.

Lemma query_rag_sources_witness :
  ∃ response w',
    QueryRag.query_rag Samples.env_model_down "Where are robots built?"
      Samples.empty_world = (Ok response, w')
    ∧ length (QueryRag.qr_sources response) = length Samples.results
    ∧ ∀ i doc score,
        Samples.results !! i = Some (doc, score) →
        QueryRag.qr_sources response !! i
        = Some (default (MStr "unknown") (metadata doc !! "id")).
Proof.
  apply (query_rag_sources Samples.env_model_down "Where are robots built?"
           Samples.results Samples.empty_world).
  reflexivity.
Defined.

(** The sources of the sample results: the chunk without an id shows as
    ["unknown"]. *)
Example sources_of_sample :
  QueryRag.sources_of Samples.results
  = [MStr "m.pdf:1:table:7"; MStr "unknown"; MStr "m.pdf:1:image:9"].
Proof. reflexivity. Qed.

(** * The job record and its table *)

Section JobRecord.

Import QueryModel Units.

Variable env : Env.

Lemma as_ddb_item_lookup (self : t) :
  as_ddb_item self !! "query_id" = Some (FStr (query_id self))
  ∧ as_ddb_item self !! "create_time" = Some (FInt (create_time self))
  ∧ as_ddb_item self !! "query_text" = Some (FStr (query_text self))
  ∧ as_ddb_item self !! "answer_text" = FStr <$> answer_text self
  ∧ as_ddb_item self !! "sources" = Some (FList (sources self))
  ∧ as_ddb_item self !! "is_complete" = Some (FBool (is_complete self)).
Proof.
  unfold as_ddb_item.
  repeat split; try (by apply map_lookup_filter_Some).
  destruct (answer_text self) as [s|] eqn:E; simpl.
  - apply map_lookup_filter_Some. unfold dict. rewrite E. done.
  - apply map_lookup_filter_None. right. intros v Hv.
    unfold dict in Hv. rewrite E in Hv. simpl in Hv.
    assert (v = FNone) as -> by (by injection Hv). by intros ?.
Qed.

(** The constructor gives back the job a table item was made from. *)
Lemma init_as_ddb_item (self : t) :
  forallb is_str (sources self) = true →
  init env (as_ddb_item self) = Ok self.
Proof.
  intros Hsrc. destruct (as_ddb_item_lookup self) as (H1 & H2 & H3 & H4 & H5 & H6).
  unfold init. rewrite H1, H2, H3, H4, H5, H6, Hsrc. simpl.
  destruct self as [? ? ? [a|] ? ?]; done.
Qed.

(** So it does for the payload sent to the worker. *)
Lemma init_dict (self : t) :
  forallb is_str (sources self) = true →
  init env (dict self) = Ok self.
Proof.
  intros Hsrc. unfold init.
  assert (dict self !! "query_id" = Some (FStr (query_id self))) as -> by done.
  assert (dict self !! "create_time" = Some (FInt (create_time self))) as -> by done.
  assert (dict self !! "query_text" = Some (FStr (query_text self))) as -> by done.
  assert (dict self !! "answer_text" = Some (opt_str (answer_text self))) as -> by done.
  assert (dict self !! "sources" = Some (FList (sources self))) as -> by done.
  assert (dict self !! "is_complete" = Some (FBool (is_complete self))) as -> by done.
  rewrite Hsrc. simpl. destruct self as [? ? ? [a|] ? ?]; done.
Qed.

Lemma put_item_run (self : t) (w : World) :
  ddb_put_fault env (as_ddb_item self) = None →
  put_item env self w = (Ok (), stored w (query_id self) (as_ddb_item self)).
Proof.
  intros Hput. unfold put_item, try_except, ddb_put_item. rewrite Hput.
  destruct (as_ddb_item_lookup self) as (-> & _). done.
Qed.

Lemma put_item_raises (self : t) (w : World) (e : Exn) :
  ddb_put_fault env (as_ddb_item self) = Some e →
  put_item env self w = (Raise e, w).
Proof.
  intros Hput. unfold put_item, try_except, ddb_put_item. rewrite Hput.
  by destruct e.
Qed.

Lemma table_stored (w : World) (key : string) (item : gmap string FieldVal) :
  table (stored w key item) !! key = Some item.
Proof. unfold stored. cbn [table]. apply lookup_insert_eq. Qed.

(** A new job: fresh id, current time, no answer, not complete. *)
Lemma init_new (query_text : string) :
  init env {[ "query_text" := FStr query_text ]}
  = Ok (mk (uuid4_hex env) (time_time env) query_text None [] false).
Proof. done. Qed.

End JobRecord.

(** * The two dispatch paths *)

Section Dispatch.

Import QueryModel QueryRag AppWorkHandler AppApiHandler Units.

Variable env : Env.

(** The worker: run the pipeline, then write the completed job. *)
Lemma invoke_rag_run (job : QueryModel.t) (results : list (Document * Z))
    (w : World) :
  similarity_search_with_score env (QueryModel.query_text job) 5%nat = Ok results →
  (∀ item, ddb_put_fault env item = None) →
  let prompt := format_prompt (context_text results) (QueryModel.query_text job) in
  let job' := completed job (answer_for (bedrock_invoke env prompt)) results in
  invoke_rag env job w
  = (Ok job', stored (prompted w prompt) (query_id job) (as_ddb_item job')).
Proof.
  intros Hsearch Hput prompt job'. unfold invoke_rag, mbind, Py_bind.
  rewrite (query_rag_run env _ results w Hsearch). simpl.
  by rewrite put_item_run.
Qed.

Lemma handler_run (job : QueryModel.t) (results : list (Document * Z))
    (w : World) :
  forallb is_str (sources job) = true →
  similarity_search_with_score env (QueryModel.query_text job) 5%nat = Ok results →
  (∀ item, ddb_put_fault env item = None) →
  let prompt := format_prompt (context_text results) (QueryModel.query_text job) in
  let job' := completed job (answer_for (bedrock_invoke env prompt)) results in
  handler env (dict job) w
  = (Ok (), stored (prompted w prompt) (query_id job) (as_ddb_item job')).
Proof.
  intros Hsrc Hsearch Hput prompt job'. unfold handler, mbind, Py_bind, lift.
  rewrite init_dict by done.
  by rewrite (invoke_rag_run job results w Hsearch Hput).
Qed.

(** The endpoint without a worker: the same pipeline, inline. *)
Lemma submit_sync_run (query_text : string) (results : list (Document * Z))
    (w : World) :
  worker_configured env = false →
  similarity_search_with_score env query_text 5%nat = Ok results →
  (∀ item, ddb_put_fault env item = None) →
  let prompt := format_prompt (context_text results) query_text in
  let job' := mk (uuid4_hex env) (time_time env) query_text
                 (Some (answer_for (bedrock_invoke env prompt)))
                 (sources_of results) true in
  submit_query_endpoint env query_text w
  = (Ok job', stored (prompted w prompt) (uuid4_hex env) (as_ddb_item job')).
Proof.
  intros Hworker Hsearch Hput prompt job'.
  unfold submit_query_endpoint, mbind, Py_bind, lift.
  rewrite init_new, Hworker.
  rewrite (query_rag_run env _ results w Hsearch). simpl.
  by rewrite put_item_run.
Qed.

(** The endpoint with a worker: store the pending job, send it off. *)
Lemma submit_async_run (query_text : string) (w : World) :
  worker_configured env = true →
  (∀ item, ddb_put_fault env item = None) →
  (∀ call, lambda_fault env call = None) →
  let job := mk (uuid4_hex env) (time_time env) query_text None [] false in
  submit_query_endpoint env query_text w
  = (Ok job,
     invoked (stored w (uuid4_hex env) (as_ddb_item job))
             (mkInvocation (WORKER_LAMBDA_NAME env) "Event" (dict job))).
Proof.
  intros Hworker Hput Hlambda job.
  unfold submit_query_endpoint, mbind, Py_bind, lift.
  rewrite init_new, Hworker. rewrite put_item_run by done.
  unfold invoke_worker. by rewrite Hlambda.
Qed.

End Dispatch.

(** C3.  When the model call raises, [query_rag] still returns: its answer
    is the fixed prefix followed by the text of the error.  On either
    dispatch path the job is then written to the table complete, with that
    answer. *)
Theorem generation_failure_contained (env : Env) (query_text : string)
    (results : list (Document * Z)) (e : Exn) (w : World) :
  similarity_search_with_score env query_text 5%nat = Ok results →
  bedrock_invoke env (QueryRag.format_prompt (QueryRag.context_text results) query_text)
  = Raise e →
  (∀ item, ddb_put_fault env item = None) →
  let answer := "Error generating response: " +:+ exn_str e in
  (∃ w', QueryRag.query_rag env query_text w
         = (Ok (QueryRag.mkQueryResponse query_text answer
                  (QueryRag.sources_of results)), w'))
  ∧ (AppApiHandler.worker_configured env = false →
     ∃ job w' item,
       AppApiHandler.submit_query_endpoint env query_text w = (Ok job, w')
       ∧ QueryModel.is_complete job = true
       ∧ QueryModel.answer_text job = Some answer
       ∧ table w' !! QueryModel.query_id job = Some item
       ∧ item !! "is_complete" = Some (FBool true)
       ∧ item !! "answer_text" = Some (FStr answer))
  ∧ (∀ query_id create_time,
     ∃ w' item,
       AppWorkHandler.handler env
         (QueryModel.dict (QueryModel.mk query_id create_time query_text None [] false)) w
       = (Ok (), w')
       ∧ table w' !! query_id = Some item
       ∧ item !! "is_complete" = Some (FBool true)
       ∧ item !! "answer_text" = Some (FStr answer)).
Proof.
  intros Hsearch Hmodel Hput answer.
  set (prompt := QueryRag.format_prompt (QueryRag.context_text results) query_text) in *.
  split; [|split].
  - exists (Units.prompted w prompt).
    rewrite (query_rag_run env _ results w Hsearch). fold prompt.
    rewrite Hmodel. reflexivity.
  - intros Hworker.
    set (job := QueryModel.mk (uuid4_hex env) (time_time env) query_text
                  (Some answer) (QueryRag.sources_of results) true).
    exists job,
      (Units.stored (Units.prompted w prompt) (uuid4_hex env) (QueryModel.as_ddb_item job)),
      (QueryModel.as_ddb_item job).
    destruct (as_ddb_item_lookup job) as (_ & _ & _ & Ha & _ & Hc).
    split.
    { rewrite (submit_sync_run env _ results w Hworker Hsearch Hput). fold prompt.
      rewrite Hmodel. reflexivity. }
    split; [reflexivity|]. split; [reflexivity|].
    split; [apply table_stored|]. split; [exact Hc|exact Ha].
  - intros query_id create_time.
    set (job0 := QueryModel.mk query_id create_time query_text None [] false).
    set (job := Units.completed job0 answer results).
    exists (Units.stored (Units.prompted w prompt) query_id (QueryModel.as_ddb_item job)),
      (QueryModel.as_ddb_item job).
    destruct (as_ddb_item_lookup job) as (_ & _ & _ & Ha & _ & Hc).
    split.
    { rewrite (handler_run env job0 results w eq_refl Hsearch Hput).
      change (QueryModel.query_text job0) with query_text. fold prompt.
      rewrite Hmodel. reflexivity. }
    split; [apply table_stored|]. split; [exact Hc|exact Ha].
Qed.

Lemma generation_failure_contained_witness :
  ∃ w', QueryRag.query_rag Samples.env_model_down "Where are robots built?"
          Samples.empty_world
        = (Ok (QueryRag.mkQueryResponse "Where are robots built?"
                 "Error generating response: AccessDeniedException"
                 (QueryRag.sources_of Samples.results)), w').
Proof.
  apply (generation_failure_contained Samples.env_model_down
           "Where are robots built?" Samples.results
           (OtherException "AccessDeniedException") Samples.empty_world).
  - reflexivity.
  - reflexivity.
  - intros item. reflexivity.
Defined.

(** C4.  With a worker configured the job is stored pending (not complete,
    no answer), one ["Event"] invocation of the worker is issued with the
    whole record as payload, no prompt goes to the model, and the caller
    gets the pending job.  Without a worker the pipeline runs inside the
    call: the job is stored and returned complete, with answer and sources,
    and no invocation is issued. *)
Theorem submit_query_dispatch (env : Env) (query_text : string)
    (results : list (Document * Z)) (w : World) :
  similarity_search_with_score env query_text 5%nat = Ok results →
  (∀ item, ddb_put_fault env item = None) →
  (∀ call, lambda_fault env call = None) →
  ∃ job w' item,
    AppApiHandler.submit_query_endpoint env query_text w = (Ok job, w')
    ∧ QueryModel.query_text job = query_text
    ∧ table w' = <[QueryModel.query_id job := item]> (table w)
    ∧ item = QueryModel.as_ddb_item job
    ∧ if AppApiHandler.worker_configured env
      then QueryModel.is_complete job = false
           ∧ QueryModel.answer_text job = None
           ∧ QueryModel.sources job = []
           ∧ item !! "is_complete" = Some (FBool false)
           ∧ item !! "answer_text" = None
           ∧ invocations w'
             = invocations w
               ++ [mkInvocation (WORKER_LAMBDA_NAME env) "Event" (QueryModel.dict job)]
           ∧ prompts w' = prompts w
      else QueryModel.is_complete job = true
           ∧ (∃ answer, QueryModel.answer_text job = Some answer
                        ∧ item !! "answer_text" = Some (FStr answer))
           ∧ QueryModel.sources job = QueryRag.sources_of results
           ∧ item !! "is_complete" = Some (FBool true)
           ∧ invocations w' = invocations w
           ∧ prompts w'
             = prompts w
               ++ [QueryRag.format_prompt (QueryRag.context_text results) query_text].
Proof.
  intros Hsearch Hput Hlambda.
  set (prompt := QueryRag.format_prompt (QueryRag.context_text results) query_text).
  destruct (AppApiHandler.worker_configured env) eqn:Hworker.
  - set (job := QueryModel.mk (uuid4_hex env) (time_time env) query_text None [] false).
    exists job,
      (Units.invoked (Units.stored w (uuid4_hex env) (QueryModel.as_ddb_item job))
         (mkInvocation (WORKER_LAMBDA_NAME env) "Event" (QueryModel.dict job))),
      (QueryModel.as_ddb_item job).
    destruct (as_ddb_item_lookup job) as (_ & _ & _ & Ha & _ & Hc).
    split; [exact (submit_async_run env query_text w Hworker Hput Hlambda)|].
    do 6 (split; [reflexivity|]).
    split; [exact Hc|]. split; [exact Ha|]. split; reflexivity.
  - set (job := QueryModel.mk (uuid4_hex env) (time_time env) query_text
                  (Some (Units.answer_for (bedrock_invoke env prompt)))
                  (QueryRag.sources_of results) true).
    exists job,
      (Units.stored (Units.prompted w prompt) (uuid4_hex env) (QueryModel.as_ddb_item job)),
      (QueryModel.as_ddb_item job).
    destruct (as_ddb_item_lookup job) as (_ & _ & _ & Ha & _ & Hc).
    split; [exact (submit_sync_run env query_text results w Hworker Hsearch Hput)|].
    do 4 (split; [reflexivity|]).
    split; [exists (Units.answer_for (bedrock_invoke env prompt)); split;
              [reflexivity|exact Ha]|].
    split; [reflexivity|]. split; [exact Hc|]. split; reflexivity.
Qed.

Lemma submit_query_dispatch_witness :
  (∃ job w',
     AppApiHandler.submit_query_endpoint Samples.env_worker "Where are robots built?"
       Samples.empty_world = (Ok job, w')
     ∧ QueryModel.is_complete job = false
     ∧ length (invocations w') = 1%nat)
  ∧ (∃ job w',
       AppApiHandler.submit_query_endpoint Samples.env_sync "Where are robots built?"
         Samples.empty_world = (Ok job, w')
       ∧ QueryModel.is_complete job = true
       ∧ invocations w' = []).
Proof.
  split.
  - destruct (submit_query_dispatch Samples.env_worker "Where are robots built?"
                Samples.results Samples.empty_world)
      as (job & w' & item & Hrun & _ & _ & _ & Hcase).
    + reflexivity.
    + intros item. reflexivity.
    + intros call. reflexivity.
    + exists job, w'.
      change (AppApiHandler.worker_configured Samples.env_worker) with true in Hcase.
      cbv iota in Hcase.
      destruct Hcase as (Hc & _ & _ & _ & _ & Hinv & _).
      split; [exact Hrun|]. split; [exact Hc|]. rewrite Hinv. reflexivity.
  - destruct (submit_query_dispatch Samples.env_sync "Where are robots built?"
                Samples.results Samples.empty_world)
      as (job & w' & item & Hrun & _ & _ & _ & Hcase).
    + reflexivity.
    + intros item. reflexivity.
    + intros call. reflexivity.
    + exists job, w'.
      change (AppApiHandler.worker_configured Samples.env_sync) with false in Hcase.
      cbv iota in Hcase.
      destruct Hcase as (Hc & _ & _ & _ & Hinv & _).
      split; [exact Hrun|]. split; [exact Hc|]. exact Hinv.
Defined.

(** * Splitting *)

Section SplitDocuments.

Variable lib : SplitterLib.

Lemma split_documents_app (l1 l2 : list Document) :
  split_documents lib (l1 ++ l2) = split_documents lib l1 ++ split_documents lib l2.
Proof. unfold split_documents. apply flat_map_app. Qed.

Lemma split_documents_content (doc : Document) :
  map page_content (split_documents lib [doc])
  = lib max_chunk_size chunk_overlap (page_content doc).
Proof.
  unfold split_documents, create_documents. simpl. rewrite app_nil_r.
  rewrite map_map. simpl. apply map_id.
Qed.

Lemma split_documents_origin (documents : list Document) (chunk : Document) :
  chunk ∈ split_documents lib documents →
  ∃ doc, doc ∈ documents
         ∧ metadata chunk = metadata doc
         ∧ page_content chunk ∈ lib max_chunk_size chunk_overlap (page_content doc).
Proof.
  unfold split_documents.
  intros (doc & Hdoc & Hchunk)%list_elem_of_In%in_flat_map.
  exists doc. split; [by apply list_elem_of_In|].
  apply list_elem_of_In in Hchunk. unfold create_documents in Hchunk.
  apply list_elem_of_fmap in Hchunk as (piece & -> & Hpiece). done.
Qed.

End SplitDocuments.

Lemma take_chars_length (n : nat) (s : string) :
  (String.length (Samples.take_chars n s) ≤ n)%nat.
Proof.
  revert s. induction n as [|n IH]; intros [|c s]; simpl; try lia.
  specialize (IH s). lia.
Qed.

Lemma windows_bounded (fuel size step : nat) (text chunk : string) :
  chunk ∈ Samples.windows fuel size step text → (String.length chunk ≤ size)%nat.
Proof.
  revert text. induction fuel as [|fuel IH]; intros text; simpl.
  { by intros ?%elem_of_nil. }
  destruct (Nat.leb_spec (String.length text) size) as [Hle|Hgt].
  - by intros ->%list_elem_of_singleton.
  - intros [->|Hin]%elem_of_cons; [apply take_chars_length|by eapply IH].
Qed.

Lemma char_windows_respects_chunk_size : respects_chunk_size Samples.char_windows.
Proof.
  intros size overlap text chunk. unfold Samples.char_windows.
  destruct text; [by intros ?%elem_of_nil|]. apply windows_bounded.
Qed.

(** C6 (as amended).  Splitting looks at no unit's kind: every unit, text,
    table or image alike, goes through the splitter, and the pieces made
    from a unit depend on its payload alone.  No chunk is longer than
    M = 5000 characters (the overlap is configured as 200), and every chunk
    carries the unchanged metadata (source, page, type, index) of the unit
    it was cut from.  The result is a function of the input sequence. *)
Theorem split_documents_chunks (lib : SplitterLib) (documents : list Document) :
  respects_chunk_size lib →
  Forall (λ chunk,
            (String.length (page_content chunk) ≤ 5000)%nat
            ∧ ∃ doc, doc ∈ documents
                     ∧ metadata chunk = metadata doc
                     ∧ page_content chunk ∈ lib 5000%nat 200%nat (page_content doc))
         (split_documents lib documents)
  ∧ ∀ text m1 m2,
      map page_content (split_documents lib [mkDocument text m1])
      = map page_content (split_documents lib [mkDocument text m2]).
Proof.
  intros Hlib. split.
  - apply Forall_forall. intros chunk Hchunk.
    destruct (split_documents_origin lib documents chunk Hchunk)
      as (doc & Hdoc & Hmeta & Hpiece).
    split; [by eapply Hlib|]. by exists doc.
  - intros text m1 m2. by rewrite !split_documents_content.
Qed.

Lemma split_documents_chunks_witness :
  Forall (λ chunk, (String.length (page_content chunk) ≤ 5000)%nat
                   ∧ metadata chunk = metadata Samples.big_image_unit)
         (split_documents Samples.char_windows [Samples.big_image_unit]).
Proof.
  destruct (split_documents_chunks Samples.char_windows [Samples.big_image_unit]
              char_windows_respects_chunk_size) as [H _].
  eapply Forall_impl; [exact H|]. simpl.
  intros chunk (Hlen & doc & ->%list_elem_of_singleton & Hmeta & _). done.
Defined.

(** C6 (as stated) fails: an image unit whose base64 text is longer than
    5000 characters is cut into several chunks like any text. *)
Lemma split_documents_image_counterexample :
  doc_type_of Samples.big_image_unit = MStr "image"
  ∧ String.length (page_content Samples.big_image_unit) = (5000 + 4)%nat
  ∧ map (λ chunk, String.length (page_content chunk))
      (split_documents Samples.char_windows [Samples.big_image_unit])
    = [5000; 204]%nat
  ∧ ∀ lib, respects_chunk_size lib →
           split_documents lib [Samples.big_image_unit] ≠ [Samples.big_image_unit].
Proof.
  split; [by vm_compute|]. split; [by vm_compute|]. split; [by vm_compute|].
  intros lib Hlib Heq.
  assert (Samples.big_image_unit ∈ split_documents lib [Samples.big_image_unit]) as Hin.
  { rewrite Heq. by left. }
  apply split_documents_origin in Hin as (doc & ->%list_elem_of_singleton & _ & Hpiece).
  apply Hlib in Hpiece. revert Hpiece.
  assert (String.length (page_content Samples.big_image_unit) = (5000 + 4)%nat) as ->
      by (by vm_compute).
  unfold max_chunk_size. lia.
Qed.

(** * Extraction order *)


Section ExtractOrder.

Import Units.

Variable file_path : string.
Variable pdf : Pdf.

Lemma text_units_page n page doc :
  doc ∈ text_units file_path n page →
  unit_page doc = Z.of_nat n + 1 ∧ emitted_rank doc = 0%nat.
Proof.
  unfold text_units. case_match; [|by intros ?%elem_of_nil].
  intros ->%list_elem_of_singleton. done.
Qed.

Lemma image_unit_page n entry :
  unit_page (image_unit file_path pdf n entry) = Z.of_nat n + 1
  ∧ emitted_rank (image_unit file_path pdf n entry) = 1%nat.
Proof. destruct entry. done. Qed.

Lemma table_units_page n entry doc :
  doc ∈ table_units file_path n entry →
  unit_page doc = Z.of_nat n + 1 ∧ emitted_rank doc = 2%nat.
Proof.
  destruct entry as [i b]. unfold table_units. simpl.
  case_match; [|by intros ?%elem_of_nil].
  intros ->%list_elem_of_singleton. done.
Qed.

(** A run of units of one page and one kind is in order. *)
Lemma uniform_run_sorted p r (l : list Document) :
  (∀ doc, doc ∈ l → unit_page doc = p ∧ emitted_rank doc = r) →
  StronglySorted (unit_le emitted_rank) l.
Proof.
  induction l as [|d l IH]; intros Hl; constructor.
  - apply IH. intros doc Hdoc. apply Hl. by right.
  - apply Forall_forall. intros d' Hd'. unfold unit_le.
    destruct (Hl d) as [? ?]; [by left|].
    destruct (Hl d') as [? ?]; [by right|]. lia.
Qed.

Lemma image_units_page n (imgs : list (nat * Img)) doc :
  doc ∈ map (image_unit file_path pdf n) imgs →
  unit_page doc = Z.of_nat n + 1 ∧ emitted_rank doc = 1%nat.
Proof.
  intros (entry & -> & _)%list_elem_of_fmap. apply image_unit_page.
Qed.

Lemma all_table_units_page n (bs : list (nat * Block)) doc :
  doc ∈ flat_map (table_units file_path n) bs →
  unit_page doc = Z.of_nat n + 1 ∧ emitted_rank doc = 2%nat.
Proof.
  intros (entry & _ & Hin)%list_elem_of_In%in_flat_map.
  apply (table_units_page n entry). by apply list_elem_of_In.
Qed.

Lemma page_units_page n page doc :
  doc ∈ page_units file_path pdf (n, page) → unit_page doc = Z.of_nat n + 1.
Proof.
  unfold page_units. rewrite !elem_of_app.
  intros [H|[H|H]].
  - by apply text_units_page in H as [? _].
  - by apply image_units_page in H as [? _].
  - by apply all_table_units_page in H as [? _].
Qed.

Lemma page_units_sorted n page :
  StronglySorted (unit_le emitted_rank) (page_units file_path pdf (n, page)).
Proof.
  unfold page_units.
  apply StronglySorted_app_2; [|  |apply StronglySorted_app_2].
  - intros d1 d2 [? ?]%text_units_page Hd2. unfold unit_le.
    apply elem_of_app in Hd2 as [[? ?]%image_units_page|[? ?]%all_table_units_page]; lia.
  - apply (uniform_run_sorted (Z.of_nat n + 1) 0%nat). intros doc. apply text_units_page.
  - intros d1 d2 [? ?]%image_units_page [? ?]%all_table_units_page.
    unfold unit_le. lia.
  - apply (uniform_run_sorted (Z.of_nat n + 1) 1%nat). intros doc. apply image_units_page.
  - apply (uniform_run_sorted (Z.of_nat n + 1) 2%nat). intros doc. apply all_table_units_page.
Qed.

(** The page loop from page index [k] on. *)
Lemma pages_from_sorted (ps : list Page) (k : nat) :
  let out := flat_map (page_units file_path pdf) (imap (λ i x, ((k + i)%nat, x)) ps) in
  StronglySorted (unit_le emitted_rank) out
  ∧ ∀ doc, doc ∈ out → Z.of_nat k + 1 ≤ unit_page doc.
Proof.
  revert k. induction ps as [|page ps IH]; intros k; simpl.
  { split; [constructor|]. by intros doc ?%elem_of_nil. }
  destruct (IH (S k)) as [IHs IHp].
  assert (imap ((λ i x, ((k + i)%nat, x)) ∘ S) ps
          = imap (λ i x, ((S k + i)%nat, x)) ps) as ->.
  { apply imap_ext. intros i x _. simpl. f_equal. lia. }
  rewrite Nat.add_0_r. split.
  - apply StronglySorted_app_2; [|apply page_units_sorted|done].
    intros d1 d2 ?%page_units_page Hd2%IHp. unfold unit_le. lia.
  - intros doc [?%page_units_page|Hdoc%IHp]%elem_of_app; lia.
Qed.

Lemma extract_pages_sorted :
  StronglySorted (unit_le emitted_rank) (extract_pages file_path pdf).
Proof. apply (pages_from_sorted (pages pdf) 0). Qed.

(** Of the units of one page only the text unit passes [is_text_unit]. *)
Lemma page_units_text n page :
  map page_content (filter (λ doc, is_text_unit doc) (page_units file_path pdf (n, page)))
  = filter (λ text, ¬ blank text) [get_text page].
Proof.
  unfold page_units. rewrite !filter_app.
  assert (filter (λ doc, is_text_unit doc)
            (map (image_unit file_path pdf n) (enumerate (get_images page))) = []) as ->.
  { generalize (enumerate (get_images page)). intros l.
    induction l as [|[i img] l IH]; [done|]. simpl.
    rewrite filter_cons_False; [done|]. by intros ?. }
  assert (filter (λ doc, is_text_unit doc)
            (flat_map (table_units file_path n) (enumerate (blocks page))) = []) as ->.
  { generalize (enumerate (blocks page)). intros l.
    induction l as [|[i b] l IH]; [done|]. simpl.
    rewrite filter_app, IH, app_nil_r. unfold table_units.
    case_match; [|done]. rewrite filter_cons_False; [done|]. by intros ?. }
  rewrite !app_nil_r. unfold text_units, blank.
  destruct (PyStr.truthy (PyStr.strip (get_text page))) eqn:E.
  - rewrite filter_cons_True by done.
    rewrite filter_cons_True; [done|]. rewrite E. by intros ?.
  - rewrite filter_nil. rewrite filter_cons_False; [done|]. rewrite E.
    intros H. by apply H.
Qed.

Lemma pages_from_text (ps : list Page) (k : nat) :
  map page_content
    (filter (λ doc, is_text_unit doc)
       (flat_map (page_units file_path pdf) (imap (λ i x, ((k + i)%nat, x)) ps)))
  = filter (λ text, ¬ blank text) (map get_text ps).
Proof.
  revert k. induction ps as [|page ps IH]; intros k; [done|].
  rewrite imap_cons. cbn [flat_map map]. rewrite Nat.add_0_r.
  assert (imap ((λ i x, ((k + i)%nat, x)) ∘ S) ps
          = imap (λ i x, ((S k + i)%nat, x)) ps) as ->.
  { apply imap_ext. intros i x _. simpl. f_equal. lia. }
  change (get_text page :: map get_text ps)
    with ([get_text page] ++ map get_text ps).
  by rewrite !filter_app, map_app, IH, page_units_text.
Qed.

End ExtractOrder.

(** Every unit extraction emits is a text, image or table unit. *)
Lemma extract_pages_rank (file_path : string) (pdf : Pdf) (doc : Document) :
  doc ∈ extract_pages file_path pdf → (Units.emitted_rank doc ≤ 2)%nat.
Proof.
  unfold extract_pages.
  intros ([n page] & _ & Hdoc)%list_elem_of_In%in_flat_map.
  apply list_elem_of_In in Hdoc. unfold page_units in Hdoc.
  rewrite !elem_of_app in Hdoc. destruct Hdoc as [H|[H|H]].
  - apply text_units_page in H as [_ ->]. lia.
  - apply image_units_page in H as [_ ->]. lia.
  - apply all_table_units_page in H as [_ ->]. lia.
Qed.

(** What the ingestion run hands to the index, extraction then splitting
    then id assignment, only carries the three kinds that context assembly
    tells apart. *)
Lemma ingested_units_known_type (hash : string → Z) (lib : SplitterLib)
    (file_path : string) (pdf : Pdf) (chunk : Document) (score : Z) :
  chunk ∈ split_documents lib (extract_pages file_path pdf) →
  Units.known_type (assign_id hash chunk, score).
Proof.
  intros (doc & Hdoc & Hmeta & _)%split_documents_origin.
  apply extract_pages_rank in Hdoc.
  unfold Units.known_type, Units.has_type, doc_type_of, assign_id. simpl.
  rewrite lookup_insert_ne by done. rewrite Hmeta.
  unfold Units.emitted_rank, doc_type_of in Hdoc.
  repeat case_decide; try lia; auto.
Qed.

(** C7 (as amended).  For every document the units come out in a fixed
    order: pages ascending and, within a page, the text unit, then the image
    units, then the table units.  The text units emitted are exactly the
    texts of the pages whose text is not blank, in page order; blank pages
    still contribute their image and table units. *)
Theorem extract_pdf_content_order (file_path : string) (pdf : Pdf) :
  StronglySorted (Units.unit_le Units.emitted_rank) (extract_pages file_path pdf)
  ∧ map page_content
      (filter (λ doc, Units.is_text_unit doc) (extract_pages file_path pdf))
    = filter (λ text, ¬ Units.blank text) (map get_text (pages pdf)).
Proof.
  split.
  - apply extract_pages_sorted.
  - apply (pages_from_text file_path pdf (pages pdf) 0).
Qed.

(** C7 (as stated) fails: on a page with an image and a table the image
    unit comes before the table unit, and a page whose text is blank still
    yields a unit for its image. *)
Lemma extract_pdf_content_order_counterexample :
  map Units.emitted_rank (extract_pages "m.pdf" Samples.mixed_pdf) = [0; 1; 2]%nat
  ∧ ¬ StronglySorted (Units.unit_le Units.tables_first_rank)
        (extract_pages "m.pdf" Samples.mixed_pdf)
  ∧ Units.blank (get_text Samples.scanned_page) = true
  ∧ map page_content (extract_pages "s.pdf" Samples.scanned_pdf) = ["TWFu"].
Proof.
  split; [by vm_compute|]. split; [|split; by vm_compute].
  intros H. apply StronglySorted_cons in H as [_ H].
  apply StronglySorted_cons in H as [H _]. apply Forall_cons in H as [H _].
  destruct H as [H|[_ H]]; vm_compute in H; [done|lia].
Qed.

(** * Loading the source directory *)

Section LoadDocuments.

Variable fs : FileSystem.

(** Files that are skipped or that open leave the loop running. *)
Lemma load_loop_app (pre rest : list string) (documents : list Document) :
  Forall (λ n, Units.is_pdf_name n = true → ∃ pdf, fitz_open fs (Units.source_path n) = Ok pdf) pre →
  ∃ documents', load_loop fs (pre ++ rest) documents = load_loop fs rest documents'.
Proof.
  revert documents. induction pre as [|n pre IH]; intros documents Hpre.
  { by exists documents. }
  apply Forall_cons in Hpre as [Hn Hpre]. simpl.
  fold (Units.is_pdf_name n). destruct (Units.is_pdf_name n) eqn:E.
  - destruct (Hn eq_refl) as [pdf Hpdf]. unfold extract_pdf_content.
    fold (Units.source_path n). rewrite Hpdf. simpl. by apply IH.
  - by apply IH.
Qed.

Lemma load_loop_raise (name : string) (rest : list string)
    (documents : list Document) (e : Exn) :
  Units.is_pdf_name name = true →
  fitz_open fs (Units.source_path name) = Raise e →
  load_loop fs (name :: rest) documents = Raise e.
Proof.
  intros Hname Hopen. simpl. fold (Units.is_pdf_name name). rewrite Hname.
  unfold extract_pdf_content. fold (Units.source_path name). by rewrite Hopen.
Qed.

End LoadDocuments.

(** C8 (as amended).  An error while opening one document is not contained:
    it leaves [load_documents] as an exception, whatever files come after
    the failing one, and no unit of any document is returned. *)
Theorem load_documents_aborts (fs : FileSystem) (pre post : list string)
    (name : string) (e : Exn) :
  listdir fs = pre ++ name :: post →
  Forall (λ n, Units.is_pdf_name n = true → ∃ pdf, fitz_open fs (Units.source_path n) = Ok pdf) pre →
  Units.is_pdf_name name = true →
  fitz_open fs (Units.source_path name) = Raise e →
  load_documents fs = Raise e.
Proof.
  intros Hdir Hpre Hname Hopen. unfold load_documents. rewrite Hdir.
  destruct (load_loop_app fs pre (name :: post) [] Hpre) as [docs ->].
  by apply load_loop_raise.
Qed.

Lemma load_documents_aborts_witness :
  load_documents Samples.source_dir = Raise (OtherException "FileDataError").
Proof.
  apply (load_documents_aborts Samples.source_dir [] ["notes.txt"; "Manual.PDF"] "broken.pdf").
  - reflexivity.
  - constructor.
  - reflexivity.
  - reflexivity.
Defined.

(** C8 (as stated) fails: with one unreadable file in the directory the run
    ends in that file's error, although the directory without it loads. *)
Lemma load_documents_isolation_counterexample :
  load_documents Samples.source_dir = Raise (OtherException "FileDataError")
  ∧ load_documents Samples.good_dir
    = Ok (extract_pages "src/data/source/Manual.PDF" Samples.mixed_pdf)
  ∧ load_documents Samples.source_dir ≠ load_documents Samples.good_dir.
Proof. split; [|split]; by vm_compute. Qed.

(** * Fetching a job *)

Section GetItem.

Import QueryModel.

Variable env : Env.

Lemma get_item_absent (query_id : string) (w : World) :
  ddb_get_fault env query_id = None →
  table w !! query_id = None →
  get_item env query_id w = (Ok None, w).
Proof.
  intros Hfault Habsent. unfold get_item, ddb_get_item.
  by rewrite Hfault, Habsent.
Qed.

Lemma get_item_present (job : t) (w : World) :
  ddb_get_fault env (query_id job) = None →
  table w !! query_id job = Some (as_ddb_item job) →
  forallb is_str (sources job) = true →
  get_item env (query_id job) w = (Ok (Some job), w).
Proof.
  intros Hfault Hitem Hsrc. unfold get_item, ddb_get_item.
  rewrite Hfault, Hitem. by rewrite init_as_ddb_item.
Qed.

Lemma get_item_client_error (query_id message : string) (w : World) :
  ddb_get_fault env query_id = Some (ClientError message) →
  get_item env query_id w = (Ok None, w).
Proof.
  intros Hfault. unfold get_item, ddb_get_item. by rewrite Hfault.
Qed.

Lemma get_item_other_error (query_id message : string) (w : World) :
  ddb_get_fault env query_id = Some (OtherException message) →
  get_item env query_id w = (Raise (OtherException message), w).
Proof.
  intros Hfault. unfold get_item, ddb_get_item. by rewrite Hfault.
Qed.

End GetItem.

(** C9 (as amended).  Fetching a job by an id that is not in the table
    yields [None], which is not an error.  A [ClientError] of the table
    during the fetch is caught inside [get_item] and yields the very same
    [None], so the caller of the endpoint cannot tell it from a missing job;
    only an exception that is not a [ClientError] reaches the caller. *)
Theorem get_query_not_found_or_failed (env : Env) (query_id : string) (w : World) :
  (ddb_get_fault env query_id = None → table w !! query_id = None →
   AppApiHandler.get_query_endpoint env query_id w = (Ok None, w))
  ∧ (∀ message, ddb_get_fault env query_id = Some (ClientError message) →
       AppApiHandler.get_query_endpoint env query_id w = (Ok None, w))
  ∧ (∀ message, ddb_get_fault env query_id = Some (OtherException message) →
       AppApiHandler.get_query_endpoint env query_id w
       = (Raise (OtherException message), w)).
Proof.
  unfold AppApiHandler.get_query_endpoint. split; [|split].
  - apply get_item_absent.
  - intros message. apply get_item_client_error.
  - intros message. apply get_item_other_error.
Qed.

Lemma get_query_not_found_or_failed_witness :
  AppApiHandler.get_query_endpoint Samples.env_sync "no-such-id" Samples.world_with_job
  = (Ok None, Samples.world_with_job)
  ∧ AppApiHandler.get_query_endpoint Samples.env_table_down
      "0f8fad5bd9cb469fa16570867728950e" Samples.world_with_job
    = (Ok None, Samples.world_with_job).
Proof.
  split.
  - apply (get_query_not_found_or_failed Samples.env_sync "no-such-id"
             Samples.world_with_job); reflexivity.
  - apply (get_query_not_found_or_failed Samples.env_table_down
             "0f8fad5bd9cb469fa16570867728950e" Samples.world_with_job
             ) with (message := "Requested resource not found").
    reflexivity.
Defined.

(** C9 (as stated) fails: with the job in the table and the table answering
    the fetch with a [ClientError], the endpoint returns the not-found
    value and no error, although the same fetch finds the job when the
    table is healthy. *)
Lemma get_query_swallows_error_counterexample :
  ddb_get_fault Samples.env_table_down "0f8fad5bd9cb469fa16570867728950e"
  = Some (ClientError "Requested resource not found")
  ∧ AppApiHandler.get_query_endpoint Samples.env_table_down
      "0f8fad5bd9cb469fa16570867728950e" Samples.world_with_job
    = (Ok None, Samples.world_with_job)
  ∧ AppApiHandler.get_query_endpoint Samples.env_sync
      "0f8fad5bd9cb469fa16570867728950e" Samples.world_with_job
    = (Ok (Some Samples.pending_job), Samples.world_with_job)
  ∧ AppApiHandler.get_query_endpoint Samples.env_sync "no-such-id"
      Samples.world_with_job
    = (Ok None, Samples.world_with_job).
Proof.
  split; [reflexivity|]. split; [reflexivity|]. split.
  - apply (get_item_present Samples.env_sync Samples.pending_job); reflexivity.
  - reflexivity.
Qed.

(** * More on extraction *)

Section ExtractMore.

Variable file_path : string.
Variable pdf : Pdf.

Lemma enumerate_elem {A} (l : list A) (i : nat) (x : A) :
  (i, x) ∈ enumerate l ↔ l !! i = Some x.
Proof.
  unfold enumerate. rewrite elem_of_lookup_imap. split.
  - intros (j & y & [= -> ->] & Hj). done.
  - intros Hi. by exists i, x.
Qed.

Lemma extract_pages_elem (doc : Document) :
  doc ∈ extract_pages file_path pdf
  ↔ ∃ n page, pages pdf !! n = Some page ∧ doc ∈ page_units file_path pdf (n, page).
Proof.
  unfold extract_pages. rewrite list_elem_of_In, in_flat_map. split.
  - intros ([n page] & Hin%list_elem_of_In%enumerate_elem & Hdoc%list_elem_of_In).
    by exists n, page.
  - intros (n & page & Hpage & Hdoc). exists (n, page).
    split; apply list_elem_of_In; [by apply enumerate_elem|done].
Qed.

Lemma page_units_source (n : nat) (page : Page) (doc : Document) :
  doc ∈ page_units file_path pdf (n, page) →
  metadata doc !! "source" = Some (MStr file_path)
  ∧ metadata doc !! "page" = Some (MInt (Z.of_nat n + 1)).
Proof.
  unfold page_units. rewrite !elem_of_app. intros [H|[H|H]].
  - unfold text_units in H. case_match; [|by apply elem_of_nil in H].
    apply list_elem_of_singleton in H as ->. done.
  - apply list_elem_of_fmap in H as ([i img] & -> & _). done.
  - apply list_elem_of_In, in_flat_map in H as ([i b] & _ & H).
    apply list_elem_of_In in H. unfold table_units in H.
    case_match; [|by apply elem_of_nil in H].
    apply list_elem_of_singleton in H as ->. done.
Qed.

Lemma page_units_image (n : nat) (page : Page) (doc : Document) :
  doc ∈ page_units file_path pdf (n, page) ∧ doc_type_of doc = MStr "image"
  ↔ ∃ i img, get_images page !! i = Some img
             ∧ doc = image_unit file_path pdf n (i, img).
Proof.
  unfold page_units. rewrite !elem_of_app. split.
  - intros [[H|[H|H]] Hty].
    + apply text_units_page in H as [_ Hrank].
      unfold Units.emitted_rank in Hrank. rewrite Hty in Hrank. done.
    + apply list_elem_of_fmap in H as ([i img] & -> & Hin%enumerate_elem).
      by exists i, img.
    + apply all_table_units_page in H as [_ Hrank].
      unfold Units.emitted_rank in Hrank. rewrite Hty in Hrank. done.
  - intros (i & img & Hi & ->). split; [|done].
    right. left. apply list_elem_of_fmap. exists (i, img).
    split; [done|]. by apply enumerate_elem.
Qed.

Lemma looks_like_table_spec (lns : list Line) :
  looks_like_table lns = true
  ↔ (2 ≤ length lns)%nat ∧ Forall (λ line, spans line ≠ []) lns.
Proof.
  unfold looks_like_table. rewrite andb_true_iff, Nat.ltb_lt, forallb_forall.
  rewrite Forall_forall. split.
  - intros [Hlen Hall]. split; [lia|]. intros line Hline%list_elem_of_In%Hall.
    apply Nat.ltb_lt in Hline. destruct (spans line); [simpl in Hline; lia|done].
  - intros [Hlen Hall]. split; [lia|]. intros line Hline%list_elem_of_In%Hall.
    apply Nat.ltb_lt. destruct (spans line); [done|simpl; lia].
Qed.

Lemma page_units_table (n : nat) (page : Page) (doc : Document) :
  doc ∈ page_units file_path pdf (n, page) ∧ doc_type_of doc = MStr "table"
  ↔ ∃ i block,
      blocks page !! i = Some block
      ∧ looks_like_table (block_lines block) = true
      ∧ doc = mkDocument (table_content (block_lines block))
                (meta [("source", MStr file_path);
                       ("page", MInt (Z.of_nat n + 1));
                       ("type", MStr "table");
                       ("table_index", MInt (Z.of_nat i))]).
Proof.
  unfold page_units. rewrite !elem_of_app. split.
  - intros [[H|[H|H]] Hty].
    + apply text_units_page in H as [_ Hrank].
      unfold Units.emitted_rank in Hrank. rewrite Hty in Hrank. done.
    + apply image_units_page in H as [_ Hrank].
      unfold Units.emitted_rank in Hrank. rewrite Hty in Hrank. done.
    + apply list_elem_of_In, in_flat_map in H as ([i b] & Hin & H).
      apply list_elem_of_In, enumerate_elem in Hin.
      apply list_elem_of_In in H. unfold table_units in H.
      destruct (looks_like_table (block_lines b)) eqn:E; [|by apply elem_of_nil in H].
      apply list_elem_of_singleton in H as ->. by exists i, b.
  - intros (i & b & Hi & Htable & ->). split; [|done].
    right. right. apply list_elem_of_In, in_flat_map. exists (i, b).
    split; apply list_elem_of_In; [by apply enumerate_elem|].
    unfold table_units. rewrite Htable. by left.
Qed.

End ExtractMore.

(** X1.  Every unit extraction emits names the file it came from as its
    source and carries a page number counted from 1 that lies within the
    document. *)
Theorem extract_units_tagged (file_path : string) (pdf : Pdf) (doc : Document) :
  doc ∈ extract_pages file_path pdf →
  metadata doc !! "source" = Some (MStr file_path)
  ∧ ∃ page_number : Z,
      metadata doc !! "page" = Some (MInt page_number)
      ∧ 1 ≤ page_number ≤ Z.of_nat (length (pages pdf)).
Proof.
  intros (n & page & Hpage & Hdoc)%extract_pages_elem.
  apply page_units_source in Hdoc as [Hs Hp]. split; [done|].
  exists (Z.of_nat n + 1). split; [done|].
  apply lookup_lt_Some in Hpage. lia.
Qed.

Lemma extract_units_tagged_witness :
  ∃ page_number : Z,
    metadata (image_unit "m.pdf" Samples.mixed_pdf 0 (0%nat, mkImg 7)) !! "page"
    = Some (MInt page_number)
    ∧ 1 ≤ page_number ≤ Z.of_nat (length (pages Samples.mixed_pdf)).
Proof.
  apply (extract_units_tagged "m.pdf" Samples.mixed_pdf
           (image_unit "m.pdf" Samples.mixed_pdf 0 (0%nat, mkImg 7))).
  apply extract_pages_elem. exists 0%nat, Samples.mixed_page.
  split; [reflexivity|]. unfold page_units. rewrite !elem_of_app. right. left.
  apply list_elem_of_fmap. exists (0%nat, mkImg 7). split; [reflexivity|].
  apply list_elem_of_here.
Defined.

(** X2.  The image units of a document are exactly the embedded images of
    its pages: image number [i] of page number [n + 1] gives one unit, whose
    payload is the base64 text of the image bytes and whose [image_index] is
    [i]; no image is dropped and no other unit has type image. *)
Theorem extract_image_units (file_path : string) (pdf : Pdf) (doc : Document) :
  doc ∈ extract_pages file_path pdf ∧ doc_type_of doc = MStr "image"
  ↔ ∃ n page i img,
      pages pdf !! n = Some page
      ∧ get_images page !! i = Some img
      ∧ doc = mkDocument (Base64.b64encode (extract_image pdf (xref img)))
                (meta [("source", MStr file_path);
                       ("page", MInt (Z.of_nat n + 1));
                       ("type", MStr "image");
                       ("image_index", MInt (Z.of_nat i))]).
Proof.
  rewrite extract_pages_elem. split.
  - intros [(n & page & Hpage & Hdoc) Hty].
    destruct (proj1 (page_units_image file_path pdf n page doc) (conj Hdoc Hty))
      as (i & img & Hi & ->).
    by exists n, page, i, img.
  - intros (n & page & i & img & Hpage & Hi & ->).
    destruct (proj2 (page_units_image file_path pdf n page
                       (image_unit file_path pdf n (i, img))))
      as [Hdoc Hty]; [by exists i, img|].
    split; [|done]. by exists n, page.
Qed.

(** X3.  The table units of a document are exactly the blocks that have at
    least two lines, each line with at least one span: block number [i] of
    page number [n + 1] gives one unit, its lines joined by newlines and the
    spans of a line by tabs, with [table_index] [i] counting all blocks of
    the page.  A block without lines, with one line, or with an empty line
    gives none. *)
Theorem extract_table_units (file_path : string) (pdf : Pdf) (doc : Document) :
  doc ∈ extract_pages file_path pdf ∧ doc_type_of doc = MStr "table"
  ↔ ∃ n page i block,
      pages pdf !! n = Some page
      ∧ blocks page !! i = Some block
      ∧ (2 ≤ length (default [] (lines block)))%nat
      ∧ Forall (λ line, spans line ≠ []) (default [] (lines block))
      ∧ doc = mkDocument
                (PyStr.join PyStr.newline
                   (map (λ line, PyStr.join PyStr.tab (map span_text (spans line)))
                        (default [] (lines block))))
                (meta [("source", MStr file_path);
                       ("page", MInt (Z.of_nat n + 1));
                       ("type", MStr "table");
                       ("table_index", MInt (Z.of_nat i))]).
Proof.
  rewrite extract_pages_elem. split.
  - intros [(n & page & Hpage & Hdoc) Hty].
    destruct (proj1 (page_units_table file_path pdf n page doc) (conj Hdoc Hty))
      as (i & block & Hi & [Hlen Hall]%looks_like_table_spec & ->).
    by exists n, page, i, block.
  - intros (n & page & i & block & Hpage & Hi & Hlen & Hall & ->).
    match goal with
    | |- (∃ _ _, _ ∧ ?d ∈ _) ∧ _ =>
        destruct (proj2 (page_units_table file_path pdf n page d)) as [Hdoc Hty]
    end.
    { exists i, block. split; [done|]. split; [|reflexivity].
      by apply looks_like_table_spec. }
    split; [|done]. by exists n, page.
Qed.

(** X4.  Two images with the same bytes on one page get the same id,
    whatever their positions, because the id leaves the index out; when that
    id is not yet in the collection both units pass the filter of
    [add_to_chroma], so one request names the id twice. *)
Theorem same_image_same_id (hash : string → Z) (file_path : string) (pdf : Pdf)
    (n i j : nat) (img1 img2 : Img) :
  extract_image pdf (xref img1) = extract_image pdf (xref img2) →
  let unit1 := image_unit file_path pdf n (i, img1) in
  let unit2 := image_unit file_path pdf n (j, img2) in
  chunk_id hash unit1 = chunk_id hash unit2
  ∧ ∀ db : gmap string Document,
      chunk_id hash unit1 ∉ dom db →
      map id_of (new_documents hash db [unit1; unit2])
      = [chunk_id hash unit1; chunk_id hash unit1].
Proof.
  intros Hbytes unit1 unit2.
  assert (chunk_id hash unit1 = chunk_id hash unit2) as Hid.
  { unfold unit1, unit2, chunk_id, doc_type_of. simpl. by rewrite Hbytes. }
  split; [done|]. intros db Hfresh.
  unfold new_documents, existing_ids.
  change (map (assign_id hash) [unit1; unit2])
    with [assign_id hash unit1; assign_id hash unit2].
  rewrite filter_cons_True by (by rewrite id_of_assign_id).
  rewrite filter_cons_True by (by rewrite id_of_assign_id, <- Hid).
  rewrite filter_nil. simpl. by rewrite !id_of_assign_id, <- Hid.
Qed.

Lemma same_image_same_id_witness :
  chunk_id Samples.hash_seed1 (image_unit "m.pdf" Samples.mixed_pdf 0 (0%nat, mkImg 7))
  = chunk_id Samples.hash_seed1 (image_unit "m.pdf" Samples.mixed_pdf 0 (1%nat, mkImg 8)).
Proof.
  apply (same_image_same_id Samples.hash_seed1 "m.pdf" Samples.mixed_pdf
           0 0 1 (mkImg 7) (mkImg 8)).
  reflexivity.
Defined.

(** * The payload of image units *)

Lemma b64encode_length (bs : list Byte.byte) :
  String.length (Base64.b64encode bs) = (4 * ((length bs + 2) / 3))%nat.
Proof.
  assert (∀ n (l : list Byte.byte), (length l < n)%nat →
            String.length (Base64.b64encode l) = (4 * ((length l + 2) / 3))%nat) as H.
  { induction n as [|n IH]; intros l Hl; [lia|].
    destruct l as [|a [|b [|c rest]]]; [reflexivity..|].
    cbn [Base64.b64encode Base64.quad String.length length].
    rewrite IH by (simpl in Hl; lia).
    replace (S (S (S (length rest))) + 2)%nat with (length rest + 2 + 1 * 3)%nat by lia.
    rewrite Nat.div_add by lia. lia. }
  apply (H (S (length bs))). lia.
Qed.

Lemma digit_base64 (n : N) :
  (n < 64)%N → Vocabulary.is_base64_char (Base64.digit n) = true.
Proof.
  intros Hn. rewrite <- (N2Nat.id n).
  assert (N.to_nat n < 64)%nat as Hm by lia. revert Hm.
  generalize (N.to_nat n). intros m Hm.
  do 64 (destruct m as [|m]; [reflexivity|]). lia.
Qed.

Lemma lor_below (a b : N) (k : N) :
  (a < 2 ^ k)%N → (b < 2 ^ k)%N → (N.lor a b < 2 ^ k)%N.
Proof.
  intros Ha Hb.
  destruct (N.eq_dec a 0%N) as [->|Ha0]; [by rewrite N.lor_0_l|].
  destruct (N.eq_dec b 0%N) as [->|Hb0]; [by rewrite N.lor_0_r|].
  assert (N.lor a b ≠ 0%N) as Hne.
  { intros H. apply N.lor_eq_0_iff in H as [? _]. done. }
  apply N.log2_lt_pow2; [lia|]. rewrite N.log2_lor.
  apply N.max_lub_lt; apply N.log2_lt_pow2; (done || lia).
Qed.

Lemma byte_below (a : Byte.byte) : (Byte.to_N a < 256)%N.
Proof. by destruct a. Qed.

Lemma sextet_high (x : N) : (x < 256)%N → (N.shiftr x 2 < 2 ^ 6)%N.
Proof.
  intros Hx. rewrite N.shiftr_div_pow2. apply N.Div0.div_lt_upper_bound.
  change (2 ^ 2 * 2 ^ 6)%N with 256%N. done.
Qed.

Lemma sextet_low2 (x : N) : (N.shiftl (N.land x 3) 4 < 2 ^ 6)%N.
Proof.
  change 3%N with (N.ones 2). rewrite N.land_ones, N.shiftl_mul_pow2.
  pose proof (N.mod_upper_bound x (2 ^ 2)) as H.
  change (2 ^ 2)%N with 4%N in *. change (2 ^ 4)%N with 16%N.
  change (2 ^ 6)%N with 64%N. lia.
Qed.

Lemma sextet_shift4 (y : N) : (y < 256)%N → (N.shiftr y 4 < 2 ^ 6)%N.
Proof.
  intros Hy. rewrite N.shiftr_div_pow2.
  apply N.Div0.div_lt_upper_bound. change (2 ^ 4 * 2 ^ 6)%N with 1024%N. lia.
Qed.

Lemma sextet_low4 (y : N) : (N.shiftl (N.land y 15) 2 < 2 ^ 6)%N.
Proof.
  change 15%N with (N.ones 4). rewrite N.land_ones, N.shiftl_mul_pow2.
  pose proof (N.mod_upper_bound y (2 ^ 4)) as H.
  change (2 ^ 4)%N with 16%N in *. change (2 ^ 2)%N with 4%N.
  change (2 ^ 6)%N with 64%N. lia.
Qed.

Lemma sextet_shift6 (z : N) : (z < 256)%N → (N.shiftr z 6 < 2 ^ 6)%N.
Proof.
  intros Hz. rewrite N.shiftr_div_pow2.
  apply N.Div0.div_lt_upper_bound. change (2 ^ 6 * 2 ^ 6)%N with 4096%N. lia.
Qed.

Lemma sextet_low6 (z : N) : (N.land z 63 < 2 ^ 6)%N.
Proof.
  change 63%N with (N.ones 6). rewrite N.land_ones.
  apply N.mod_upper_bound. done.
Qed.

Lemma b64encode_chars (bs : list Byte.byte) :
  Vocabulary.all_chars Vocabulary.is_base64_char (Base64.b64encode bs) = true.
Proof.
  assert (∀ n (l : list Byte.byte), (length l < n)%nat →
            Vocabulary.all_chars Vocabulary.is_base64_char (Base64.b64encode l) = true)
    as H.
  { induction n as [|n IH]; intros l Hl; [lia|].
    destruct l as [|a [|b [|c rest]]]; [reflexivity|..].
    - cbn [Base64.b64encode Base64.quad Vocabulary.all_chars].
      rewrite !digit_base64; [done|..].
      + apply sextet_low2.
      + apply sextet_high, byte_below.
    - cbn [Base64.b64encode Base64.quad Vocabulary.all_chars].
      rewrite !digit_base64; [done|..].
      + apply sextet_low4.
      + apply (lor_below _ _ 6%N); [apply sextet_low2|apply sextet_shift4, byte_below].
      + apply sextet_high, byte_below.
    - cbn [Base64.b64encode Base64.quad Vocabulary.all_chars].
      rewrite IH by (simpl in Hl; lia).
      rewrite !digit_base64; [done|..].
      + apply sextet_low6.
      + apply (lor_below _ _ 6%N); [apply sextet_low4|apply sextet_shift6, byte_below].
      + apply (lor_below _ _ 6%N); [apply sextet_low2|apply sextet_shift4, byte_below].
      + apply sextet_high, byte_below. }
  apply (H (S (length bs))). lia.
Qed.

(** X5.  The payload of an image unit is plain base64 text: four characters
    for every three bytes of the image, the last group padded, and nothing
    but letters, digits, [+], [/] and [=]. *)
Theorem image_unit_payload (file_path : string) (pdf : Pdf) (n i : nat) (img : Img) :
  let payload := page_content (image_unit file_path pdf n (i, img)) in
  String.length payload
  = (4 * ((length (extract_image pdf (xref img)) + 2) / 3))%nat
  ∧ Vocabulary.all_chars Vocabulary.is_base64_char payload = true.
Proof.
  cbn [image_unit page_content]. split.
  - apply b64encode_length.
  - apply b64encode_chars.
Qed.

(** X6.  An embedded image of more than 3750 bytes does not survive
    splitting in one piece: its base64 text is longer than the chunk size,
    so whatever splitter respects the chunk size returns something else
    than the unit itself. *)
Theorem large_image_is_split (lib : SplitterLib) (file_path : string) (pdf : Pdf)
    (n i : nat) (img : Img) :
  respects_chunk_size lib →
  (3750 < length (extract_image pdf (xref img)))%nat →
  split_documents lib [image_unit file_path pdf n (i, img)]
  ≠ [image_unit file_path pdf n (i, img)].
Proof.
  intros Hlib Hbig Heq.
  assert (image_unit file_path pdf n (i, img)
          ∈ split_documents lib [image_unit file_path pdf n (i, img)]) as Hin.
  { rewrite Heq. apply list_elem_of_here. }
  apply split_documents_origin in Hin as (doc & ->%list_elem_of_singleton & _ & Hpiece).
  apply Hlib in Hpiece. cbn [image_unit page_content] in Hpiece.
  rewrite b64encode_length in Hpiece.
  assert (1251 ≤ (length (extract_image pdf (xref img)) + 2) / 3)%nat as Hq.
  { apply Nat.div_le_lower_bound; lia. }
  unfold max_chunk_size in Hpiece. lia.
Qed.

Lemma large_image_is_split_witness :
  split_documents Samples.char_windows [Samples.big_image_unit] ≠ [Samples.big_image_unit].
Proof.
  apply (large_image_is_split Samples.char_windows "scan.pdf" Samples.big_image_pdf
           0 0 (mkImg 3)).
  - exact char_windows_respects_chunk_size.
  - apply Nat.ltb_lt. vm_compute. reflexivity.
Defined.

(** * More on loading, storing and the script *)

Section LoadMore.

Variable fs : FileSystem.

Lemma load_loop_all_open (names : list string) (documents : list Document) :
  Forall (λ name, Units.is_pdf_name name = true →
                  ∃ pdf, fitz_open fs (Units.source_path name) = Ok pdf) names →
  load_loop fs names documents
  = Ok (documents ++ flat_map (Vocabulary.units_of fs) names).
Proof.
  revert documents. induction names as [|name names IH]; intros documents Hall.
  { simpl. by rewrite app_nil_r. }
  apply Forall_cons in Hall as [Hname Hall].
  cbn [load_loop flat_map]. unfold Vocabulary.units_of at 1.
  fold (Units.is_pdf_name name). fold (Units.source_path name).
  destruct (Units.is_pdf_name name) eqn:E.
  - destruct (Hname eq_refl) as [pdf Hpdf]. unfold extract_pdf_content.
    rewrite Hpdf. cbn [bind_result]. rewrite IH by done. by rewrite app_assoc.
  - by rewrite IH.
Qed.

End LoadMore.

Lemma load_loop_ext (fs1 fs2 : FileSystem) (names : list string)
    (documents : list Document) :
  Forall (λ name, Units.is_pdf_name name = true →
                  fitz_open fs1 (Units.source_path name)
                  = fitz_open fs2 (Units.source_path name)) names →
  load_loop fs1 names documents = load_loop fs2 names documents.
Proof.
  revert documents. induction names as [|name names IH]; intros documents Hall.
  { done. }
  apply Forall_cons in Hall as [Hname Hall]. cbn [load_loop].
  fold (Units.is_pdf_name name). fold (Units.source_path name).
  destruct (Units.is_pdf_name name) eqn:E; [|by apply IH].
  unfold extract_pdf_content. rewrite (Hname eq_refl).
  destruct (fitz_open fs2 (Units.source_path name)); [|done].
  cbn [bind_result]. by apply IH.
Qed.

(** X7.  When every PDF of the source directory opens, [load_documents]
    returns the units of the PDFs one file after the other, in the order in
    which the directory lists them; entries whose name does not end in
    [.pdf] contribute nothing. *)
Theorem load_documents_all_open (fs : FileSystem) :
  Forall (λ name, Units.is_pdf_name name = true →
                  ∃ pdf, fitz_open fs (Units.source_path name) = Ok pdf)
         (listdir fs) →
  load_documents fs = Ok (flat_map (Vocabulary.units_of fs) (listdir fs)).
Proof.
  intros Hall. unfold load_documents. by rewrite load_loop_all_open.
Qed.

Lemma load_documents_all_open_witness :
  load_documents Samples.good_dir
  = Ok (flat_map (Vocabulary.units_of Samples.good_dir) (listdir Samples.good_dir)).
Proof.
  apply (load_documents_all_open Samples.good_dir).
  apply Forall_cons. split; [intros H; discriminate H|].
  apply Forall_cons. split; [intros _; eexists; reflexivity|].
  by apply Forall_nil.
Defined.

(** X8.  [load_documents] opens no file but the ones whose name ends in
    [.pdf]: two directories with the same listing that agree on those files
    give the same result, whatever the other entries are. *)
Theorem load_documents_only_pdfs (fs1 fs2 : FileSystem) :
  listdir fs1 = listdir fs2 →
  Forall (λ name, Units.is_pdf_name name = true →
                  fitz_open fs1 (Units.source_path name)
                  = fitz_open fs2 (Units.source_path name))
         (listdir fs1) →
  load_documents fs1 = load_documents fs2.
Proof.
  intros Hdir Hagree. unfold load_documents. rewrite <- Hdir.
  by apply load_loop_ext.
Qed.

Lemma load_documents_only_pdfs_witness :
  load_documents Samples.good_dir = load_documents MoreSamples.lenient_dir.
Proof.
  apply (load_documents_only_pdfs Samples.good_dir MoreSamples.lenient_dir).
  - reflexivity.
  - apply Forall_cons. split; [intros H; discriminate H|].
    apply Forall_cons. split; [intros _; reflexivity|].
    by apply Forall_nil.
Defined.

Section StoreMore.

Variable hash : string → Z.

(** With no id named twice, an upserted entry is found under its id. *)
Lemma upsert_lookup (entries : list (string * Document))
    (db : gmap string Document) (key : string) (doc : Document) :
  NoDup entries.*1 → (key, doc) ∈ entries →
  foldl upsert_step db entries !! key = Some doc.
Proof.
  revert db. induction entries as [|[k d] entries IH]; intros db Hnodup Hin.
  { by apply elem_of_nil in Hin. }
  apply NoDup_cons in Hnodup as [Hk Hnodup]. cbn [foldl].
  apply elem_of_cons in Hin as [[= -> ->]|Hin].
  - rewrite upsert_lookup_other by done. unfold upsert_step. simpl.
    apply lookup_insert_eq.
  - by apply IH.
Qed.

Lemma new_documents_stored (db db' : gmap string Document)
    (documents : list Document) (doc : Document) :
  add_to_chroma hash db documents = Ok db' →
  doc ∈ documents → chunk_id hash doc ∉ dom db →
  db' !! chunk_id hash doc = Some (assign_id hash doc).
Proof.
  unfold add_to_chroma. intros Hadd Hdoc Hfresh.
  assert (assign_id hash doc ∈ new_documents hash db documents) as Hnew.
  { apply new_documents_elem. eauto. }
  destruct (new_documents hash db documents) as [|d new] eqn:E.
  { by apply elem_of_nil in Hnew. }
  change (add_documents db (d :: new) (map id_of (d :: new)) = Ok db') in Hadd.
  remember (d :: new) as l eqn:Hl. clear Hl d new E.
  unfold add_documents in Hadd. case_decide as Hnodup; [|done].
  injection Hadd as <-. rewrite <- (id_of_assign_id hash doc).
  apply upsert_lookup; [by rewrite zip_ids|].
  apply list_elem_of_lookup in Hnew as [i Hi].
  apply list_elem_of_lookup. exists i.
  apply lookup_zip_with_Some. exists (id_of (assign_id hash doc)), (assign_id hash doc).
  split; [done|]. split; [|done].
  change (map id_of l) with (id_of <$> l). by rewrite list_lookup_fmap, Hi.
Qed.

End StoreMore.

(** X9.  A completed write only adds: the ids of the collection afterwards
    are the ones it had plus the ids of the chunks, every entry that was
    there is still there unchanged, and a chunk whose id was new is found
    under its id, with that id written into its metadata. *)
Theorem add_to_chroma_only_adds (hash : string → Z) (db db' : gmap string Document)
    (documents : list Document) :
  add_to_chroma hash db documents = Ok db' →
  dom db' = dom db ∪ list_to_set (map (chunk_id hash) documents)
  ∧ db ⊆ db'
  ∧ ∀ doc, doc ∈ documents → chunk_id hash doc ∉ dom db →
           db' !! chunk_id hash doc
           = Some (mkDocument (page_content doc)
                     (<["id" := MStr (chunk_id hash doc)]> (metadata doc))).
Proof.
  intros Hadd. destruct (add_to_chroma_result hash db db' documents Hadd) as [Hdom Hkeep].
  split; [done|]. split.
  - apply map_subseteq_spec. intros k d Hk. rewrite Hkeep; [done|].
    apply elem_of_dom. by exists d.
  - intros doc Hdoc Hfresh. by apply (new_documents_stored hash db db' documents).
Qed.

Lemma add_to_chroma_only_adds_witness :
  ∃ db', add_to_chroma Samples.hash_seed1 ∅ [Samples.robots_chunk] = Ok db'
         ∧ dom db'
           = dom (∅ : gmap string Document)
             ∪ list_to_set (map (chunk_id Samples.hash_seed1) [Samples.robots_chunk]).
Proof.
  eexists. split; [reflexivity|].
  apply (add_to_chroma_only_adds Samples.hash_seed1 ∅). reflexivity.
Defined.

Lemma ids_consistent_add (hash : string → Z)
    (db db' : gmap string Document) (documents : list Document) :
  Vocabulary.ids_consistent db →
  add_to_chroma hash db documents = Ok db' →
  Vocabulary.ids_consistent db'.
Proof.
  intros Hcons Hadd key doc Hkey.
  destruct (add_to_chroma_result hash db db' documents Hadd) as [Hdom Hkeep].
  destruct (decide (key ∈ dom db)) as [Hold|Hnew].
  { apply Hcons. by rewrite <- Hkeep. }
  assert (key ∈ dom db') as Hin by (apply elem_of_dom; by exists doc).
  rewrite Hdom in Hin. apply elem_of_union in Hin as [?|Hin]; [done|].
  apply elem_of_list_to_set, list_elem_of_fmap in Hin as (d & -> & Hd).
  rewrite (new_documents_stored hash db db' documents d Hadd Hd Hnew) in Hkey.
  injection Hkey as <-. unfold assign_id. simpl. apply lookup_insert_eq.
Qed.

(** X10.  A collection in which every entry is filed under the id its
    metadata names stays so through [add_to_chroma]; the empty collection is
    one.  These ids are what [query_rag] later reports as sources. *)
Theorem add_to_chroma_keeps_ids_consistent (hash : string → Z)
    (db db' : gmap string Document) (documents : list Document) :
  Vocabulary.ids_consistent db →
  add_to_chroma hash db documents = Ok db' →
  Vocabulary.ids_consistent db'
  ∧ Vocabulary.ids_consistent (∅ : gmap string Document).
Proof.
  intros Hcons Hadd. split; [by apply (ids_consistent_add hash db db' documents)|].
  intros key doc H. by rewrite lookup_empty in H.
Qed.

Lemma add_to_chroma_keeps_ids_consistent_witness :
  ∃ db', add_to_chroma Samples.hash_seed1 ∅ [Samples.robots_chunk] = Ok db'
         ∧ Vocabulary.ids_consistent db'.
Proof.
  eexists. split; [reflexivity|].
  apply (add_to_chroma_keeps_ids_consistent Samples.hash_seed1 ∅ _ [Samples.robots_chunk]).
  - intros key doc H. by rewrite lookup_empty in H.
  - reflexivity.
Defined.

(** * The ingestion script as a whole *)

Section MainRuns.

Import PopulateMain.

Variables (fs : FileSystem) (lib : SplitterLib) (hash : string → Z).

(** A run that completes went through the three stages. *)
Lemma main_completes (reset : bool) (dir dir' : option (gmap string Document)) :
  main reset fs lib hash dir = (Ok (), dir') →
  ∃ documents db',
    load_documents fs = Ok documents
    ∧ add_to_chroma hash (open_chroma (if reset then clear_database dir else dir))
        (split_documents lib documents) = Ok db'
    ∧ dir' = Some db'.
Proof.
  unfold main. intros Hmain.
  destruct (load_documents fs) as [documents|e]; [|by inversion Hmain].
  destruct (add_to_chroma hash _ (split_documents lib documents)) as [db'|e] eqn:Hadd;
    [|by inversion Hmain].
  exists documents, db'. split; [done|]. split; [done|]. by inversion Hmain.
Qed.

End MainRuns.

(** X11.  [--reset] deletes the collection before anything is loaded: when
    a PDF of the source directory then fails to open, the run ends in that
    error and leaves no collection behind, while the same run without
    [--reset] leaves the directory as it found it. *)
Theorem main_reset_then_failure (fs : FileSystem) (lib : SplitterLib)
    (hash : string → Z) (dir : option (gmap string Document))
    (pre post : list string) (name : string) (e : Exn) :
  listdir fs = pre ++ name :: post →
  Forall (λ n, Units.is_pdf_name n = true →
               ∃ pdf, fitz_open fs (Units.source_path n) = Ok pdf) pre →
  Units.is_pdf_name name = true →
  fitz_open fs (Units.source_path name) = Raise e →
  PopulateMain.main true fs lib hash dir = (Raise e, None)
  ∧ PopulateMain.main false fs lib hash dir = (Raise e, dir).
Proof.
  intros Hdir Hpre Hname Hopen.
  assert (load_documents fs = Raise e) as Hload.
  { unfold load_documents. rewrite Hdir.
    destruct (load_loop_app fs pre (name :: post) [] Hpre) as [docs ->].
    by apply load_loop_raise. }
  unfold PopulateMain.main. rewrite Hload. by destruct dir.
Qed.

Lemma main_reset_then_failure_witness :
  PopulateMain.main true Samples.source_dir Samples.char_windows Samples.hash_seed1
    (Some {[ "old" := Samples.robots_chunk ]})
  = (Raise (OtherException "FileDataError"), None).
Proof.
  apply (main_reset_then_failure Samples.source_dir Samples.char_windows
           Samples.hash_seed1 (Some {[ "old" := Samples.robots_chunk ]})
           [] ["notes.txt"; "Manual.PDF"] "broken.pdf").
  - reflexivity.
  - by apply Forall_nil.
  - reflexivity.
  - reflexivity.
Defined.

(** X12.  A run with [--reset] that completes leaves exactly the chunks of
    this run: the ids of the collection are the ids of the chunks made from
    the source directory, whatever the collection held before. *)
Theorem main_reset_rebuilds (fs : FileSystem) (lib : SplitterLib)
    (hash : string → Z) (dir dir' : option (gmap string Document)) :
  PopulateMain.main true fs lib hash dir = (Ok (), dir') →
  ∃ documents db',
    load_documents fs = Ok documents
    ∧ dir' = Some db'
    ∧ dom db' = list_to_set (map (chunk_id hash) (split_documents lib documents))
    ∧ ∀ doc, doc ∈ split_documents lib documents →
             db' !! chunk_id hash doc = Some (assign_id hash doc).
Proof.
  intros Hmain.
  destruct (main_completes fs lib hash true dir dir' Hmain)
    as (documents & db' & Hload & Hadd & ->).
  assert (PopulateMain.open_chroma (PopulateMain.clear_database dir) = ∅) as Hempty
    by (by destruct dir).
  rewrite Hempty in Hadd.
  exists documents, db'. split; [done|]. split; [done|].
  destruct (add_to_chroma_result hash _ db' _ Hadd) as [Hdom _].
  split.
  - rewrite Hdom, dom_empty_L. by rewrite (left_id_L ∅ (∪)).
  - intros doc Hdoc. apply (new_documents_stored hash ∅ db' _ doc Hadd Hdoc).
    rewrite dom_empty_L. apply not_elem_of_empty.
Qed.

Lemma main_reset_rebuilds_witness :
  ∃ db', (PopulateMain.main true Samples.good_dir Samples.char_windows
            Samples.hash_seed1 (Some {[ "old" := Samples.robots_chunk ]})).2
         = Some db'
         ∧ dom db'
           = list_to_set
               (map (chunk_id Samples.hash_seed1)
                  (split_documents Samples.char_windows
                     (extract_pages "src/data/source/Manual.PDF" Samples.mixed_pdf))).
Proof.
  assert ((PopulateMain.main true Samples.good_dir Samples.char_windows
             Samples.hash_seed1 (Some {[ "old" := Samples.robots_chunk ]})).1
          = Ok ()) as Hfst by (vm_compute; reflexivity).
  destruct (PopulateMain.main true Samples.good_dir Samples.char_windows
              Samples.hash_seed1 (Some {[ "old" := Samples.robots_chunk ]}))
    as [r dir'] eqn:Hrun.
  simpl in Hfst. subst r.
  destruct (main_reset_rebuilds Samples.good_dir Samples.char_windows
              Samples.hash_seed1 (Some {[ "old" := Samples.robots_chunk ]}) dir' Hrun)
    as (documents & db' & Hload & -> & Hdom & _).
  exists db'. split; [reflexivity|].
  assert (Ok documents
          = Ok (extract_pages "src/data/source/Manual.PDF" Samples.mixed_pdf)) as Heq.
  { rewrite <- Hload. reflexivity. }
  injection Heq as ->. exact Hdom.
Defined.

(** X13.  Run again in the same interpreter process (same [hash]) over the
    same source directory, the script changes nothing: the second run
    completes and leaves the collection of the first run. *)
Theorem main_rerun_same_hash (reset : bool) (fs : FileSystem) (lib : SplitterLib)
    (hash : string → Z) (dir dir' : option (gmap string Document)) :
  PopulateMain.main reset fs lib hash dir = (Ok (), dir') →
  PopulateMain.main false fs lib hash dir' = (Ok (), dir').
Proof.
  intros Hmain.
  destruct (main_completes fs lib hash reset dir dir' Hmain)
    as (documents & db' & Hload & Hadd & ->).
  unfold PopulateMain.main. rewrite Hload.
  change (PopulateMain.open_chroma (Some db')) with db'.
  destruct (add_to_chroma_again_same_hash hash _ db' _ Hadd) as [_ ->]. done.
Qed.

Lemma main_rerun_same_hash_witness :
  ∃ dir', PopulateMain.main true Samples.good_dir Samples.char_windows
            Samples.hash_seed1 None = (Ok (), dir')
          ∧ PopulateMain.main false Samples.good_dir Samples.char_windows
              Samples.hash_seed1 dir' = (Ok (), dir').
Proof.
  assert ((PopulateMain.main true Samples.good_dir Samples.char_windows
             Samples.hash_seed1 None).1 = Ok ()) as Hfst by (vm_compute; reflexivity).
  destruct (PopulateMain.main true Samples.good_dir Samples.char_windows
              Samples.hash_seed1 None) as [r dir'] eqn:Hrun.
  simpl in Hfst. subst r.
  exists dir'. split; [reflexivity|].
  apply (main_rerun_same_hash true Samples.good_dir Samples.char_windows
           Samples.hash_seed1 None dir' Hrun).
Defined.

(** * More on jobs: storage round trip and failures *)

Section JobsMore.

Import QueryModel QueryRag AppWorkHandler AppApiHandler Units.

Variable env : Env.

(** A write that returns went through: the table did not refuse it. *)
Lemma put_item_ok (self : t) (w w' : World) :
  put_item env self w = (Ok (), w') →
  ddb_put_fault env (as_ddb_item self) = None
  ∧ w' = stored w (query_id self) (as_ddb_item self).
Proof.
  intros Hput. destruct (ddb_put_fault env (as_ddb_item self)) as [e|] eqn:Hfault.
  - rewrite (put_item_raises env self w e Hfault) in Hput. discriminate Hput.
  - rewrite (put_item_run env self w Hfault) in Hput. split; [done|].
    by injection Hput as <-.
Qed.

(** Without a [query_text] string the constructor rejects its arguments. *)
Lemma init_requires_query_text (kwargs : gmap string FieldVal) :
  (∀ s, kwargs !! "query_text" ≠ Some (FStr s)) →
  init env kwargs = Raise ValidationError.
Proof.
  intros Htext. unfold init.
  destruct (kwargs !! "query_text") as [[| text | | |]|] eqn:E;
    try (by destruct (Htext text));
    (destruct (kwargs !! "query_id") as [[]|]; cbn [bind_result]; try done;
     destruct (kwargs !! "create_time") as [[| number | | |]|]; cbn [bind_result];
     try done; by destruct (lax_int env number)).
Qed.

End JobsMore.

(** X14.  What [put_item] writes, [get_item] reads back: after a write that
    returned, fetching the job's id gives the very job (its sources being
    strings, as the record declares them), a job without answer included;
    the items under all other ids, the invocations and the prompts are as
    before. *)
Theorem put_item_get_item (env env' : Env) (job : QueryModel.t) (w w' : World) :
  QueryModel.put_item env job w = (Ok (), w') →
  forallb QueryModel.is_str (QueryModel.sources job) = true →
  ddb_get_fault env' (QueryModel.query_id job) = None →
  QueryModel.get_item env' (QueryModel.query_id job) w' = (Ok (Some job), w')
  ∧ (∀ key, key ≠ QueryModel.query_id job → table w' !! key = table w !! key)
  ∧ invocations w' = invocations w
  ∧ prompts w' = prompts w.
Proof.
  intros Hput Hsrc Hget. apply put_item_ok in Hput as [_ ->].
  split; [|split; [|split]].
  - apply get_item_present; [done| |done]. apply table_stored.
  - intros key Hkey. unfold Units.stored. cbn [table].
    by apply lookup_insert_ne.
  - reflexivity.
  - reflexivity.
Qed.

Lemma put_item_get_item_witness :
  ∃ w', QueryModel.put_item Samples.env_sync Samples.pending_job Samples.empty_world
        = (Ok (), w')
        ∧ QueryModel.get_item Samples.env_worker "0f8fad5bd9cb469fa16570867728950e" w'
          = (Ok (Some Samples.pending_job), w').
Proof.
  assert (QueryModel.put_item Samples.env_sync Samples.pending_job Samples.empty_world
          = (Ok (), Units.stored Samples.empty_world "0f8fad5bd9cb469fa16570867728950e"
                      (QueryModel.as_ddb_item Samples.pending_job))) as Hput.
  { apply (put_item_run Samples.env_sync Samples.pending_job). reflexivity. }
  eexists. split; [exact Hput|].
  apply (put_item_get_item Samples.env_sync Samples.env_worker Samples.pending_job
           Samples.empty_world _ Hput); reflexivity.
Defined.

(** X15.  When the table refuses the write, [submit_query_endpoint] ends in
    the table's error and stores nothing.  With a worker configured nothing
    else has happened either: no invocation is issued.  Without a worker
    the pipeline has already run: the prompt went to the model, and its
    answer is lost with the error. *)
Theorem submit_query_put_fails (env : Env) (query_text : string)
    (results : list (Document * Z)) (e : Exn) (w : World) :
  similarity_search_with_score env query_text 5%nat = Ok results →
  (∀ item, ddb_put_fault env item = Some e) →
  ∃ w', AppApiHandler.submit_query_endpoint env query_text w = (Raise e, w')
        ∧ table w' = table w
        ∧ invocations w' = invocations w
        ∧ prompts w'
          = if AppApiHandler.worker_configured env then prompts w
            else prompts w
                 ++ [QueryRag.format_prompt (QueryRag.context_text results) query_text].
Proof.
  intros Hsearch Hput.
  unfold AppApiHandler.submit_query_endpoint, mbind, Py_bind, lift.
  rewrite init_new. destruct (AppApiHandler.worker_configured env).
  - exists w. by rewrite (put_item_raises env _ w e (Hput _)).
  - rewrite (query_rag_run env _ results w Hsearch). cbv zeta.
    eexists. rewrite (put_item_raises env _ _ e (Hput _)). done.
Qed.

Lemma submit_query_put_fails_witness :
  (∃ w', AppApiHandler.submit_query_endpoint
           (MoreSamples.env_put_down (Some "rag-worker")) "Where are robots built?"
           Samples.empty_world
         = (Raise (ClientError "ProvisionedThroughputExceededException"), w')
         ∧ prompts w' = [])
  ∧ (∃ w', AppApiHandler.submit_query_endpoint
             (MoreSamples.env_put_down None) "Where are robots built?"
             Samples.empty_world
           = (Raise (ClientError "ProvisionedThroughputExceededException"), w')
           ∧ length (prompts w') = 1%nat).
Proof.
  split.
  - destruct (submit_query_put_fails (MoreSamples.env_put_down (Some "rag-worker"))
                "Where are robots built?" Samples.results
                (ClientError "ProvisionedThroughputExceededException")
                Samples.empty_world) as (w' & Hrun & _ & _ & Hprompts).
    + reflexivity.
    + intros item. reflexivity.
    + exists w'. split; [exact Hrun|]. exact Hprompts.
  - destruct (submit_query_put_fails (MoreSamples.env_put_down None)
                "Where are robots built?" Samples.results
                (ClientError "ProvisionedThroughputExceededException")
                Samples.empty_world) as (w' & Hrun & _ & _ & Hprompts).
    + reflexivity.
    + intros item. reflexivity.
    + exists w'. split; [exact Hrun|]. rewrite Hprompts. reflexivity.
Defined.

(** X16.  When the Lambda service refuses the invocation, the endpoint ends
    in that error after the pending job has been written: the job stays in
    the table, not complete and without answer, and no worker will ever pick
    it up; [get_query_endpoint] keeps returning it as pending. *)
Theorem submit_query_invoke_fails (env env' : Env) (query_text : string)
    (e : Exn) (w : World) :
  AppApiHandler.worker_configured env = true →
  (∀ item, ddb_put_fault env item = None) →
  (∀ call, lambda_fault env call = Some e) →
  ddb_get_fault env' (uuid4_hex env) = None →
  ∃ w', AppApiHandler.submit_query_endpoint env query_text w = (Raise e, w')
        ∧ invocations w' = invocations w
        ∧ prompts w' = prompts w
        ∧ AppApiHandler.get_query_endpoint env' (uuid4_hex env) w'
          = (Ok (Some (Vocabulary.pending env query_text)), w').
Proof.
  intros Hworker Hput Hlambda Hget.
  set (job := Vocabulary.pending env query_text).
  exists (Units.stored w (uuid4_hex env) (QueryModel.as_ddb_item job)).
  split; [|split; [done|split; [done|]]].
  - unfold AppApiHandler.submit_query_endpoint, mbind, Py_bind, lift.
    rewrite init_new, Hworker. fold (Vocabulary.pending env query_text). fold job.
    rewrite (put_item_run env job w (Hput _)).
    unfold AppApiHandler.invoke_worker. by rewrite Hlambda.
  - unfold AppApiHandler.get_query_endpoint.
    apply (get_item_present env' job); [done| |done]. apply table_stored.
Qed.

Lemma submit_query_invoke_fails_witness :
  ∃ w', AppApiHandler.submit_query_endpoint MoreSamples.env_lambda_down
          "Where are robots built?" Samples.empty_world
        = (Raise (ClientError "ResourceNotFoundException"), w')
        ∧ AppApiHandler.get_query_endpoint Samples.env_sync
            "0f8fad5bd9cb469fa16570867728950e" w'
          = (Ok (Some Samples.pending_job), w').
Proof.
  destruct (submit_query_invoke_fails MoreSamples.env_lambda_down Samples.env_sync
              "Where are robots built?" (ClientError "ResourceNotFoundException")
              Samples.empty_world) as (w' & Hrun & _ & _ & Hget).
  - reflexivity.
  - intros item. reflexivity.
  - intros call. reflexivity.
  - reflexivity.
  - exists w'. split; [exact Hrun|exact Hget].
Defined.

(** X17.  An error of the retrieval step is not turned into an answer: the
    endpoint without a worker and the worker handler both end in that error
    before any prompt is sent and before anything is written, so a job the
    worker was started for stays as it was stored. *)
Theorem retrieval_failure_propagates (env : Env) (job : QueryModel.t)
    (e : Exn) (w : World) :
  similarity_search_with_score env (QueryModel.query_text job) 5%nat = Raise e →
  forallb QueryModel.is_str (QueryModel.sources job) = true →
  QueryRag.query_rag env (QueryModel.query_text job) w = (Raise e, w)
  ∧ AppWorkHandler.handler env (QueryModel.dict job) w = (Raise e, w)
  ∧ (AppApiHandler.worker_configured env = false →
     AppApiHandler.submit_query_endpoint env (QueryModel.query_text job) w
     = (Raise e, w)).
Proof.
  intros Hsearch Hsrc.
  pose proof (query_rag_retrieval_raises env _ e w Hsearch) as Hrag.
  split; [done|]. split.
  - unfold AppWorkHandler.handler, mbind, Py_bind, lift.
    rewrite init_dict by done.
    unfold AppWorkHandler.invoke_rag, mbind, Py_bind. by rewrite Hrag.
  - intros Hworker.
    unfold AppApiHandler.submit_query_endpoint, mbind, Py_bind, lift.
    rewrite init_new, Hworker. by rewrite Hrag.
Qed.

Lemma retrieval_failure_propagates_witness :
  AppWorkHandler.handler (MoreSamples.env_search_down None)
    (QueryModel.dict Samples.pending_job) Samples.world_with_job
  = (Raise (OtherException "InvalidCollectionException"), Samples.world_with_job).
Proof.
  apply (retrieval_failure_propagates (MoreSamples.env_search_down None)
           Samples.pending_job (OtherException "InvalidCollectionException")
           Samples.world_with_job); reflexivity.
Defined.

(** X18.  The asynchronous path end to end.  The endpoint stores the job
    and sends it to the worker; until the worker has run, fetching the id
    gives the pending job; the worker handler, run in its own process on the
    payload of the invocation, completes the job under the same id; fetching
    the id then gives the completed job, with the answer and the sources of
    the worker's retrieval. *)
Theorem async_round_trip (env worker : Env) (query_text : string)
    (results : list (Document * Z)) (w : World) :
  AppApiHandler.worker_configured env = true →
  (∀ item, ddb_put_fault env item = None) →
  (∀ call, lambda_fault env call = None) →
  ddb_get_fault env (uuid4_hex env) = None →
  similarity_search_with_score worker query_text 5%nat = Ok results →
  (∀ item, ddb_put_fault worker item = None) →
  forallb QueryModel.is_str (QueryRag.sources_of results) = true →
  let job := Vocabulary.pending env query_text in
  let prompt := QueryRag.format_prompt (QueryRag.context_text results) query_text in
  let job' := Units.completed job (Units.answer_for (bedrock_invoke worker prompt))
                results in
  ∃ w1 call w2,
    AppApiHandler.submit_query_endpoint env query_text w = (Ok job, w1)
    ∧ invocations w1 = invocations w ++ [call]
    ∧ AppApiHandler.get_query_endpoint env (uuid4_hex env) w1 = (Ok (Some job), w1)
    ∧ AppWorkHandler.handler worker (Payload call) w1 = (Ok (), w2)
    ∧ AppApiHandler.get_query_endpoint env (uuid4_hex env) w2 = (Ok (Some job'), w2)
    ∧ prompts w2 = prompts w ++ [prompt].
Proof.
  intros Hworker Hput Hlambda Hget Hsearch Hput' Hsrc job prompt job'.
  set (call := mkInvocation (WORKER_LAMBDA_NAME env) "Event" (QueryModel.dict job)).
  set (w1 := Units.invoked (Units.stored w (uuid4_hex env) (QueryModel.as_ddb_item job))
               call).
  set (w2 := Units.stored (Units.prompted w1 prompt) (uuid4_hex env)
               (QueryModel.as_ddb_item job')).
  exists w1, call, w2.
  split; [exact (submit_async_run env query_text w Hworker Hput Hlambda)|].
  split; [reflexivity|]. split; [|split; [|split]].
  - unfold AppApiHandler.get_query_endpoint.
    apply (get_item_present env job); [done| |done].
    unfold w1, Units.invoked. cbn [table]. apply table_stored.
  - change (Payload call) with (QueryModel.dict job).
    exact (handler_run worker job results w1 eq_refl Hsearch Hput').
  - unfold AppApiHandler.get_query_endpoint.
    apply (get_item_present env job'); [done| |done]. apply table_stored.
  - reflexivity.
Qed.

Lemma async_round_trip_witness :
  ∃ w1 call w2,
    AppApiHandler.submit_query_endpoint Samples.env_worker "Where are robots built?"
      Samples.empty_world = (Ok Samples.pending_job, w1)
    ∧ invocations w1 = [call]
    ∧ AppWorkHandler.handler MoreSamples.env_in_worker (Payload call) w1 = (Ok (), w2)
    ∧ AppApiHandler.get_query_endpoint Samples.env_worker
        "0f8fad5bd9cb469fa16570867728950e" w2
      = (Ok (Some (Units.completed Samples.pending_job "At AIR Lab." Samples.results)),
         w2).
Proof.
  destruct (async_round_trip Samples.env_worker MoreSamples.env_in_worker
              "Where are robots built?" Samples.results Samples.empty_world)
    as (w1 & call & w2 & Hsubmit & Hcall & _ & Hhandler & Hget & _).
  - reflexivity.
  - intros item. reflexivity.
  - intros call. reflexivity.
  - reflexivity.
  - reflexivity.
  - intros item. reflexivity.
  - reflexivity.
  - exists w1, call, w2.
    split; [exact Hsubmit|]. split; [exact Hcall|]. split; [exact Hhandler|exact Hget].
Defined.

(** X19.  The two dispatch paths end in the same table: for processes that
    draw the same id and time and see the same index and model, the item the
    inline path stores is the item left by the worker after the asynchronous
    path, and the model has been sent the same prompt. *)
Theorem dispatch_paths_agree (env_s env_a worker : Env) (query_text : string)
    (results : list (Document * Z)) (w : World) :
  AppApiHandler.worker_configured env_s = false →
  AppApiHandler.worker_configured env_a = true →
  uuid4_hex env_a = uuid4_hex env_s →
  time_time env_a = time_time env_s →
  similarity_search_with_score env_s query_text 5%nat = Ok results →
  similarity_search_with_score worker query_text 5%nat = Ok results →
  bedrock_invoke worker = bedrock_invoke env_s →
  (∀ item, ddb_put_fault env_s item = None) →
  (∀ item, ddb_put_fault env_a item = None) →
  (∀ item, ddb_put_fault worker item = None) →
  (∀ call, lambda_fault env_a call = None) →
  ∃ job ws job_a wa1 wa2,
    AppApiHandler.submit_query_endpoint env_s query_text w = (Ok job, ws)
    ∧ AppApiHandler.submit_query_endpoint env_a query_text w = (Ok job_a, wa1)
    ∧ AppWorkHandler.handler worker (QueryModel.dict job_a) wa1 = (Ok (), wa2)
    ∧ table wa2 = table ws
    ∧ prompts wa2 = prompts ws
    ∧ table ws !! QueryModel.query_id job = Some (QueryModel.as_ddb_item job).
Proof.
  intros Hs Ha Hid Htime Hsearch Hsearch' Hmodel Hput_s Hput_a Hput_w Hlambda.
  set (job_a := Vocabulary.pending env_a query_text).
  pose proof (submit_sync_run env_s query_text results w Hs Hsearch Hput_s) as Hrun_s.
  pose proof (submit_async_run env_a query_text w Ha Hput_a Hlambda) as Hrun_a.
  cbv zeta in Hrun_s, Hrun_a. fold (Vocabulary.pending env_a query_text) in Hrun_a.
  fold job_a in Hrun_a.
  pose proof (handler_run worker job_a results
                (Units.invoked (Units.stored w (uuid4_hex env_a)
                                  (QueryModel.as_ddb_item job_a))
                   (mkInvocation (WORKER_LAMBDA_NAME env_a) "Event"
                      (QueryModel.dict job_a)))
                eq_refl Hsearch' Hput_w) as Hrun_w.
  cbv zeta in Hrun_w.
  eexists _, _, _, _, _.
  split; [exact Hrun_s|]. split; [exact Hrun_a|]. split; [exact Hrun_w|].
  split; [|split].
  - unfold Units.completed, Units.stored, Units.invoked, Units.prompted, job_a,
      Vocabulary.pending.
    cbn [table prompts invocations QueryModel.query_id QueryModel.create_time
         QueryModel.query_text].
    rewrite Hid, Htime, Hmodel. apply insert_insert_eq.
  - reflexivity.
  - apply table_stored.
Qed.

Lemma dispatch_paths_agree_witness :
  ∃ job ws job_a wa1 wa2,
    AppApiHandler.submit_query_endpoint Samples.env_sync "Where are robots built?"
      Samples.empty_world = (Ok job, ws)
    ∧ AppApiHandler.submit_query_endpoint Samples.env_worker "Where are robots built?"
        Samples.empty_world = (Ok job_a, wa1)
    ∧ AppWorkHandler.handler Samples.env_sync (QueryModel.dict job_a) wa1 = (Ok (), wa2)
    ∧ table wa2 = table ws.
Proof.
  destruct (dispatch_paths_agree Samples.env_sync Samples.env_worker Samples.env_sync
              "Where are robots built?" Samples.results Samples.empty_world)
    as (job & ws & job_a & wa1 & wa2 & H1 & H2 & H3 & H4 & _).
  - reflexivity.
  - reflexivity.
  - reflexivity.
  - reflexivity.
  - reflexivity.
  - reflexivity.
  - reflexivity.
  - intros item. reflexivity.
  - intros item. reflexivity.
  - intros item. reflexivity.
  - intros call. reflexivity.
  - exists job, ws, job_a, wa1, wa2. auto.
Defined.

(** X20.  The worker handler validates its event before it does anything:
    an event without a [query_text] string is rejected with a validation
    error, and no retrieval, no prompt and no write has happened. *)
Theorem handler_rejects_event (env : Env) (event : gmap string FieldVal) (w : World) :
  (∀ s, event !! "query_text" ≠ Some (FStr s)) →
  AppWorkHandler.handler env event w = (Raise QueryModel.ValidationError, w).
Proof.
  intros Htext. unfold AppWorkHandler.handler, mbind, Py_bind, lift.
  by rewrite init_requires_query_text.
Qed.

Lemma handler_rejects_event_witness :
  AppWorkHandler.handler Samples.env_sync {[ "query_id" := FStr "42" ]}
    Samples.world_with_job
  = (Raise QueryModel.ValidationError, Samples.world_with_job).
Proof.
  apply (handler_rejects_event Samples.env_sync {[ "query_id" := FStr "42" ]}
           Samples.world_with_job).
  intros s H. discriminate H.
Defined.

(** * What the query side touches *)

(** X21.  [query_rag] raises only when retrieval does.  When retrieval
    returns, exactly one prompt goes to the model and the call returns a
    response for the question with the sources of the retrieval, whatever
    the model does; when retrieval raises, no prompt is sent.  The job table
    and the Lambda invocations are never touched. *)
Theorem query_rag_effects (env : Env) (query_text : string) (w : World) :
  ∃ r w',
    QueryRag.query_rag env query_text w = (r, w')
    ∧ table w' = table w
    ∧ invocations w' = invocations w
    ∧ match similarity_search_with_score env query_text 5%nat with
      | Ok results =>
          prompts w'
          = prompts w ++ [QueryRag.format_prompt (QueryRag.context_text results) query_text]
          ∧ ∃ answer, r = Ok (QueryRag.mkQueryResponse query_text answer
                                (QueryRag.sources_of results))
      | Raise e => prompts w' = prompts w ∧ r = Raise e
      end.
Proof.
  destruct (similarity_search_with_score env query_text 5%nat) as [results|e] eqn:Hsearch.
  - eexists _, _. split; [exact (query_rag_run env query_text results w Hsearch)|].
    split; [done|]. split; [done|]. split; [done|]. by eexists.
  - exists (Raise e), w.
    split; [exact (query_rag_retrieval_raises env query_text e w Hsearch)|]. done.
Qed.

(** X22.  Whatever the collaborators do, [submit_query_endpoint] touches
    no table entry but the one of the id it drew; with a worker configured
    it sends no prompt to the model, without one it issues no invocation;
    and a job it returns is in the table as returned, under the fresh id,
    carrying the question, complete exactly when no worker is configured. *)
Theorem submit_query_effects (env : Env) (query_text : string) (w : World) :
  ∃ r w',
    AppApiHandler.submit_query_endpoint env query_text w = (r, w')
    ∧ (∀ key, key ≠ uuid4_hex env → table w' !! key = table w !! key)
    ∧ (if AppApiHandler.worker_configured env
       then prompts w' = prompts w
       else invocations w' = invocations w)
    ∧ ∀ job, r = Ok job →
        QueryModel.query_id job = uuid4_hex env
        ∧ QueryModel.query_text job = query_text
        ∧ QueryModel.is_complete job = negb (AppApiHandler.worker_configured env)
        ∧ table w' !! uuid4_hex env = Some (QueryModel.as_ddb_item job).
Proof.
  unfold AppApiHandler.submit_query_endpoint, mbind, Py_bind, lift.
  rewrite init_new. destruct (AppApiHandler.worker_configured env).
  - set (job := QueryModel.mk (uuid4_hex env) (time_time env) query_text None [] false).
    destruct (ddb_put_fault env (QueryModel.as_ddb_item job)) as [e|] eqn:Hput.
    { rewrite (put_item_raises env job w e Hput).
      exists (Raise e), w. split; [done|]. split; [done|]. split; [done|].
      intros job' H. discriminate H. }
    rewrite (put_item_run env job w Hput). unfold AppApiHandler.invoke_worker.
    destruct (lambda_fault env _) as [e|].
    + eexists _, _. split; [done|]. split; [|split; [done|]].
      * intros key Hkey. unfold Units.stored. cbn [table]. by apply lookup_insert_ne.
      * intros job' H. discriminate H.
    + eexists _, _. split; [done|]. split; [|split; [done|]].
      * intros key Hkey. unfold Units.stored. cbn [table]. by apply lookup_insert_ne.
      * intros job' [= <-]. do 3 (split; [done|]).
        unfold Units.stored. cbn [table]. apply lookup_insert_eq.
  - destruct (similarity_search_with_score env query_text 5%nat) as [results|e] eqn:Hsearch.
    2:{ rewrite (query_rag_retrieval_raises env query_text e w Hsearch).
        exists (Raise e), w. split; [done|]. split; [done|]. split; [done|].
        intros job' H. discriminate H. }
    rewrite (query_rag_run env query_text results w Hsearch). cbv zeta.
    cbn [QueryRag.response_text QueryRag.qr_sources QueryModel.query_id
         QueryModel.create_time QueryModel.query_text].
    set (prompt := QueryRag.format_prompt (QueryRag.context_text results) query_text).
    set (job := QueryModel.mk (uuid4_hex env) (time_time env) query_text
                  (Some (Units.answer_for (bedrock_invoke env prompt)))
                  (QueryRag.sources_of results) true).
    destruct (ddb_put_fault env (QueryModel.as_ddb_item job)) as [e|] eqn:Hput.
    { rewrite (put_item_raises env job _ e Hput).
      eexists _, _. split; [done|]. split; [done|]. split; [done|].
      intros job' H. discriminate H. }
    rewrite (put_item_run env job _ Hput).
    eexists _, _. split; [done|]. split; [|split; [done|]].
    + intros key Hkey. unfold Units.stored, Units.prompted. cbn [table].
      by apply lookup_insert_ne.
    + intros job' [= <-]. do 3 (split; [done|]).
      unfold Units.stored. cbn [table]. apply lookup_insert_eq.
Qed.

(** X23.  The worker handler returns only when every step went through:
    the event validated as a job, retrieval returned, and the table accepted
    the write; the job is then in the table under its id, complete, with
    answer and sources, one prompt has been sent, and no other entry has
    changed. *)
Theorem handler_returns (env : Env) (event : gmap string FieldVal) (w w' : World) :
  AppWorkHandler.handler env event w = (Ok (), w') →
  ∃ job results,
    QueryModel.init env event = Ok job
    ∧ similarity_search_with_score env (QueryModel.query_text job) 5%nat = Ok results
    ∧ let prompt := QueryRag.format_prompt (QueryRag.context_text results)
                      (QueryModel.query_text job) in
      let job' := Units.completed job (Units.answer_for (bedrock_invoke env prompt))
                    results in
      table w' = <[QueryModel.query_id job := QueryModel.as_ddb_item job']> (table w)
      ∧ prompts w' = prompts w ++ [prompt]
      ∧ invocations w' = invocations w.
Proof.
  unfold AppWorkHandler.handler, mbind, Py_bind, lift. intros Hrun.
  destruct (QueryModel.init env event) as [job|e]; [|discriminate Hrun].
  unfold AppWorkHandler.invoke_rag, mbind, Py_bind in Hrun.
  destruct (similarity_search_with_score env (QueryModel.query_text job) 5%nat)
    as [results|e] eqn:Hsearch.
  2:{ rewrite (query_rag_retrieval_raises env _ e w Hsearch) in Hrun. discriminate Hrun. }
  rewrite (query_rag_run env _ results w Hsearch) in Hrun. cbv zeta in Hrun.
  cbn [QueryRag.response_text QueryRag.qr_sources] in Hrun.
  exists job, results. split; [done|]. split; [done|]. cbv zeta.
  set (prompt := QueryRag.format_prompt (QueryRag.context_text results)
                   (QueryModel.query_text job)) in *.
  fold (Units.completed job (Units.answer_for (bedrock_invoke env prompt)) results) in Hrun.
  set (job' := Units.completed job (Units.answer_for (bedrock_invoke env prompt)) results)
    in *.
  destruct (ddb_put_fault env (QueryModel.as_ddb_item job')) as [e|] eqn:Hput.
  { rewrite (put_item_raises env job' _ e Hput) in Hrun. discriminate Hrun. }
  rewrite (put_item_run env job' _ Hput) in Hrun. cbn in Hrun.
  injection Hrun as <-. done.
Qed.

Lemma handler_returns_witness :
  ∃ w' job, AppWorkHandler.handler Samples.env_sync (QueryModel.dict Samples.pending_job)
              Samples.world_with_job = (Ok (), w')
            ∧ QueryModel.init Samples.env_sync (QueryModel.dict Samples.pending_job)
              = Ok job
            ∧ length (prompts w') = 1%nat.
Proof.
  pose proof (handler_run Samples.env_sync Samples.pending_job Samples.results
                Samples.world_with_job eq_refl eq_refl (λ _, eq_refl)) as Hrun.
  cbv zeta in Hrun.
  destruct (handler_returns Samples.env_sync (QueryModel.dict Samples.pending_job)
              Samples.world_with_job _ Hrun)
    as (job & results & Hjob & _ & _ & Hprompts & _).
  eexists _, job. split; [exact Hrun|]. split; [exact Hjob|]. reflexivity.
Defined.

(** * From ingestion to the sources of an answer *)

(** X24.  The sources reported for an answer are chunk ids of the
    ingestion run: when the retrieved units are entries of a collection that
    [add_to_chroma] built from scratch, every source is the id computed for
    one of the ingested chunks, and none is the placeholder for a missing
    id unless that is such an id. *)
Theorem sources_are_chunk_ids (hash : string → Z) (db : gmap string Document)
    (documents : list Document) (results : list (Document * Z)) :
  add_to_chroma hash ∅ documents = Ok db →
  Forall (λ result, ∃ key, db !! key = Some result.1) results →
  Forall (λ source, ∃ doc, doc ∈ documents ∧ source = MStr (chunk_id hash doc))
         (QueryRag.sources_of results)
  ∧ forallb QueryModel.is_str (QueryRag.sources_of results) = true.
Proof.
  intros Hadd Hresults.
  assert (Vocabulary.ids_consistent db) as Hcons.
  { apply (ids_consistent_add hash ∅ db documents); [|done].
    intros key doc H. by rewrite lookup_empty in H. }
  destruct (add_to_chroma_result hash ∅ db documents Hadd) as [Hdom _].
  assert (Forall (λ source, ∃ doc, doc ∈ documents ∧ source = MStr (chunk_id hash doc))
            (QueryRag.sources_of results)) as Hall.
  { unfold QueryRag.sources_of. apply Forall_fmap.
    eapply Forall_impl; [exact Hresults|]. intros result [key Hkey]. simpl.
    rewrite (Hcons key result.1 Hkey). simpl.
    assert (key ∈ dom db) as Hin by (apply elem_of_dom; eauto).
    rewrite Hdom, dom_empty_L in Hin.
    apply elem_of_union in Hin as [Hin|Hin]; [by apply elem_of_empty in Hin|].
    apply elem_of_list_to_set, list_elem_of_fmap in Hin as (d & -> & Hd).
    by exists d. }
  split; [done|].
  apply forallb_forall. intros source Hsource.
  apply list_elem_of_In in Hsource.
  rewrite Forall_forall in Hall. by destruct (Hall source Hsource) as (d & _ & ->).
Qed.

Lemma sources_are_chunk_ids_witness :
  ∃ db, add_to_chroma Samples.hash_seed1 ∅ [Samples.robots_chunk] = Ok db
        ∧ forallb QueryModel.is_str
            (QueryRag.sources_of
               [(assign_id Samples.hash_seed1 Samples.robots_chunk, 1)]) = true.
Proof.
  eexists. split; [reflexivity|].
  eapply (sources_are_chunk_ids Samples.hash_seed1 _ [Samples.robots_chunk]
            [(assign_id Samples.hash_seed1 Samples.robots_chunk, 1)]).
  - reflexivity.
  - apply Forall_cons. split; [|by apply Forall_nil].
    exists (chunk_id Samples.hash_seed1 Samples.robots_chunk). vm_compute. reflexivity.
Defined.

(** * The vector store handle of the query side *)

Section ChromaDb.

Import GetChromaDb.

Variable environ : Environ.

Lemma tmp_path_ne (path : string) : "/tmp/" +:+ path ≠ path.
Proof.
  intros H.
  change ("/tmp/" +:+ path)
    with (String "/" (String "t" (String "m" (String "p" (String "/" path))))) in H.
  apply (f_equal String.length) in H. cbn [String.length] in H. lia.
Qed.

Lemma with_dirs_same (p : Process) : with_dirs p (dirs p) = p.
Proof. by destruct p. Qed.

Lemma elem_of_with_store (entries : list string) (name : string) :
  name ∈ with_store entries ↔ name ∈ entries ∨ name = STORE_FILE.
Proof.
  unfold with_store. case_decide as Hin.
  - split; [by left|]. by intros [?| ->].
  - rewrite elem_of_app, list_elem_of_singleton. done.
Qed.

Lemma with_store_id (entries : list string) :
  STORE_FILE ∈ entries → with_store entries = entries.
Proof. intros Hin. unfold with_store. by rewrite decide_True. Qed.

(** In the image runtime the copy comes down to three cases: the
    destination has entries, or it has none and the source is there, or it
    has none and the source is missing. *)
Lemma copy_chroma_to_tmp_cases (p : Process) :
  IS_USING_IMAGE_RUNTIME environ = true →
  let dst := "/tmp/" +:+ CHROMA_PATH environ in
  copy_chroma_to_tmp environ p
  = match dirs p !! dst with
    | Some (_ :: _) => (Ok (), p)
    | _ =>
        match dirs p !! CHROMA_PATH environ with
        | Some entries => (Ok (), with_dirs p (<[dst := entries]> (dirs p)))
        | None => (Raise FileNotFoundError, with_dirs p (<[dst := []]> (dirs p)))
        end
    end.
Proof.
  intros Himg dst. unfold copy_chroma_to_tmp, get_runtime_chroma_path, path_exists.
  rewrite Himg. fold dst.
  assert (dst ≠ CHROMA_PATH environ) as Hne by apply tmp_path_ne.
  destruct (dirs p !! dst) as [[|name contents]|] eqn:Hdst.
  - rewrite bool_decide_eq_true_2 by eauto. rewrite Hdst. cbn [length Nat.eqb].
    unfold copytree. rewrite Hdst.
    destruct (dirs p !! CHROMA_PATH environ) as [entries|]; cbn [default id].
    + by rewrite filter_nil, app_nil_r.
    + by rewrite insert_id, with_dirs_same.
  - rewrite bool_decide_eq_true_2 by eauto. by rewrite Hdst.
  - rewrite bool_decide_eq_false_2 by (intros [? ?]; done).
    unfold with_dirs at 1. cbn [dirs]. rewrite lookup_insert_eq. cbn [length Nat.eqb].
    unfold copytree, with_dirs. cbn [dirs CHROMA_DB_INSTANCE sqlite3_swapped opened].
    rewrite lookup_insert_ne by done. rewrite lookup_insert_eq.
    destruct (dirs p !! CHROMA_PATH environ) as [entries|]; cbn [default id]; [|done].
    by rewrite filter_nil, app_nil_r, insert_insert_eq.
Qed.

(** What [initialise] comes down to, case by case; [opened_on path d] is
    the outcome of opening the store on [path] when the directories are
    [d]. *)
Lemma initialise_cases (p : Process) :
  let src := CHROMA_PATH environ in
  let dst := "/tmp/" +:+ CHROMA_PATH environ in
  let opened_on path (d : gmap string (list string)) swapped :=
    (Ok (mkChroma path),
     mkProcess (Some (mkChroma path))
               (<[path := with_store (default [] (d !! path))]> d) swapped
               (opened p ++ [path])) in
  initialise environ p
  = if IS_USING_IMAGE_RUNTIME environ
    then match dirs p !! dst with
         | Some (_ :: _) => opened_on dst (dirs p) true
         | _ =>
             match dirs p !! src with
             | Some entries => opened_on dst (<[dst := entries]> (dirs p)) true
             | None =>
                 (Raise FileNotFoundError,
                  mkProcess (CHROMA_DB_INSTANCE p) (<[dst := []]> (dirs p)) true
                            (opened p))
             end
         end
    else opened_on src (dirs p) (sqlite3_swapped p).
Proof.
  intros src dst opened_on. unfold initialise, get_runtime_chroma_path.
  destruct (IS_USING_IMAGE_RUNTIME environ) eqn:Himg; [|done].
  rewrite (copy_chroma_to_tmp_cases _ Himg). cbv zeta. cbn [dirs]. fold dst src.
  destruct (dirs p !! dst) as [[|? ?]|]; try done;
    by destruct (dirs p !! src).
Qed.

Lemma initialise_ok (p p' : Process) (c : Chroma) :
  initialise environ p = (Ok c, p') →
  CHROMA_DB_INSTANCE p' = Some c
  ∧ persist_directory c = get_runtime_chroma_path environ.
Proof.
  unfold initialise. intros H.
  destruct (if IS_USING_IMAGE_RUNTIME environ then _ else _) as [[[]|e] p1];
    [|discriminate H].
  unfold open_store in H. by injection H as <- <-.
Qed.

Lemma initialise_raise (p p' : Process) (e : Exn) :
  initialise environ p = (Raise e, p') → CHROMA_DB_INSTANCE p' = CHROMA_DB_INSTANCE p.
Proof.
  rewrite initialise_cases. cbv zeta. intros H.
  destruct (IS_USING_IMAGE_RUNTIME environ); [|discriminate H].
  destruct (dirs p !! ("/tmp/" +:+ CHROMA_PATH environ)) as [[|? ?]|];
    try discriminate H;
    (destruct (dirs p !! CHROMA_PATH environ); [discriminate H|];
     by injection H as _ <-).
Qed.

(** Entries are added, never removed. *)
Lemma initialise_keeps (p : Process) (path name : string) :
  name ∈ default [] (dirs p !! path) →
  name ∈ default [] (dirs (initialise environ p).2 !! path).
Proof.
  intros Hname. rewrite initialise_cases. cbv zeta.
  assert (∀ (d : gmap string (list string)) target,
            name ∈ default [] (d !! path) →
            name ∈ default [] (<[target := with_store (default [] (d !! target))]> d
                               !! path)) as Hopen.
  { intros d target Hd. destruct (decide (target = path)) as [->|Hne].
    - rewrite lookup_insert_eq. cbn [default]. apply elem_of_with_store. by left.
    - by rewrite lookup_insert_ne. }
  destruct (IS_USING_IMAGE_RUNTIME environ); [|by apply Hopen].
  set (dst := "/tmp/" +:+ CHROMA_PATH environ).
  assert (default [] (dirs p !! dst) = [] →
          ∀ entries, name ∈ default [] (<[dst := entries]> (dirs p) !! path)) as Hfresh.
  { intros Hempty entries. destruct (decide (dst = path)) as [<-|Hne].
    - rewrite Hempty in Hname. by apply elem_of_nil in Hname.
    - by rewrite lookup_insert_ne. }
  destruct (dirs p !! dst) as [[|? ?]|] eqn:Hdst.
  - destruct (dirs p !! CHROMA_PATH environ) as [entries|]; cbn [snd dirs].
    + apply Hopen. by apply Hfresh.
    + by apply Hfresh.
  - cbn [snd dirs]. rewrite <- Hdst. by apply Hopen.
  - destruct (dirs p !! CHROMA_PATH environ) as [entries|]; cbn [snd dirs].
    + apply Hopen. by apply Hfresh.
    + by apply Hfresh.
Qed.

(** Of the recorded directories only the runtime path changes. *)
Lemma initialise_frame (p : Process) (path : string) :
  path ≠ get_runtime_chroma_path environ →
  dirs (initialise environ p).2 !! path = dirs p !! path.
Proof.
  intros Hpath. rewrite initialise_cases. cbv zeta.
  unfold get_runtime_chroma_path in Hpath.
  destruct (IS_USING_IMAGE_RUNTIME environ).
  - destruct (dirs p !! ("/tmp/" +:+ CHROMA_PATH environ)) as [[|? ?]|];
      try (cbn [snd dirs]; by rewrite lookup_insert_ne);
      (destruct (dirs p !! CHROMA_PATH environ); cbn [snd dirs];
       by rewrite !lookup_insert_ne).
  - cbn [snd dirs]. by rewrite lookup_insert_ne.
Qed.

End ChromaDb.

(** X25.  The handle is created once per process: after a call that
    returned a handle (one that counts as true in [not CHROMA_DB_INSTANCE]),
    the global holds it, and every later call returns that handle and
    changes nothing: no copy, no second store opened.  A handle created by
    the call is on the runtime path. *)
Theorem get_chroma_db_singleton (truth : GetChromaDb.Chroma → bool)
    (environ : GetChromaDb.Environ) (p p' : GetChromaDb.Process)
    (c : GetChromaDb.Chroma) :
  GetChromaDb.get_chroma_db truth environ p = (Ok c, p') →
  truth c = true →
  GetChromaDb.CHROMA_DB_INSTANCE p' = Some c
  ∧ GetChromaDb.get_chroma_db truth environ p' = (Ok c, p')
  ∧ (GetChromaDb.CHROMA_DB_INSTANCE p = None →
     GetChromaDb.persist_directory c = GetChromaDb.get_runtime_chroma_path environ).
Proof.
  intros Hrun Htruth.
  assert (GetChromaDb.CHROMA_DB_INSTANCE p' = Some c
          ∧ (GetChromaDb.CHROMA_DB_INSTANCE p = None →
             GetChromaDb.persist_directory c
             = GetChromaDb.get_runtime_chroma_path environ)) as [Hinst Hdir].
  { unfold GetChromaDb.get_chroma_db in Hrun.
    destruct (GetChromaDb.CHROMA_DB_INSTANCE p) as [i|] eqn:Hp.
    - destruct (truth i).
      + injection Hrun as <- <-. by split.
      + apply initialise_ok in Hrun as [? _]. by split.
    - apply initialise_ok in Hrun as [? ?]. by split. }
  split; [done|]. split; [|done].
  unfold GetChromaDb.get_chroma_db. by rewrite Hinst, Htruth.
Qed.

Lemma get_chroma_db_singleton_witness :
  ∃ c p', GetChromaDb.get_chroma_db (λ _, true) MoreSamples.lambda_environ
            MoreSamples.cold_process = (Ok c, p')
          ∧ GetChromaDb.get_chroma_db (λ _, true) MoreSamples.lambda_environ p'
            = (Ok c, p').
Proof.
  eexists _, _. split; [reflexivity|].
  apply (get_chroma_db_singleton (λ _, true) MoreSamples.lambda_environ
           MoreSamples.cold_process); reflexivity.
Defined.

(** X26.  [get_chroma_db] never removes an entry of a directory, and in
    the image runtime it only reads the packaged collection: the directory
    [CHROMA_PATH] has the same entries after the call as before.  Outside
    the image runtime nothing is copied and [sqlite3] is left alone: the
    only entry that can appear is the store file, in [CHROMA_PATH] itself,
    which the store creates when it is opened there.  A call that raises
    leaves the global as it was; a call that returns a handle leaves that
    handle in the global. *)
Theorem get_chroma_db_frame (truth : GetChromaDb.Chroma → bool)
    (environ : GetChromaDb.Environ) (p : GetChromaDb.Process) :
  ∃ r p',
    GetChromaDb.get_chroma_db truth environ p = (r, p')
    ∧ (∀ path name, name ∈ default [] (GetChromaDb.dirs p !! path) →
                    name ∈ default [] (GetChromaDb.dirs p' !! path))
    ∧ (GetChromaDb.IS_USING_IMAGE_RUNTIME environ = true →
       GetChromaDb.dirs p' !! GetChromaDb.CHROMA_PATH environ
       = GetChromaDb.dirs p !! GetChromaDb.CHROMA_PATH environ)
    ∧ (GetChromaDb.IS_USING_IMAGE_RUNTIME environ = false →
       GetChromaDb.sqlite3_swapped p' = GetChromaDb.sqlite3_swapped p
       ∧ ∀ path name, name ∈ default [] (GetChromaDb.dirs p' !! path) →
           name ∈ default [] (GetChromaDb.dirs p !! path)
           ∨ (path = GetChromaDb.CHROMA_PATH environ
              ∧ name = GetChromaDb.STORE_FILE))
    ∧ (∀ e, r = Raise e →
            GetChromaDb.CHROMA_DB_INSTANCE p' = GetChromaDb.CHROMA_DB_INSTANCE p)
    ∧ (∀ c, r = Ok c → GetChromaDb.CHROMA_DB_INSTANCE p' = Some c).
Proof.
  assert (∃ r p', GetChromaDb.initialise environ p = (r, p')
    ∧ (∀ path name, name ∈ default [] (GetChromaDb.dirs p !! path) →
                    name ∈ default [] (GetChromaDb.dirs p' !! path))
    ∧ (GetChromaDb.IS_USING_IMAGE_RUNTIME environ = true →
       GetChromaDb.dirs p' !! GetChromaDb.CHROMA_PATH environ
       = GetChromaDb.dirs p !! GetChromaDb.CHROMA_PATH environ)
    ∧ (GetChromaDb.IS_USING_IMAGE_RUNTIME environ = false →
       GetChromaDb.sqlite3_swapped p' = GetChromaDb.sqlite3_swapped p
       ∧ ∀ path name, name ∈ default [] (GetChromaDb.dirs p' !! path) →
           name ∈ default [] (GetChromaDb.dirs p !! path)
           ∨ (path = GetChromaDb.CHROMA_PATH environ
              ∧ name = GetChromaDb.STORE_FILE))
    ∧ (∀ e, r = Raise e →
            GetChromaDb.CHROMA_DB_INSTANCE p' = GetChromaDb.CHROMA_DB_INSTANCE p)
    ∧ (∀ c, r = Ok c → GetChromaDb.CHROMA_DB_INSTANCE p' = Some c))
    as Hinit.
  { destruct (GetChromaDb.initialise environ p) as [r p'] eqn:Hrun.
    exists r, p'. split; [done|]. split; [|split; [|split; [|split]]].
    - intros path name Hname.
      pose proof (initialise_keeps environ p path name Hname) as H.
      by rewrite Hrun in H.
    - intros Himg.
      pose proof (initialise_frame environ p (GetChromaDb.CHROMA_PATH environ)) as H.
      rewrite Hrun in H. apply H.
      unfold GetChromaDb.get_runtime_chroma_path. rewrite Himg.
      intros Heq. by apply (tmp_path_ne (GetChromaDb.CHROMA_PATH environ)).
    - intros Himg. rewrite initialise_cases in Hrun. cbv zeta in Hrun.
      rewrite Himg in Hrun. injection Hrun as <- <-.
      split; [done|]. intros path name. cbn [GetChromaDb.dirs].
      destruct (decide (GetChromaDb.CHROMA_PATH environ = path)) as [<-|Hne].
      + rewrite lookup_insert_eq. cbn [default].
        intros [?| ->]%elem_of_with_store; [by left|by right].
      + rewrite lookup_insert_ne by done. by left.
    - intros e ->. by apply (initialise_raise environ p p' e).
    - intros c ->. by apply (initialise_ok environ p p' c). }
  unfold GetChromaDb.get_chroma_db.
  destruct (GetChromaDb.CHROMA_DB_INSTANCE p) as [i|] eqn:Hp; [|exact Hinit].
  destruct (truth i); [|exact Hinit].
  exists (Ok i), p. split; [done|]. split; [done|]. split; [done|].
  split; [by split; [|left]|]. split.
  - intros e H. discriminate H.
  - intros c [= <-]. done.
Qed.

(** X27.  First call in a fresh container: with the runtime variable set to
    any non-empty text (the text [False] included), the runtime directory
    under [/tmp] absent or empty and the packaged collection in place, the
    call replaces [sqlite3], copies the entries of the collection to the
    runtime directory, and opens the store there, which adds the store file
    when the packaged collection came without one. *)
Theorem get_chroma_db_cold_start (truth : GetChromaDb.Chroma → bool)
    (environ : GetChromaDb.Environ) (p : GetChromaDb.Process)
    (value : string) (entries : list string) :
  GetChromaDb.env_IS_USING_IMAGE_RUNTIME environ = Some value →
  value ≠ "" →
  GetChromaDb.CHROMA_DB_INSTANCE p = None →
  default [] (GetChromaDb.dirs p !! ("/tmp/" +:+ GetChromaDb.CHROMA_PATH environ)) = [] →
  GetChromaDb.dirs p !! GetChromaDb.CHROMA_PATH environ = Some entries →
  let dst := "/tmp/" +:+ GetChromaDb.CHROMA_PATH environ in
  GetChromaDb.get_chroma_db truth environ p
  = (Ok (GetChromaDb.mkChroma dst),
     GetChromaDb.mkProcess (Some (GetChromaDb.mkChroma dst))
       (<[dst := GetChromaDb.with_store entries]> (GetChromaDb.dirs p)) true
       (GetChromaDb.opened p ++ [dst]))
  ∧ (∀ name, name ∈ GetChromaDb.with_store entries
             ↔ name ∈ entries ∨ name = GetChromaDb.STORE_FILE)
  ∧ (GetChromaDb.STORE_FILE ∈ entries → GetChromaDb.with_store entries = entries).
Proof.
  intros Hvar Hvalue Hnone Hdst Hsrc dst.
  split; [|split; [apply elem_of_with_store|apply with_store_id]].
  assert (GetChromaDb.IS_USING_IMAGE_RUNTIME environ = true) as Himg.
  { unfold GetChromaDb.IS_USING_IMAGE_RUNTIME. rewrite Hvar. by destruct value. }
  unfold GetChromaDb.get_chroma_db. rewrite Hnone.
  rewrite initialise_cases. cbv zeta. rewrite Himg, Hsrc. fold dst. fold dst in Hdst.
  rewrite lookup_insert_eq, insert_insert_eq. cbn [default].
  by destruct (GetChromaDb.dirs p !! dst) as [[|name contents]|].
Qed.

Lemma get_chroma_db_cold_start_witness :
  GetChromaDb.get_chroma_db (λ _, true)
    (GetChromaDb.mkEnviron None (Some "False")) MoreSamples.cold_process
  = (Ok (GetChromaDb.mkChroma "/tmp/data/chroma"),
     GetChromaDb.mkProcess (Some (GetChromaDb.mkChroma "/tmp/data/chroma"))
       (<["/tmp/data/chroma" := ["chroma.sqlite3"; "index"] ]>
          (GetChromaDb.dirs MoreSamples.cold_process)) true ["/tmp/data/chroma"])
  ∧ GetChromaDb.get_chroma_db (λ _, true)
      (GetChromaDb.mkEnviron None (Some "False")) MoreSamples.empty_collection_process
    = (Ok (GetChromaDb.mkChroma "/tmp/data/chroma"),
       GetChromaDb.mkProcess (Some (GetChromaDb.mkChroma "/tmp/data/chroma"))
         (<["/tmp/data/chroma" := ["chroma.sqlite3"] ]>
            (GetChromaDb.dirs MoreSamples.empty_collection_process)) true
         ["/tmp/data/chroma"]).
Proof.
  split.
  - apply (get_chroma_db_cold_start (λ _, true)
             (GetChromaDb.mkEnviron None (Some "False")) MoreSamples.cold_process
             "False" ["chroma.sqlite3"; "index"]).
    + reflexivity.
    + intros H. discriminate H.
    + reflexivity.
    + reflexivity.
    + reflexivity.
  - apply (get_chroma_db_cold_start (λ _, true)
             (GetChromaDb.mkEnviron None (Some "False"))
             MoreSamples.empty_collection_process "False" []).
    + reflexivity.
    + intros H. discriminate H.
    + reflexivity.
    + reflexivity.
    + reflexivity.
Defined.

(** X28.  The copy is made once per container, not once per deployment:
    when the runtime directory already has an entry, nothing is copied and
    the packaged collection is not even looked at; the store is opened on
    what the runtime directory holds.  The one entry that can appear is the
    store file, created by the store when the runtime directory lacks it;
    with the store file in place no directory changes. *)
Theorem get_chroma_db_keeps_tmp (truth : GetChromaDb.Chroma → bool)
    (environ : GetChromaDb.Environ) (p : GetChromaDb.Process)
    (name : string) (contents : list string) :
  GetChromaDb.IS_USING_IMAGE_RUNTIME environ = true →
  GetChromaDb.CHROMA_DB_INSTANCE p = None →
  GetChromaDb.dirs p !! ("/tmp/" +:+ GetChromaDb.CHROMA_PATH environ)
  = Some (name :: contents) →
  let dst := "/tmp/" +:+ GetChromaDb.CHROMA_PATH environ in
  ∃ p', GetChromaDb.get_chroma_db truth environ p = (Ok (GetChromaDb.mkChroma dst), p')
        ∧ GetChromaDb.dirs p'
          = <[dst := GetChromaDb.with_store (name :: contents)]> (GetChromaDb.dirs p)
        ∧ (∀ entry, entry ∈ GetChromaDb.with_store (name :: contents)
                    ↔ entry ∈ name :: contents ∨ entry = GetChromaDb.STORE_FILE)
        ∧ (GetChromaDb.STORE_FILE ∈ name :: contents →
           GetChromaDb.dirs p' = GetChromaDb.dirs p).
Proof.
  intros Himg Hnone Hdst dst. fold dst in Hdst.
  unfold GetChromaDb.get_chroma_db. rewrite Hnone.
  rewrite initialise_cases. cbv zeta. rewrite Himg. fold dst. rewrite Hdst.
  cbn [default]. eexists. split; [reflexivity|]. cbn [GetChromaDb.dirs].
  split; [done|]. split; [apply elem_of_with_store|].
  intros Hstore. rewrite with_store_id by done. by apply insert_id.
Qed.

Lemma get_chroma_db_keeps_tmp_witness :
  (∃ p', GetChromaDb.get_chroma_db (λ _, true) MoreSamples.lambda_environ
           MoreSamples.warm_process
         = (Ok (GetChromaDb.mkChroma "/tmp/data/chroma"), p')
         ∧ GetChromaDb.dirs p' = GetChromaDb.dirs MoreSamples.warm_process)
  ∧ (∃ p', GetChromaDb.get_chroma_db (λ _, true) MoreSamples.lambda_environ
             MoreSamples.partial_process
           = (Ok (GetChromaDb.mkChroma "/tmp/data/chroma"), p')
           ∧ GetChromaDb.dirs p' !! "/tmp/data/chroma"
             = Some ["index"; "chroma.sqlite3"]).
Proof.
  split.
  - destruct (get_chroma_db_keeps_tmp (λ _, true) MoreSamples.lambda_environ
                MoreSamples.warm_process "chroma.sqlite3" [])
      as (p' & Hrun & _ & _ & Hsame).
    + reflexivity.
    + reflexivity.
    + reflexivity.
    + exists p'. split; [exact Hrun|]. apply Hsame. apply list_elem_of_here.
  - destruct (get_chroma_db_keeps_tmp (λ _, true) MoreSamples.lambda_environ
                MoreSamples.partial_process "index" [])
      as (p' & Hrun & Hdirs & _).
    + reflexivity.
    + reflexivity.
    + reflexivity.
    + exists p'. split; [exact Hrun|]. rewrite Hdirs. apply lookup_insert_eq.
Defined.

(** X29.  When the packaged collection is missing in the image runtime, the
    call raises the error of the copy; the runtime directory has been
    created and stays empty, the global stays unset, and every later call
    fails the same way. *)
Theorem get_chroma_db_missing_source (truth : GetChromaDb.Chroma → bool)
    (environ : GetChromaDb.Environ) (p : GetChromaDb.Process) :
  GetChromaDb.IS_USING_IMAGE_RUNTIME environ = true →
  GetChromaDb.CHROMA_DB_INSTANCE p = None →
  default [] (GetChromaDb.dirs p !! ("/tmp/" +:+ GetChromaDb.CHROMA_PATH environ)) = [] →
  GetChromaDb.dirs p !! GetChromaDb.CHROMA_PATH environ = None →
  ∃ p', GetChromaDb.get_chroma_db truth environ p = (Raise GetChromaDb.FileNotFoundError, p')
        ∧ GetChromaDb.CHROMA_DB_INSTANCE p' = None
        ∧ GetChromaDb.dirs p' !! ("/tmp/" +:+ GetChromaDb.CHROMA_PATH environ) = Some []
        ∧ GetChromaDb.opened p' = GetChromaDb.opened p
        ∧ GetChromaDb.get_chroma_db truth environ p'
          = (Raise GetChromaDb.FileNotFoundError, p').
Proof.
  intros Himg Hnone Hdst Hsrc.
  set (dst := "/tmp/" +:+ GetChromaDb.CHROMA_PATH environ) in *.
  assert (dst ≠ GetChromaDb.CHROMA_PATH environ) as Hne by apply tmp_path_ne.
  set (p' := GetChromaDb.mkProcess None (<[dst := []]> (GetChromaDb.dirs p)) true
               (GetChromaDb.opened p)).
  assert (∀ q, GetChromaDb.CHROMA_DB_INSTANCE q = None →
               default [] (GetChromaDb.dirs q !! dst) = [] →
               GetChromaDb.dirs q !! GetChromaDb.CHROMA_PATH environ = None →
               GetChromaDb.get_chroma_db truth environ q
               = (Raise GetChromaDb.FileNotFoundError,
                  GetChromaDb.mkProcess None (<[dst := []]> (GetChromaDb.dirs q)) true
                    (GetChromaDb.opened q))) as Hcall.
  { intros q Hq Hqdst Hqsrc. unfold GetChromaDb.get_chroma_db. rewrite Hq.
    rewrite initialise_cases. cbv zeta. rewrite Himg. fold dst. rewrite Hqsrc, Hq.
    destruct (GetChromaDb.dirs q !! dst) as [[|? ?]|]; done. }
  exists p'. split; [by apply Hcall|]. split; [done|].
  split; [apply lookup_insert_eq|]. split; [done|].
  rewrite (Hcall p'); [|done| |].
  - unfold p'. cbn [GetChromaDb.dirs GetChromaDb.opened]. by rewrite insert_insert_eq.
  - unfold p'. cbn [GetChromaDb.dirs]. by rewrite lookup_insert_eq.
  - unfold p'. cbn [GetChromaDb.dirs]. by rewrite lookup_insert_ne.
Qed.

Lemma get_chroma_db_missing_source_witness :
  ∃ p', GetChromaDb.get_chroma_db (λ _, true) MoreSamples.lambda_environ
          MoreSamples.bare_process = (Raise GetChromaDb.FileNotFoundError, p')
        ∧ GetChromaDb.CHROMA_DB_INSTANCE p' = None.
Proof.
  destruct (get_chroma_db_missing_source (λ _, true) MoreSamples.lambda_environ
              MoreSamples.bare_process) as (p' & Hrun & Hinst & _).
  - reflexivity.
  - reflexivity.
  - reflexivity.
  - reflexivity.
  - exists p'. split; [exact Hrun|exact Hinst].
Defined.

(** * Which directory entries are read *)

Section Names.

Import PyStr.

Lemma app_cons (c : ascii) (a b : string) : String c a +:+ b = String c (a +:+ b).
Proof. reflexivity. Qed.

Lemma app_empty (b : string) : "" +:+ b = b.
Proof. reflexivity. Qed.

Lemma app_assoc_str (a b c : string) : (a +:+ b) +:+ c = a +:+ (b +:+ c).
Proof.
  induction a as [|x a IH]; [done|]. rewrite !app_cons. by rewrite IH.
Qed.

Lemma lower_app (a b : string) : lower (a +:+ b) = lower a +:+ lower b.
Proof.
  induction a as [|c a IH]; [done|].
  rewrite app_cons. cbn [lower]. by rewrite IH, app_cons.
Qed.

Lemma lower_split (name x y : string) :
  lower name = x +:+ y → ∃ a b, name = a +:+ b ∧ lower a = x ∧ lower b = y.
Proof.
  revert name. induction x as [|c x IH]; intros name H.
  { by exists "", name. }
  destruct name as [|d name]; [discriminate H|].
  rewrite app_cons in H. cbn [lower] in H. injection H as Hc H.
  destruct (IH name H) as (a & b & -> & Ha & Hb).
  exists (String d a), b. split; [done|]. split; [|done].
  cbn [lower]. by rewrite Hc, Ha.
Qed.

Lemma rev_app_app (a b acc : string) :
  String.rev_app (a +:+ b) acc = String.rev_app b (String.rev_app a acc).
Proof.
  revert acc. induction a as [|c a IH]; intros acc; [done|].
  rewrite app_cons. cbn [String.rev_app]. apply IH.
Qed.

Lemma rev_app_acc (s acc : string) :
  String.rev_app s acc = String.rev_app s "" +:+ acc.
Proof.
  revert acc. induction s as [|c s IH]; intros acc; [done|].
  cbn [String.rev_app]. rewrite (IH (String c acc)), (IH (String c "")).
  by rewrite app_assoc_str.
Qed.

Lemma rev_app_distr (a b : string) :
  String.rev (a +:+ b) = String.rev b +:+ String.rev a.
Proof. unfold String.rev. by rewrite rev_app_app, rev_app_acc. Qed.

Lemma rev_involutive (s : string) : String.rev (String.rev s) = s.
Proof.
  induction s as [|c s IH]; [done|].
  change (String c s) with (String c "" +:+ s) at 1.
  rewrite rev_app_distr, rev_app_distr. rewrite IH. done.
Qed.

Lemma startswith_app (p rest : string) : startswith (p +:+ rest) p = true.
Proof.
  induction p as [|c p IH]; [by destruct rest|].
  rewrite app_cons. cbn [startswith]. by rewrite decide_True.
Qed.

Lemma startswith_split (s p : string) :
  startswith s p = true → ∃ rest, s = p +:+ rest.
Proof.
  revert s. induction p as [|c p IH]; intros s H.
  { by exists s. }
  destruct s as [|d s]; [discriminate H|]. cbn [startswith] in H.
  destruct (decide (c = d)) as [->|]; [|discriminate H].
  destruct (IH s H) as [rest ->]. by exists rest.
Qed.

Lemma endswith_iff (s suffix : string) :
  endswith s suffix = true ↔ ∃ stem, s = stem +:+ suffix.
Proof.
  unfold endswith. split.
  - intros H. apply startswith_split in H as [rest H].
    exists (String.rev rest). apply (f_equal String.rev) in H.
    by rewrite rev_involutive, rev_app_distr, rev_involutive in H.
  - intros [stem ->]. rewrite rev_app_distr. apply startswith_app.
Qed.

End Names.

(** X30.  [load_documents] reads the directory entries whose name ends in
    [.pdf] in any letter case, and no others: an entry passes the test
    exactly when it is some stem followed by four characters that lower to
    [.pdf]. *)
Theorem pdf_names_any_case (file_name : string) :
  Units.is_pdf_name file_name = true
  ↔ ∃ stem ext, file_name = stem +:+ ext ∧ PyStr.lower ext = ".pdf".
Proof.
  unfold Units.is_pdf_name. rewrite endswith_iff. split.
  - intros [x Hx]. apply lower_split in Hx as (stem & ext & -> & _ & Hext).
    by exists stem, ext.
  - intros (stem & ext & -> & Hext). exists (PyStr.lower stem).
    by rewrite lower_app, Hext.
Qed.
